(** * Kernel session lifecycle of vscode-jupyter

    A shallow embedding of [BaseJupyterSession] (baseJupyterSession.ts) and of
    the retry loop of [JupyterExecutionBase.connectToNotebookServer]
    (jupyterExecution.ts).

    The TypeScript objects live in a store: a session handle
    ([ISessionWithSocket]) is a reference into [heap], so that the active
    session, a saved [oldSession] and the continuation of a fire-and-forget
    shutdown all see the same object.  Asynchronous functions are state
    transformers; a call that is not awaited runs up to its first suspension
    and leaves its continuation in [pending]. *)

From stdpp Require Import base numbers option list strings gmap.

Open Scope string_scope.
Open Scope list_scope.

(** ** Data *)

Module Kernel.
(** [Kernel.Status] of @jupyterlab/services, the values [getServerStatus]
    switches over, plus ['unknown']. *)
Inductive Status :=
| unknown | starting | reconnecting | idle | busy
| restarting | autorestarting | dead | connected.

#[global] Instance Status_eq_dec : EqDecision Status.
Proof. solve_decision. Defined.

(** Which of [id], [name] and [status] are own enumerable properties of the
    kernel object, the ones an object spread copies.  The connection class
    of @jupyterlab/services defines all three as accessors: none is copied. *)
Record Own := { ownId : bool; ownName : bool; ownStatus : bool }.

#[global] Instance Own_eq_dec : EqDecision Own.
Proof. solve_decision. Defined.

Definition accessors : Own := {| ownId := false; ownName := false; ownStatus := false |}.

(** The part of [Kernel.IKernelConnection] the session code reads, and how
    the object holds it. *)
Record t := mk { id : string; name : string; status : Status; own : Own }.

#[global] Instance t_eq_dec : EqDecision t.
Proof. solve_decision. Defined.

(** [{...kernel}]: what the spread holds of the three properties. *)
Record Spread := {
  spread_id : option string;
  spread_name : option string;
  spread_status : option Status
}.

Definition spread (k : option t) : Spread :=
  match k with
  | Some k =>
      {| spread_id := if ownId (own k) then Some (id k) else None;
         spread_name := if ownName (own k) then Some (name k) else None;
         spread_status := if ownStatus (own k) then Some (status k) else None |}
  | None => {| spread_id := None; spread_name := None; spread_status := None |}
  end.
End Kernel.

Module ServerStatus.
Inductive t := NotStarted | Starting | Idle | Busy | Restarting | Dead.
End ServerStatus.

Inductive ConnectionKind :=
| connectToLiveKernel
| startUsingKernelSpec
| startUsingDefaultKernel
| startUsingPythonInterpreter.

#[global] Instance ConnectionKind_eq_dec : EqDecision ConnectionKind.
Proof. solve_decision. Defined.

Record IJupyterKernelSpec := { display_name : string }.

#[global] Instance IJupyterKernelSpec_eq_dec : EqDecision IJupyterKernelSpec.
Proof. solve_decision. Defined.

Module KernelConnectionMetadata.
(** The tagged union of kernels/types.ts: every variant has [kind] and [id];
    [kernelSpec] is absent from the live variant and optional in the default
    one. *)
Record t := mk {
  kind : ConnectionKind;
  id : string;
  kernelSpec : option IJupyterKernelSpec
}.

#[global] Instance t_eq_dec : EqDecision t.
Proof. solve_decision. Defined.
End KernelConnectionMetadata.

(** [Resource = Uri | undefined]. *)
Record Uri := { fsPath : string }.

#[global] Instance Uri_eq_dec : EqDecision Uri.
Proof. solve_decision. Defined.
Definition Resource := option Uri.

(** The kernel model built when the kernel dies during a wait:
    [{...session.kernel, lastActivityTime, numberOfConnections: 0, session}]
    (the date and the session model are not kept). *)
Record LiveKernelModel := {
  model_kernel : Kernel.Spread;
  numberOfConnections : nat
}.

Inductive JsError :=
| Error (message : string)
| TypeError
| JupyterWaitForIdleError (message : string)
| JupyterInvalidKernelError (kernelModel : LiveKernelModel) (kind : ConnectionKind) (id : option string)
| JupyterKernelPromiseFailedError (message : string)
| FalsyReason.

(** How an awaited call to the backend settles. *)
Inductive Reply :=
| Resolves
| Rejects (reason : JsError)
| NeverSettles.

(** [session.shutdown()]: when it resolves the library may already have
    disposed the handle. *)
Inductive ShutdownReply :=
| ShutdownResolves (handleDisposed : bool)
| ShutdownRejects (reason : JsError)
| ShutdownHangs.

(** Slots connected to a session's signals.  [statusHandler] and
    [ioPubHandler] are the two bound once in the constructor; each call of
    [waitForIdleOnSession] creates two fresh closures. *)
Inductive Slot :=
| statusHandler
| ioPubHandler
| statusChangeHandler (call : nat)
| kernelChangedHandler (call : nat).

#[global] Instance Slot_eq_dec : EqDecision Slot.
Proof. solve_decision. Defined.

(** phosphor's [Signal.connect] refuses a slot that is already connected;
    [disconnect] removes it. *)
Definition connect (slot : Slot) (slots : list Slot) : list Slot :=
  if decide (slot ∈ slots) then slots else slots ++ [slot].

Definition disconnect (slot : Slot) (slots : list Slot) : list Slot :=
  filter (λ s, s ≠ slot) slots.

Record KernelSocketInformation := { socket : nat }.

#[global] Instance KernelSocketInformation_eq_dec : EqDecision KernelSocketInformation.
Proof. solve_decision. Defined.

Abbreviation SessionRef := nat (only parsing).

Module ISession.
(** [ISessionWithSocket]: the mutable handle.  The three [..Reply] fields say
    how the backend answers the requests made through this handle. *)
Record t := mk {
  kernel : option Kernel.t;
  resource : Resource;
  isRemoteSession : option bool;
  kernelSocketInformation : option KernelSocketInformation;
  kernelConnectionMetadata : option KernelConnectionMetadata.t;
  isDisposed : bool;
  statusChanged : list Slot;
  kernelChanged : list Slot;
  iopubMessage : list Slot;
  shutdownReply : ShutdownReply;
  interruptReply : Reply;
  restartReply : Reply
}.

Definition set_kernel (k : option Kernel.t) (s : t) : t :=
  mk k (resource s) (isRemoteSession s) (kernelSocketInformation s)
     (kernelConnectionMetadata s) (isDisposed s) (statusChanged s)
     (kernelChanged s) (iopubMessage s) (shutdownReply s) (interruptReply s)
     (restartReply s).

Definition set_isDisposed (b : bool) (s : t) : t :=
  mk (kernel s) (resource s) (isRemoteSession s) (kernelSocketInformation s)
     (kernelConnectionMetadata s) b (statusChanged s)
     (kernelChanged s) (iopubMessage s) (shutdownReply s) (interruptReply s)
     (restartReply s).

Definition set_statusChanged (l : list Slot) (s : t) : t :=
  mk (kernel s) (resource s) (isRemoteSession s) (kernelSocketInformation s)
     (kernelConnectionMetadata s) (isDisposed s) l
     (kernelChanged s) (iopubMessage s) (shutdownReply s) (interruptReply s)
     (restartReply s).

Definition set_kernelChanged (l : list Slot) (s : t) : t :=
  mk (kernel s) (resource s) (isRemoteSession s) (kernelSocketInformation s)
     (kernelConnectionMetadata s) (isDisposed s) (statusChanged s)
     l (iopubMessage s) (shutdownReply s) (interruptReply s)
     (restartReply s).

Definition set_iopubMessage (l : list Slot) (s : t) : t :=
  mk (kernel s) (resource s) (isRemoteSession s) (kernelSocketInformation s)
     (kernelConnectionMetadata s) (isDisposed s) (statusChanged s)
     (kernelChanged s) l (shutdownReply s) (interruptReply s)
     (restartReply s).
End ISession.

(** A settled promise, as [await] sees it. *)
Inductive Promise (A : Type) :=
| resolved (a : A)
| rejected (reason : JsError)
| never.
Arguments resolved {A} a.
Arguments rejected {A} reason.
Arguments never {A}.

(** What the session object asks of its collaborators, in program order. *)
Inductive Effect :=
| SessionDispose (r : SessionRef)
| SessionShutdown (r : SessionRef)
| SuppressShutdownErrors (r : SessionRef)
| KernelInterrupt (r : SessionRef)
| KernelRestart (r : SessionRef)
| KernelRequestExecute (r : SessionRef) (content : string)
| KernelRequestDebug (r : SessionRef) (content : string)
| KernelRequestInspect (r : SessionRef) (content : string)
| KernelRequestComplete (r : SessionRef) (content : string)
| KernelSendInputReply (r : SessionRef) (value : string)
| KernelRegisterCommTarget (r : SessionRef) (targetName : string)
| KernelRegisterMessageHook (r : SessionRef) (msgId : string) (hook : nat)
| KernelRemoveMessageHook (r : SessionRef) (msgId : string) (hook : nat)
| KernelSocketNext (info : option (Kernel.t * KernelSocketInformation))
| SetSession (r : option SessionRef)
| RestartSessionUsed (k : option Kernel.t)
| StatusChangedEmitterDispose
| TrackKernelResourceInformation (resource : Resource) (kernelConnection : KernelConnectionMetadata.t)
| CreateNewKernelSession (resource : Resource) (kernelConnection : KernelConnectionMetadata.t) (timeoutMS : Z)
| StartRestartSession (timeout : Z).

#[global] Instance Effect_eq_dec : EqDecision Effect.
Proof. solve_decision. Defined.

(** Continuations of calls that were started and not awaited. *)
Inductive Continuation :=
| ResumeShutdownSession (r : SessionRef)
| ThenShutdownRestartSession (r : option SessionRef).

Record EventEmitter := { emitterDisposed : bool }.

(** The [BaseJupyterSession] object, the heap of session handles it refers
    to, and the observable history. *)
Record World := mkWorld {
  _session : option SessionRef;
  kernelConnectionMetadata : option KernelConnectionMetadata.t;
  resource : Resource;
  restartSessionPromise : option (Promise (option SessionRef));
  onStatusChangedEvent : option EventEmitter;
  heap : gmap nat ISession.t;
  effects : list Effect;
  pending : list Continuation;
  closures : nat
}.

Definition set_session (r : option SessionRef) (w : World) : World :=
  mkWorld r (kernelConnectionMetadata w) (resource w) (restartSessionPromise w)
          (onStatusChangedEvent w) (heap w) (effects w) (pending w) (closures w).

Definition set_kernelConnectionMetadata (m : option KernelConnectionMetadata.t) (w : World) : World :=
  mkWorld (_session w) m (resource w) (restartSessionPromise w)
          (onStatusChangedEvent w) (heap w) (effects w) (pending w) (closures w).

Definition set_resource (r : Resource) (w : World) : World :=
  mkWorld (_session w) (kernelConnectionMetadata w) r (restartSessionPromise w)
          (onStatusChangedEvent w) (heap w) (effects w) (pending w) (closures w).

Definition set_restartSessionPromise (p : option (Promise (option SessionRef))) (w : World) : World :=
  mkWorld (_session w) (kernelConnectionMetadata w) (resource w) p
          (onStatusChangedEvent w) (heap w) (effects w) (pending w) (closures w).

Definition set_onStatusChangedEvent (e : option EventEmitter) (w : World) : World :=
  mkWorld (_session w) (kernelConnectionMetadata w) (resource w) (restartSessionPromise w)
          e (heap w) (effects w) (pending w) (closures w).

Definition set_heap (h : gmap nat ISession.t) (w : World) : World :=
  mkWorld (_session w) (kernelConnectionMetadata w) (resource w) (restartSessionPromise w)
          (onStatusChangedEvent w) h (effects w) (pending w) (closures w).

Definition set_effects (l : list Effect) (w : World) : World :=
  mkWorld (_session w) (kernelConnectionMetadata w) (resource w) (restartSessionPromise w)
          (onStatusChangedEvent w) (heap w) l (pending w) (closures w).

Definition set_pending (l : list Continuation) (w : World) : World :=
  mkWorld (_session w) (kernelConnectionMetadata w) (resource w) (restartSessionPromise w)
          (onStatusChangedEvent w) (heap w) (effects w) l (closures w).

Definition set_closures (n : nat) (w : World) : World :=
  mkWorld (_session w) (kernelConnectionMetadata w) (resource w) (restartSessionPromise w)
          (onStatusChangedEvent w) (heap w) (effects w) (pending w) n.

(** ** The monad of method bodies *)

Inductive Result (A : Type) :=
| Ok (a : A)
| Throw (e : JsError)
| Pending.
Arguments Ok {A} a.
Arguments Throw {A} e.
Arguments Pending {A}.

Definition M (A : Type) : Type := World → Result A * World.

Definition ret {A} (a : A) : M A := λ w, (Ok a, w).

Definition bind {A B} (m : M A) (k : A → M B) : M B :=
  λ w, match m w with
       | (Ok a, w') => k a w'
       | (Throw e, w') => (Throw e, w')
       | (Pending, w') => (Pending, w')
       end.

Notation "'let!' x ':=' m 'in' k" := (bind m (λ x, k))
  (at level 10, x binder, m at level 100, k at level 200).

Definition throw {A} (e : JsError) : M A := λ w, (Throw e, w).

(** [try { m } catch (e) { h e }]; a call that never settles is not caught. *)
Definition try_catch {A} (m : M A) (h : JsError → M A) : M A :=
  λ w, match m w with
       | (Throw e, w') => h e w'
       | r => r
       end.

Definition get : M World := λ w, (Ok w, w).
Definition modify (f : World → World) : M unit := λ w, (Ok tt, f w).
Definition emit (e : Effect) : M unit := modify (λ w, set_effects (effects w ++ [e]) w).
Definition spawn (t : Continuation) : M unit := modify (λ w, set_pending (pending w ++ [t]) w).

(** [await p]. *)
Definition await {A} (p : Promise A) : M A :=
  match p with
  | resolved a => ret a
  | rejected e => throw e
  | never => λ w, (Pending, w)
  end.

(** Reading and mutating a handle.  A session expression is a reference or
    [undefined]; [deref] is the JavaScript truthiness test plus the read. *)
Definition deref (w : World) (r : option SessionRef) : option ISession.t :=
  r ≫= λ i, heap w !! i.

Definition update (r : SessionRef) (f : ISession.t → ISession.t) : M unit :=
  modify (λ w, set_heap (alter f r (heap w)) w).

Definition truthy (b : option bool) : bool :=
  match b with
  | Some true => true
  | _ => false
  end.

Definition defined {A} (o : option A) : bool :=
  match o with Some _ => true | None => false end.

Definition sessionDispose (r : SessionRef) : M unit :=
  let! _ := update r (ISession.set_isDisposed true) in
  emit (SessionDispose r).

Definition pendingForever {A} : M A := λ w, (Pending, w).

(** ** BaseJupyterSession *)

Section BaseJupyterSession.

(** Imported helpers and constants whose files are not part of the sources at
    hand: [getResourceType] of ./common, the kernel-spec test of
    kernels/helpers, the localized messages and the comm target name. *)
Variable getResourceType : Resource → string.
Variable kernelConnectionMetadataHasKernelSpec : KernelConnectionMetadata.t → bool.
Variable sessionDisposed : string.
Variable jupyterLaunchTimedOut : string.
Variable interruptingKernelFailed : string.
Variable DefaultCommTarget : string.

(** The two abstract methods every concrete session class supplies. *)
Variable startRestartSession : Z → M unit.
Variable createNewKernelSession : Resource → KernelConnectionMetadata.t → Z → M SessionRef.

Definition canShutdownSession (session : ISession.t)
    (isRequestToShutDownRestartSession : option bool) : bool :=
  (* We can never shut down existing (live) kernels. *)
  if decide (KernelConnectionMetadata.kind <$> ISession.kernelConnectionMetadata session
             = Some connectToLiveKernel) then false
  (* We can always shutdown restart sessions. *)
  else if truthy isRequestToShutDownRestartSession then true
  (* If this Interactive Window, then always shutdown sessions. *)
  else if defined (ISession.resource session)
          && String.eqb (getResourceType (ISession.resource session)) "interactive" then true
  (* In notebooks with Remote Jupyter connections, never shutdown the sessions. *)
  else if defined (ISession.resource session)
          && String.eqb (getResourceType (ISession.resource session)) "notebook"
          && bool_decide (ISession.isRemoteSession session = Some true) then false
  else true.

(** [shutdownSession] up to its only suspension point,
    [await waitForPromise(session.shutdown(), 1000)].  The result is the
    handle whose shutdown request is in flight, if the body got that far. *)
Definition shutdownSession_begin (session : option SessionRef)
    (handler : option Slot) (isRequestToShutDownRestartSession : option bool)
    : M (option SessionRef) :=
  let! w := get in
  match session, deref w session with
  | Some r, Some s =>
      if defined (ISession.kernel s) then
        let! _ := match handler with
                  | Some h => update r (λ s, ISession.set_statusChanged
                                               (disconnect h (ISession.statusChanged s)) s)
                  | None => ret tt
                  end in
        if negb (canShutdownSession s isRequestToShutDownRestartSession) then
          let! _ := sessionDispose r in
          ret None
        else
          let! _ := emit (SuppressShutdownErrors r) in
          if negb (ISession.isDisposed s) then
            let! _ := emit (SessionShutdown r) in
            ret (Some r)
          else ret None
      else ret None
  | _, _ => ret None
  end.

(** The rest of [shutdownSession], once the bounded wait is over (reply,
    rejection swallowed by the inner [catch], or the one-second timeout):
    dispose the handle unless it is disposed already. *)
Definition shutdownSession_resume (r : SessionRef) : M unit :=
  let! _ := update r (λ s, match ISession.shutdownReply s with
                           | ShutdownResolves true => ISession.set_isDisposed true s
                           | _ => s
                           end) in
  let! w := get in
  match heap w !! r with
  | Some s => if negb (ISession.isDisposed s) then sessionDispose r else ret tt
  | None => ret tt
  end.

(** [await this.shutdownSession(...)]. *)
Definition shutdownSession (session : option SessionRef)
    (handler : option Slot) (isRequestToShutDownRestartSession : option bool) : M unit :=
  let! inflight := shutdownSession_begin session handler isRequestToShutDownRestartSession in
  match inflight with
  | Some r => shutdownSession_resume r
  | None => ret tt
  end.

(** [this.shutdownSession(...).ignoreErrors()]: the caller goes on as soon as
    the body suspends. *)
Definition shutdownSession_ignoreErrors (session : option SessionRef)
    (handler : option Slot) (isRequestToShutDownRestartSession : option bool) : M unit :=
  let! inflight := shutdownSession_begin session handler isRequestToShutDownRestartSession in
  match inflight with
  | Some r => spawn (ResumeShutdownSession r)
  | None => ret tt
  end.

(** One continuation taken from [pending]. *)
Definition runContinuation (t : Continuation) : M unit :=
  match t with
  | ResumeShutdownSession r => shutdownSession_resume r
  | ThenShutdownRestartSession r => shutdownSession_ignoreErrors r None (Some true)
  end.

Fixpoint drain (fuel : nat) : M unit :=
  match fuel with
  | O => ret tt
  | S fuel' =>
      let! w := get in
      match pending w with
      | [] => ret tt
      | t :: ts =>
          let! _ := modify (set_pending ts) in
          let! _ := try_catch (runContinuation t) (λ _, ret tt) in
          drain fuel'
      end
  end.

(** [session.kernel.id] inside a template string or an object literal. *)
Definition kernelOf (r : SessionRef) : M Kernel.t :=
  let! w := get in
  match heap w !! r ≫= ISession.kernel with
  | Some k => ret k
  | None => throw TypeError
  end.

Definition setSession (session : option SessionRef) : M unit :=
  let! w := get in
  let oldSession := _session w in
  let! _ := match oldSession with
            | Some o => update o (λ s, ISession.set_iopubMessage
                                         (disconnect ioPubHandler (ISession.iopubMessage s)) s)
            | None => ret tt
            end in
  let! _ := modify (set_session session) in
  let! _ := emit (SetSession session) in
  match session with
  | Some r =>
      let! _ := update r (λ s, ISession.set_iopubMessage
                                 (connect ioPubHandler (ISession.iopubMessage s)) s) in
      if decide (oldSession = Some r) then ret tt
      else
        let! w' := get in
        match heap w' !! r ≫= ISession.kernelSocketInformation with
        | None =>
            let! _ := kernelOf r in
            emit (KernelSocketNext None)
        | Some info =>
            let! k := kernelOf r in
            emit (KernelSocketNext (Some (k, info)))
        end
  | None => ret tt
  end.

(** [this.session.kernel.status] on a session without a kernel is a
    [TypeError]. *)
Definition getServerStatus (w : World) : Result ServerStatus.t :=
  match _session w with
  | Some r =>
      match heap w !! r ≫= ISession.kernel with
      | Some k =>
          Ok match Kernel.status k with
             | Kernel.busy => ServerStatus.Busy
             | Kernel.dead => ServerStatus.Dead
             | Kernel.idle | Kernel.connected => ServerStatus.Idle
             | Kernel.restarting | Kernel.autorestarting
             | Kernel.reconnecting => ServerStatus.Restarting
             | Kernel.starting => ServerStatus.Starting
             | _ => ServerStatus.NotStarted
             end
      | None => Throw TypeError
      end
  | None => Ok ServerStatus.NotStarted
  end.

Definition shutdown : M unit :=
  let! w := get in
  let! _ :=
    match _session w with
    | Some r =>
        let! _ :=
          try_catch
            (let! _ := shutdownSession (Some r) (Some statusHandler) (Some false) in
             let! w1 := get in
             match restartSessionPromise w1 with
             | Some p =>
                 let! restartSession := await p in
                 shutdownSession restartSession None (Some true)
             | None => ret tt
             end)
            (λ _, ret tt) in
        let! _ := setSession None in
        modify (set_restartSessionPromise None)
    | None => ret tt
    end in
  let! w2 := get in
  match onStatusChangedEvent w2 with
  | Some _ =>
      let! _ := modify (set_onStatusChangedEvent (Some {| emitterDisposed := true |})) in
      emit StatusChangedEmitterDispose
  | None => ret tt
  end.

(** [waitForPromise] of common/utils/async, as the comment in
    [waitForKernelPromise] describes it: a timeout resolves (with null), it
    never throws for it; a rejection of the promise passes through. *)
Definition waitForPromise (reply : Reply) : M unit :=
  match reply with
  | Resolves => ret tt
  | Rejects e => throw e
  | NeverSettles => ret tt
  end.

Definition waitForKernelPromise (kernelPromise : Reply) (timeout : Z)
    (errorMessage : string) : M unit :=
  try_catch (waitForPromise kernelPromise)
    (λ e, match e with
          | FalsyReason => throw (JupyterKernelPromiseFailedError errorMessage)
          | _ => throw e
          end).

(** [this.session?.kernel], as a condition. *)
Definition activeKernel (w : World) : option SessionRef :=
  match _session w with
  | Some r => if defined (heap w !! r ≫= ISession.kernel) then Some r else None
  | None => None
  end.

Definition interrupt (timeout : Z) : M unit :=
  let! w := get in
  match activeKernel w, deref w (_session w) with
  | Some r, Some s =>
      let! _ := update r (λ s, ISession.set_statusChanged
                                 (connect statusHandler (ISession.statusChanged s)) s) in
      let! _ := emit (KernelInterrupt r) in
      waitForKernelPromise (ISession.interruptReply s) timeout interruptingKernelFailed
  | _, _ => ret tt
  end.

Definition changeKernel (resource : Resource)
    (kernelConnection : KernelConnectionMetadata.t) (timeoutMS : Z) : M unit :=
  let! _ := modify (set_resource resource) in
  let! w := get in
  let currentKernelSpec :=
    match kernelConnectionMetadata w with
    | Some m => if kernelConnectionMetadataHasKernelSpec m
                then KernelConnectionMetadata.kernelSpec m else None
    | None => None
    end in
  let kernelSpecToUse :=
    if kernelConnectionMetadataHasKernelSpec kernelConnection
    then KernelConnectionMetadata.kernelSpec kernelConnection else None in
  let same :=
    match kernelConnectionMetadata w with
    | Some m =>
        defined (_session w) && defined currentKernelSpec && defined kernelSpecToUse
        && String.eqb (KernelConnectionMetadata.id m)
                      (KernelConnectionMetadata.id kernelConnection)
    | None => false
    end in
  if same then ret tt
  else
    let! _ := emit (TrackKernelResourceInformation resource kernelConnection) in
    let! _ := emit (CreateNewKernelSession resource kernelConnection timeoutMS) in
    let! newSession := createNewKernelSession resource kernelConnection timeoutMS in
    let! w1 := get in
    let! _ :=
      match _session w1 with
      | Some r =>
          let! _ := shutdownSession_ignoreErrors (Some r) (Some statusHandler) (Some false) in
          match restartSessionPromise w1 with
          | Some (resolved restartSession) => spawn (ThenShutdownRestartSession restartSession)
          | _ => ret tt
          end
      | None => ret tt
      end in
    let! _ := modify (set_kernelConnectionMetadata (Some kernelConnection)) in
    let! _ := setSession (Some newSession) in
    let! w2 := get in
    match _session w2 with
    | Some r => update r (λ s, ISession.set_statusChanged
                                 (connect statusHandler (ISession.statusChanged s)) s)
    | None => ret tt
    end.

(** [await] on a request made through a kernel handle. *)
Definition awaitReply (reply : Reply) : M unit :=
  match reply with
  | Resolves => ret tt
  | Rejects e => throw e
  | NeverSettles => pendingForever
  end.

(** [restart] past its early return: swap in the standby session. *)
Definition restartFromStandby (timeout : Z) : M unit :=
  let! w := get in
  (* Start the restart session now in case it wasn't started *)
  let! _ := if defined (restartSessionPromise w) then ret tt
            else let! _ := emit (StartRestartSession timeout) in
                 startRestartSession timeout in
  let! w1 := get in
  match restartSessionPromise w1 with
  | Some p =>
      (* traceInfo(`Restarting ${this.session?.kernel.id}`) *)
      let! _ := match _session w1 with
                | Some o => let! _ := kernelOf o in ret tt
                | None => ret tt
                end in
      (* Save old state for shutdown *)
      let oldSession := _session w1 in
      let! newSession := await p in
      let! _ := setSession newSession in
      let! w2 := get in
      match _session w2 with
      | None => throw (Error sessionDisposed)
      | Some n =>
          let! _ := emit (RestartSessionUsed (heap w2 !! n ≫= ISession.kernel)) in
          (* traceInfo(`Got new session ${this.session.kernel.id}`) *)
          let! _ := kernelOf n in
          (* Rewire our status changed event. *)
          let! _ := update n (λ s, ISession.set_statusChanged
                                     (connect statusHandler (ISession.statusChanged s)) s) in
          let! _ := modify (set_restartSessionPromise None) in
          let! _ := match oldSession with
                    | Some o => update o (λ s, ISession.set_statusChanged
                                                 (disconnect statusHandler (ISession.statusChanged s)) s)
                    | None => ret tt
                    end in
          shutdownSession_ignoreErrors oldSession None (Some false)
      end
  | None => throw (Error sessionDisposed)
  end.

Definition restart (timeout : Z) : M unit :=
  let! w := get in
  match _session w, deref w (_session w) with
  | Some r, Some s =>
      if truthy (ISession.isRemoteSession s) then
        (* await this.session.kernel.restart(); return; *)
        let! _ := kernelOf r in
        let! _ := emit (KernelRestart r) in
        awaitReply (ISession.restartReply s)
      else restartFromStandby timeout
  | _, _ => restartFromStandby timeout
  end.

Definition requestExecute (content : string) : M unit :=
  let! w := get in
  match activeKernel w with
  | None => throw (Error sessionDisposed)
  | Some r => emit (KernelRequestExecute r content)
  end.

Definition requestDebug (content : string) : M unit :=
  let! w := get in
  match activeKernel w with
  | None => throw (Error sessionDisposed)
  | Some r => emit (KernelRequestDebug r content)
  end.

Definition requestInspect (content : string) : M unit :=
  let! w := get in
  match activeKernel w with
  | None => throw (Error sessionDisposed)
  | Some r => emit (KernelRequestInspect r content)
  end.

Definition requestComplete (content : string) : M unit :=
  let! w := get in
  match activeKernel w with
  | None => throw (Error sessionDisposed)
  | Some r => emit (KernelRequestComplete r content)
  end.

Definition sendInputReply (content : string) : M unit :=
  let! w := get in
  match activeKernel w with
  | Some r => emit (KernelSendInputReply r content)
  | None => ret tt
  end.

Definition registerCommTarget (targetName : string) : M unit :=
  let! w := get in
  match activeKernel w with
  | Some r => emit (KernelRegisterCommTarget r targetName)
  | None => throw (Error sessionDisposed)
  end.

Definition registerMessageHook (msgId : string) (hook : nat) : M unit :=
  let! w := get in
  match activeKernel w with
  | Some r => emit (KernelRegisterMessageHook r msgId hook)
  | None => throw (Error sessionDisposed)
  end.

Definition removeMessageHook (msgId : string) (hook : nat) : M unit :=
  let! w := get in
  match activeKernel w with
  | Some r => emit (KernelRemoveMessageHook r msgId hook)
  | None => throw (Error sessionDisposed)
  end.

(** *** Waiting for idle

    What happens while [waitForIdleOnSession] is suspended on its
    [Promise.race], one event per turn of the event loop: the kernel reports
    a status (the handle's [statusChanged] signal fires), the handle gets
    another kernel ([kernelChanged] fires; a missing [newValue] leaves the
    handle's kernel in place), or the polling loop comes back from
    [sleep(100)] and reads the clock, [now] milliseconds after [startTime]. *)
Inductive WaitEvent :=
| StatusChanged (e : Kernel.Status)
| KernelChanged (newValue : option Kernel.t)
| SleepOver (now : Z).

Inductive Settled :=
| Resolved
| Rejected (e : JsError).

Definition setStatus (e : Kernel.Status) (s : ISession.t) : ISession.t :=
  ISession.set_kernel
    ((λ k, Kernel.mk (Kernel.id k) (Kernel.name k) e (Kernel.own k)) <$> ISession.kernel s) s.

(** The local [statusHandler(resolve, reject, e)] closure. *)
Definition waitStatusHandler (r : SessionRef) (isRestartSession : option bool)
    (e : option Kernel.Status) : M (option Settled) :=
  match e with
  | Some Kernel.idle => ret (Some Resolved)
  | Some Kernel.dead =>
      (* make sure to shutdown the session as it's not usable anymore *)
      let! _ := shutdownSession_ignoreErrors (Some r) (Some statusHandler) isRestartSession in
      let! w := get in
      let kernelModel :=
        {| model_kernel := Kernel.spread (heap w !! r ≫= ISession.kernel);
           numberOfConnections := 0 |} in
      ret (Some (Rejected
        (JupyterInvalidKernelError kernelModel connectToLiveKernel
           (Kernel.spread_id (model_kernel kernelModel)))))
  | _ => ret None
  end.

(** The race, event by event, until one of the three promises settles. *)
Fixpoint race (r : SessionRef) (call : nat) (isRestartSession : option bool)
    (timeout : Z) (events : list WaitEvent) : M (option Settled) :=
  match events with
  | [] => ret None
  | ev :: rest =>
      let! o :=
        match ev with
        | StatusChanged e =>
            let! _ := update r (setStatus e) in
            let! w := get in
            if decide (statusChangeHandler call ∈
                         default [] (ISession.statusChanged <$> heap w !! r))
            then waitStatusHandler r isRestartSession (Some e)
            else ret None
        | KernelChanged newValue =>
            let! _ := match newValue with
                      | Some k => update r (ISession.set_kernel (Some k))
                      | None => ret tt
                      end in
            let! w := get in
            if decide (kernelChangedHandler call ∈
                         default [] (ISession.kernelChanged <$> heap w !! r))
            then waitStatusHandler r isRestartSession (Kernel.status <$> newValue)
            else ret None
        | SleepOver now =>
            let! w := get in
            match heap w !! r ≫= ISession.kernel with
            | Some k =>
                if negb (bool_decide (Kernel.status k = Kernel.idle)) && (now <? timeout)%Z
                then ret None
                else ret (Some Resolved)
            | None => ret (Some Resolved)
            end
        end in
      match o with
      | Some settled => ret (Some settled)
      | None => race r call isRestartSession timeout rest
      end
  end.

Definition waitForIdleOnSession (session : option SessionRef) (timeout : Z)
    (isRestartSession : option bool) (events : list WaitEvent) : M unit :=
  let! w := get in
  match session, deref w session ≫= ISession.kernel with
  | Some r, Some k =>
      let call := closures w in
      let! _ := modify (set_closures (S call)) in
      let! _ := update r (λ s, ISession.set_statusChanged
                                 (connect (statusChangeHandler call) (ISession.statusChanged s)) s) in
      let! _ := update r (λ s, ISession.set_kernelChanged
                                 (connect (kernelChangedHandler call) (ISession.kernelChanged s)) s) in
      (* checkStatusPromise: the first test of the loop runs at once *)
      let! settled :=
        if negb (bool_decide (Kernel.status k = Kernel.idle)) && (0 <? timeout)%Z
        then race r call isRestartSession timeout events
        else ret (Some Resolved) in
      match settled with
      | None => pendingForever
      | Some (Rejected e) => throw e
      | Some Resolved =>
          (* traceInfo(`Finished waiting ... ${session.kernel.id}`) *)
          let! _ := kernelOf r in
          let! _ := update r (λ s, ISession.set_statusChanged
                                     (disconnect (statusChangeHandler call) (ISession.statusChanged s)) s) in
          let! _ := update r (λ s, ISession.set_kernelChanged
                                     (disconnect (kernelChangedHandler call) (ISession.kernelChanged s)) s) in
          let! w' := get in
          if bool_decide (Kernel.status <$> (heap w' !! r ≫= ISession.kernel) = Some Kernel.idle)
          then
            (* always register the default ipywidgets comm target *)
            emit (KernelRegisterCommTarget r DefaultCommTarget)
          else
            let! _ := shutdownSession_ignoreErrors (Some r) (Some statusHandler) isRestartSession in
            throw (JupyterWaitForIdleError jupyterLaunchTimedOut)
      end
  | _, _ => ret tt
  end.

End BaseJupyterSession.

(** ** Vocabulary of the statements about the session

    Logs and worlds that the theorems below compare the methods with. *)

Section SessionVocabulary.

Variable getResourceType : Resource → string.
Variable jupyterLaunchTimedOut : string.
Variable DefaultCommTarget : string.

Definition isLive (s : ISession.t) : Prop :=
  KernelConnectionMetadata.kind <$> ISession.kernelConnectionMetadata s = Some connectToLiveKernel.

(** The requests an awaited [shutdownSession] makes on a handle that has a
    kernel, from the handle's state at the call. *)
Definition teardownLog (r : SessionRef) (s : ISession.t) (isRestart : option bool)
    : list Effect :=
  if canShutdownSession getResourceType s isRestart then
    SuppressShutdownErrors r ::
      (if ISession.isDisposed s then []
       else SessionShutdown r ::
              match ISession.shutdownReply s with
              | ShutdownResolves true => []
              | _ => [SessionDispose r]
              end)
  else [SessionDispose r].

(** The same for the part that runs before the caller gets control back. *)
Definition beginLog (r : SessionRef) (s : ISession.t) (isRestart : option bool)
    : list Effect :=
  if canShutdownSession getResourceType s isRestart then
    SuppressShutdownErrors r :: (if ISession.isDisposed s then [] else [SessionShutdown r])
  else [SessionDispose r].

Definition inflight (r : SessionRef) (s : ISession.t) (isRestart : option bool)
    : option SessionRef :=
  if canShutdownSession getResourceType s isRestart && negb (ISession.isDisposed s)
  then Some r else None.

Definition unhook (handler : option Slot) (s : ISession.t) : ISession.t :=
  match handler with
  | Some h => ISession.set_statusChanged (disconnect h (ISession.statusChanged s)) s
  | None => s
  end.

Definition resumeLog (r : SessionRef) (s : ISession.t) : list Effect :=
  if ISession.isDisposed s then []
  else match ISession.shutdownReply s with
       | ShutdownResolves true => []
       | _ => [SessionDispose r]
       end.

(** The world a call of [shutdownSession] leaves when it gives control back
    without having been awaited. *)
Definition begun (session : option SessionRef) (handler : option Slot)
    (isRestart : option bool) (w : World) : World :=
  match session with
  | Some r =>
      match heap w !! r with
      | Some s =>
          if defined (ISession.kernel s) then
            set_pending
              (pending w ++ match inflight r s isRestart with
                            | Some i => [ResumeShutdownSession i]
                            | None => []
                            end)
              (set_effects (effects w ++ beginLog r s isRestart)
                 (set_heap
                    (<[r := ISession.set_isDisposed
                              (ISession.isDisposed s
                               || negb (canShutdownSession getResourceType s isRestart))
                              (unhook handler s)]> (heap w)) w))
          else w
      | None => w
      end
  | None => w
  end.

(** The world the same call leaves when the caller awaits it. *)
Definition tornDown (session : option SessionRef) (handler : option Slot)
    (isRestart : option bool) (w : World) : World :=
  match session with
  | Some r =>
      match heap w !! r with
      | Some s =>
          if defined (ISession.kernel s) then
            set_effects (effects w ++ teardownLog r s isRestart)
              (set_heap (<[r := ISession.set_isDisposed true (unhook handler s)]> (heap w)) w)
          else w
      | None => w
      end
  | None => w
  end.

Definition noActiveKernel (w : World) : Prop :=
  _session w = None
  ∨ ∃ r s, _session w = Some r ∧ heap w !! r = Some s ∧ ISession.kernel s = None.

Definition swappedOut (w : World) : World :=
  set_effects (effects w ++ [SetSession None])
    (set_session None
       (set_heap
          match _session w with
          | Some o => alter (λ s, ISession.set_iopubMessage
                                    (disconnect ioPubHandler (ISession.iopubMessage s)) s)
                            o (heap w)
          | None => heap w
          end w)).

Definition teardownEffects (session : option SessionRef) (isRestart : option bool)
    (w : World) : list Effect :=
  match session with
  | Some r =>
      match heap w !! r with
      | Some s => if defined (ISession.kernel s) then teardownLog r s isRestart else []
      | None => []
      end
  | None => []
  end.

Definition emitterLog (w : World) : list Effect :=
  if defined (onStatusChangedEvent w) then [StatusChangedEmitterDispose] else [].

(** The standby a completed [await this.restartSessionPromise] hands to the
    teardown; a rejection is swallowed by the [catch]. *)
Definition awaitedStandby (p : option (Promise (option SessionRef))) : option SessionRef :=
  match p with
  | Some (resolved q) => q
  | _ => None
  end.

(** [this.session?.isRemoteSession], as a condition. *)
Definition remoteAttached (w : World) : bool :=
  match deref w (_session w) with
  | Some s => truthy (ISession.isRemoteSession s)
  | None => false
  end.

Definition swappedIn (n : SessionRef) (sn : ISession.t) (kn : Kernel.t) (w : World) : World :=
  set_effects
    (effects w ++ [SetSession (Some n);
                   KernelSocketNext (fmap (pair kn) (ISession.kernelSocketInformation sn))])
    (set_session (Some n)
       (set_heap
          (alter (λ s, ISession.set_iopubMessage
                         (connect ioPubHandler (ISession.iopubMessage s)) s) n
             match _session w with
             | Some o => alter (λ s, ISession.set_iopubMessage
                                       (disconnect ioPubHandler (ISession.iopubMessage s)) s)
                               o (heap w)
             | None => heap w
             end) w)).

Definition traceable (w : World) : Prop :=
  ∀ o, _session w = Some o → is_Some (heap w !! o ≫= ISession.kernel).

(** An event that settles none of the three promises when the kernel is not
    idle: a status other than idle and dead, a replacement kernel in such a
    status, or a wake-up of the polling loop before the timeout. *)
Definition quietStatus (e : Kernel.Status) : bool :=
  negb (bool_decide (e = Kernel.idle)) && negb (bool_decide (e = Kernel.dead)).

Definition quiet (timeout : Z) (ev : WaitEvent) : bool :=
  match ev with
  | StatusChanged e => quietStatus e
  | KernelChanged (Some k) => quietStatus (Kernel.status k)
  | KernelChanged None => true
  | SleepOver now => (now <? timeout)%Z
  end.

(** The handle with the two listeners of one call connected, and with
    them disconnected again. *)
Definition listening (call : nat) (s : ISession.t) : ISession.t :=
  ISession.set_kernelChanged
    (connect (kernelChangedHandler call) (ISession.kernelChanged s))
    (ISession.set_statusChanged
       (connect (statusChangeHandler call) (ISession.statusChanged s)) s).

Definition unlistening (call : nat) (s : ISession.t) : ISession.t :=
  ISession.set_kernelChanged
    (disconnect (kernelChangedHandler call) (ISession.kernelChanged s))
    (ISession.set_statusChanged
       (disconnect (statusChangeHandler call) (ISession.statusChanged s)) s).

(** What [waitForIdleOnSession] does once its race is settled. *)
Definition afterRace (r : SessionRef) (call : nat) (isRestartSession : option bool)
    (settled : option Settled) : M unit :=
  match settled with
  | None => pendingForever
  | Some (Rejected e) => throw e
  | Some Resolved =>
      let! _ := kernelOf r in
      let! _ := update r (λ s, ISession.set_statusChanged
                                 (disconnect (statusChangeHandler call) (ISession.statusChanged s)) s) in
      let! _ := update r (λ s, ISession.set_kernelChanged
                                 (disconnect (kernelChangedHandler call) (ISession.kernelChanged s)) s) in
      let! w' := get in
      if bool_decide (Kernel.status <$> (heap w' !! r ≫= ISession.kernel) = Some Kernel.idle)
      then emit (KernelRegisterCommTarget r DefaultCommTarget)
      else
        let! _ := shutdownSession_ignoreErrors getResourceType (Some r) (Some statusHandler)
                    isRestartSession in
        throw (JupyterWaitForIdleError jupyterLaunchTimedOut)
  end.

Definition registered (r : SessionRef) (s : ISession.t) (w : World) : World :=
  set_heap (<[r := listening (closures w) s]> (heap w)) (set_closures (S (closures w)) w).

Definition timesOut (timeout : Z) (events : list WaitEvent) : Prop :=
  (timeout ≤ 0)%Z
  ∨ ∃ quietEvents now rest,
      events = quietEvents ++ SleepOver now :: rest
      ∧ forallb (quiet timeout) quietEvents = true
      ∧ (timeout ≤ now)%Z.

Definition waited (r : SessionRef) (s : ISession.t) (k' : Kernel.t) (w : World) : World :=
  set_heap (<[r := ISession.set_kernel (Some k') (listening (closures w) s)]> (heap w))
           (set_closures (S (closures w)) w).

(** The error for the dead kernel [kd]: its kernel model is the spread of
    the kernel object, and its id is the id of that spread. *)
Definition invalidKernel (kd : Kernel.t) : JsError :=
  JupyterInvalidKernelError
    {| model_kernel := Kernel.spread (Some kd); numberOfConnections := 0 |}
    connectToLiveKernel (Kernel.spread_id (Kernel.spread (Some kd))).

(** The signal that reports the death of the kernel: the status signal with
    ['dead'], or the kernel-changed signal with a dead replacement. *)
Definition reportsDead (ev : WaitEvent) : bool :=
  match ev with
  | StatusChanged e => bool_decide (e = Kernel.dead)
  | KernelChanged (Some kd) => bool_decide (Kernel.status kd = Kernel.dead)
  | _ => false
  end.

End SessionVocabulary.

(** ** JupyterExecutionBase: the connection retry loop *)

Record IJupyterConnection := {
  connectionId : nat;
  baseUrl : string;
  localLaunch : bool;
  hostName : string
}.

#[global] Instance IJupyterConnection_eq_dec : EqDecision IJupyterConnection.
Proof. solve_decision. Defined.

(** A value caught by the loop, seen through what the loop asks of it: its
    class ([instanceof]) and its [message]. *)
Inductive ErrorClass :=
| IsJupyterWaitForIdleError
| IsJupyterSessionStartError
| IsOtherError.

#[global] Instance ErrorClass_eq_dec : EqDecision ErrorClass.
Proof. solve_decision. Defined.

Record CaughtError := { errorClass : ErrorClass; errorMessage : string }.

Inductive FormatArg :=
| ArgString (s : string)
| ArgError (err : CaughtError).

(** What [connectToNotebookServer] itself throws. *)
Inductive ConnectError :=
| Rethrown (err : CaughtError)
| JupyterSelfCertsError (baseUrl : string)
| WrappedError (message : string) (originalException : CaughtError).

(** Modelled from the spec: [WrappedError.from] of common/errors/types is not
    among the sources; the failure is "a generic notebook failed to connect
    error wrapping the cause". *)
Definition WrappedError_from (message : string) (err : CaughtError) : ConnectError :=
  WrappedError message err.

Inductive TelemetryEvent :=
| ConnectRemoteJupyterViaLocalHost
| AskUserForNewJupyterKernel
| ConnectLocalJupyter
| ConnectRemoteJupyter
| ConnectRemoteFailedJupyter
| ConnectRemoteSelfCertFailedJupyter
| ConnectFailedJupyter
| JupyterStartTimeout.

#[global] Instance TelemetryEvent_eq_dec : EqDecision TelemetryEvent.
Proof. solve_decision. Defined.

Abbreviation ServerRef := nat (only parsing).

(** The calls the loop makes on its collaborators, in program order. *)
Inductive LoopEvent :=
| StartOrConnect (tryCount : Z)
| ServerCreated (server : ServerRef)
| RemoteFindKernel
| TrackResourceInformation (m : option KernelConnectionMetadata.t)
| ServerConnect (server : ServerRef) (connectionInfo : IJupyterConnection)
| ServerDispose (server : ServerRef)
| ConnectionDispose (connectionId : nat)
| KernelSpecCancel
| AskForLocalKernel
| SendTelemetryEvent (e : TelemetryEvent)
| ShowStartTimedOut.

#[global] Instance LoopEvent_eq_dec : EqDecision LoopEvent.
Proof. solve_decision. Defined.

Record INotebookServerOptions := {
  uri : option string;
  kernelConnection : option KernelConnectionMetadata.t;
  skipSearchingForKernel : bool;
  allowUI : bool
}.

(** What the collaborators do during one pass of the loop: the outcome of
    [Promise.all([startOrConnect, kernelConnectionMetadataPromise])], of the
    remote kernel finder if it is consulted, of [result.connect], and whether
    [dispose()] was called on the orchestrator while the pass was suspended. *)
Record Attempt := {
  startOrConnect : CaughtError + (IJupyterConnection * option KernelConnectionMetadata.t);
  findKernel : CaughtError + option KernelConnectionMetadata.t;
  serverConnect : option CaughtError;
  disposedMeanwhile : bool
}.

Record LoopState := mkLoop {
  tryCount : Z;
  result : option ServerRef;
  connection : option IJupyterConnection;
  disposed : bool;
  servers : nat;
  events : list LoopEvent
}.

Inductive Step :=
| Continue (st : LoopState)
| Return (server : option ServerRef) (st : LoopState)
| Raise (e : ConnectError) (st : LoopState).

Inductive Outcome :=
| Returned (server : option ServerRef) (st : LoopState)
| Threw (e : ConnectError) (st : LoopState)
| OutOfFuel.

Definition record (l : list LoopEvent) (st : LoopState) : LoopState :=
  mkLoop (tryCount st) (result st) (connection st) (disposed st) (servers st)
         (events st ++ l).

Fixpoint toLowerCase (s : string) : string :=
  match s with
  | EmptyString => EmptyString
  | String c s' =>
      let n := Ascii.nat_of_ascii c in
      String (if ((65 <=? n)%nat && (n <=? 90)%nat)%bool then Ascii.ascii_of_nat (n + 32) else c)
             (toLowerCase s')
  end.

Definition LocalHosts : list string := ["localhost"; "127.0.0.1"; "::1"].

(** [hay.indexOf(needle) >= 0]. *)
Definition includes (needle hay : string) : bool :=
  defined (String.index 0 needle hay).

Definition nonEmpty (s : option string) : bool :=
  match s with
  | Some x => negb (String.eqb x "")
  | None => false
  end.

Section JupyterExecutionBase.

Variable kernelConnectionMetadataHasKernelSpec : KernelConnectionMetadata.t → bool.
(** The localized templates and [String.prototype.format]. *)
Variable jupyterNotebookRemoteConnectFailed : string.
Variable jupyterNotebookConnectFailed : string.
Variable format : string → list FormatArg → string.

Variable options : INotebookServerOptions.
Variable maxTries : Z.

Definition isLocalConnection : bool := negb (nonEmpty (uri options)).

(** The [catch (err)] block of the loop. *)
Definition onError (err : CaughtError) (st : LoopState) : Step :=
  (* Cleanup after ourselves. server may be running partially. *)
  let st := match result st with
            | Some server => record [ServerDispose server] st
            | None => st
            end in
  if bool_decide (errorClass err = IsJupyterWaitForIdleError) && (tryCount st <? maxTries)%Z then
    (* Close existing connection. *)
    let st := match connection st with
              | Some c => record [ConnectionDispose (connectionId c)] st
              | None => st
              end in
    Continue (mkLoop (tryCount st + 1) (result st) (connection st) (disposed st)
                     (servers st) (events st))
  else
    match connection st with
    | Some c =>
        let st := record [KernelSpecCancel] st in
        (* If this is occurring during shutdown, don't worry about it. *)
        if disposed st then Return None st
        else if negb isLocalConnection then
          let st := record [SendTelemetryEvent ConnectRemoteFailedJupyter] st in
          (* Check for the self signed certs error specifically *)
          if includes "reason: self signed certificate" (errorMessage err) then
            Raise (JupyterSelfCertsError (baseUrl c))
                  (record [SendTelemetryEvent ConnectRemoteSelfCertFailedJupyter] st)
          else
            Raise (WrappedError_from
                     (format jupyterNotebookRemoteConnectFailed [ArgString (baseUrl c); ArgError err])
                     err) st
        else
          Raise (WrappedError_from
                   (format jupyterNotebookConnectFailed [ArgString (baseUrl c); ArgError err])
                   err)
                (record [SendTelemetryEvent ConnectFailedJupyter] st)
    | None => Raise (Rethrown err) (record [KernelSpecCancel] st)
    end.

(** The [try] block of one pass: it either throws or reaches
    [return result]. *)
Definition tryBlock (a : Attempt) (st : LoopState) : (CaughtError + ServerRef) * LoopState :=
  let st := mkLoop (tryCount st) (result st) (connection st)
                   (disposed st || disposedMeanwhile a) (servers st)
                   (events st ++ [StartOrConnect (tryCount st)]) in
  match startOrConnect a with
  | inl err => (inl err, st)
  | inr (c, m) =>
      let st := mkLoop (tryCount st) (result st) (Some c) (disposed st) (servers st)
                       (events st) in
      let st := if negb (localLaunch c)
                   && bool_decide (toLowerCase (hostName c) ∈ LocalHosts)
                then record [SendTelemetryEvent ConnectRemoteJupyterViaLocalHost] st
                else st in
      (* Create a server that we will then attempt to connect to. *)
      let server := S (servers st) in
      let st := mkLoop (tryCount st) (Some server) (connection st) (disposed st) server
                       (events st ++ [ServerCreated server]) in
      (* In a remote non guest situation, figure out a kernel spec too. *)
      let search :=
        negb (match m with
              | Some m' => kernelConnectionMetadataHasKernelSpec m'
              | None => false
              end)
        && negb (skipSearchingForKernel options) in
      let found := if search then findKernel a else inr m in
      let st := if search then record [RemoteFindKernel] st else st in
      match found with
      | inl err => (inl err, st)
      | inr m' =>
          let st := if defined (kernelConnection options) then st
                    else record [TrackResourceInformation m'] st in
          let st := record [ServerConnect server c] st in
          match serverConnect a with
          | Some ex =>
              let st :=
                if bool_decide (errorClass ex = IsJupyterSessionStartError)
                   && isLocalConnection && allowUI options
                then record [SendTelemetryEvent AskUserForNewJupyterKernel; AskForLocalKernel] st
                else st in
              (inl ex, st)
          | None =>
              (inr server,
               record [SendTelemetryEvent
                         (if isLocalConnection then ConnectLocalJupyter
                          else ConnectRemoteJupyter)] st)
          end
      end
  end.

(** One pass through the body of the [while]. *)
Definition attempt (a : Attempt) (st : LoopState) : Step :=
  match tryBlock a st with
  | (inl err, st') => onError err st'
  | (inr server, st') => Return (Some server) st'
  end.

(** After the [while]: starting jupyter timed out. *)
Definition startTimedOut (st : LoopState) : Outcome :=
  let st := match connection st with
            | Some c => record [ConnectionDispose (connectionId c)] st
            | None => st
            end in
  let st := record [SendTelemetryEvent JupyterStartTimeout] st in
  Returned None (if allowUI options then record [ShowStartTimedOut] st else st).

(** [while (tryCount <= maxTries && !this.disposed) { ... }], the connector
    giving the collaborators' behaviour at each value of [tryCount]. *)
Fixpoint retryLoop (fuel : nat) (connector : Z → Attempt) (st : LoopState) : Outcome :=
  match fuel with
  | O => OutOfFuel
  | S fuel' =>
      if (tryCount st <=? maxTries)%Z && negb (disposed st) then
        match attempt (connector (tryCount st)) st with
        | Continue st' => retryLoop fuel' connector st'
        | Return server st' => Returned server st'
        | Raise e st' => Threw e st'
        end
      else startTimedOut st
  end.

(** [let tryCount = 1; ...] with [this.disposed] as found at the call.  The
    cancellation token that wraps the whole body is left out: the loop is
    followed while nobody cancels. *)
Definition initialState (isDisposed : bool) : LoopState :=
  mkLoop 1 None None isDisposed 0 [].

Definition connectToNotebookServer (connector : Z → Attempt) (isDisposed : bool) : Outcome :=
  retryLoop (S (Z.to_nat maxTries)) connector (initialState isDisposed).

End JupyterExecutionBase.

(** ** Vocabulary of the statements about the retry loop *)

Section ExecutionVocabulary.

Variable jupyterNotebookRemoteConnectFailed : string.
Variable jupyterNotebookConnectFailed : string.
Variable format : string → list FormatArg → string.
Variable options : INotebookServerOptions.

(** The events that concern the lifetime of connections and servers. *)
Fixpoint lifecycle (l : list LoopEvent) : list LoopEvent :=
  match l with
  | [] => []
  | e :: l' =>
      match e with
      | StartOrConnect _ | ServerCreated _ | ServerDispose _ | ConnectionDispose _ =>
          e :: lifecycle l'
      | _ => lifecycle l'
      end
  end.

(** The dispose calls of a retried pass. *)
Definition cleanup (st : LoopState) : list LoopEvent :=
  match result st with
  | Some server => [ServerDispose server]
  | None => []
  end
  ++ match connection st with
     | Some c => [ConnectionDispose (connectionId c)]
     | None => []
     end.

Definition retried (st : LoopState) : LoopState :=
  mkLoop (tryCount st + 1) (result st) (connection st) (disposed st) (servers st)
         (events st ++ cleanup st).

Definition translated (e : ConnectError) : bool :=
  match e with
  | Rethrown _ => false
  | JupyterSelfCertsError _ | WrappedError _ _ => true
  end.

(** The translation of a failure that is not retried, once a connection
    exists and the orchestrator is still alive. *)
Definition translate (c : IJupyterConnection) (err : CaughtError) : ConnectError :=
  if negb (isLocalConnection options) then
    if includes "reason: self signed certificate" (errorMessage err)
    then JupyterSelfCertsError (baseUrl c)
    else WrappedError
           (format jupyterNotebookRemoteConnectFailed [ArgString (baseUrl c); ArgError err])
           err
  else WrappedError
         (format jupyterNotebookConnectFailed [ArgString (baseUrl c); ArgError err])
         err.

(** The fake connector of the retry scenario: a pass that obtains the
    connection [c] and then fails in [result.connect] with the wait-for-idle
    error, and a pass that obtains [c] and connects. *)
Definition idleTimeout (a : Attempt) (c : IJupyterConnection) : Prop :=
  ∃ m m' err,
    startOrConnect a = inr (c, m) ∧ findKernel a = inr m'
    ∧ serverConnect a = Some err
    ∧ errorClass err = IsJupyterWaitForIdleError
    ∧ disposedMeanwhile a = false.

Definition succeeds (a : Attempt) (c : IJupyterConnection) : Prop :=
  ∃ m m', startOrConnect a = inr (c, m) ∧ findKernel a = inr m' ∧ serverConnect a = None.

End ExecutionVocabulary.

(** ** Concrete sessions used by the examples *)

(** One implementation of [getResourceType]: notebooks are the files whose
    name ends in ipynb. *)
Definition resourceTypeBySuffix (resource : Resource) : string :=
  match resource with
  | Some u =>
      if String.eqb (String.substring (String.length (fsPath u) - 5) 5 (fsPath u)) "ipynb"
      then "notebook" else "interactive"
  | None => "interactive"
  end.

Definition hasKernelSpecUnlessLive (m : KernelConnectionMetadata.t) : bool :=
  negb (bool_decide (KernelConnectionMetadata.kind m = connectToLiveKernel)).

Definition notebookUri : Uri := {| fsPath := "/work/analysis.ipynb" |}.
Definition scriptUri : Uri := {| fsPath := "/work/script.py" |}.

Definition python3Spec : IJupyterKernelSpec := {| display_name := "Python 3" |}.

Definition specMetadata (id : string) : KernelConnectionMetadata.t :=
  KernelConnectionMetadata.mk startUsingKernelSpec id (Some python3Spec).

Definition liveMetadata (id : string) : KernelConnectionMetadata.t :=
  KernelConnectionMetadata.mk connectToLiveKernel id None.

Definition defaultMetadata (id : string) : KernelConnectionMetadata.t :=
  KernelConnectionMetadata.mk startUsingDefaultKernel id None.

(** A kernel connection of the library: its properties are accessors. *)
Definition aKernel (id : string) (e : Kernel.Status) : Kernel.t :=
  Kernel.mk id "python3" e Kernel.accessors.

(** A freshly started handle: nothing connected, not disposed, a backend
    that answers every request. *)
Definition aSession (k : Kernel.t) (resource : Resource) (remote : option bool)
    (m : KernelConnectionMetadata.t) : ISession.t :=
  ISession.mk (Some k) resource remote (Some {| socket := 1 |}) (Some m)
              false [] [] [] (ShutdownResolves true) Resolves Resolves.

Definition aWorld (active : option SessionRef) (m : option KernelConnectionMetadata.t)
    (standby : option (Promise (option SessionRef))) (h : gmap nat ISession.t) : World :=
  mkWorld active m (Some notebookUri) standby (Some {| emitterDisposed := false |})
          h [] [] 0.

Definition liveRemoteNotebook : ISession.t :=
  aSession (aKernel "k1" Kernel.idle) (Some notebookUri) (Some true) (liveMetadata "live-1").

Definition localNotebook (e : Kernel.Status) : ISession.t :=
  aSession (aKernel "k1" e) (Some notebookUri) None (specMetadata "A").

Definition standbySession : ISession.t :=
  aSession (aKernel "k2" Kernel.idle) (Some notebookUri) None (specMetadata "A").

Definition emptyWorld : World := aWorld None None None ∅.

Definition liveWorld : World :=
  aWorld (Some 1) (Some (liveMetadata "live-1")) None {[1 := liveRemoteNotebook]}.

Definition startingWorld : World :=
  aWorld (Some 1) (Some (specMetadata "A")) None {[1 := localNotebook Kernel.starting]}.


Definition standbyWorld : World :=
  aWorld (Some 1) (Some (specMetadata "A")) (Some (resolved (Some 2)))
         (<[2 := standbySession]> {[1 := localNotebook Kernel.idle]}).

(** An active session started with the default kernel: its metadata has an
    id and no kernel spec.  Handle 2 is the one [createsSession2] hands out. *)
Definition defaultKernelWorld : World :=
  aWorld (Some 1) (Some (defaultMetadata "A")) None
         (<[2 := standbySession]>
            {[1 := aSession (aKernel "k1" Kernel.idle) (Some notebookUri) None
                            (defaultMetadata "A")]}).

Definition createsSession2 : Resource → KernelConnectionMetadata.t → Z → M nat :=
  λ _ _ _, ret 2.

(** A [startRestartSession] that would leave a standby promise for handle 3. *)
Definition startsStandby3 : Z → M unit :=
  λ _, modify (set_restartSessionPromise (Some (resolved (Some 3)))).

(** The can-shutdown predicate as claim C1 words it: a live kernel forbids the
    shutdown unless the call is for the restart standby or the resource is an
    interactive one, which are always shut down; a notebook resource on a
    remote session forbids it; everything else allows it. *)
Definition canShutdown_claimed (getResourceType : Resource → string)
    (session : ISession.t) (isRequestToShutDownRestartSession : option bool) : bool :=
  let live := bool_decide (KernelConnectionMetadata.kind
                             <$> ISession.kernelConnectionMetadata session
                           = Some connectToLiveKernel) in
  let interactive := defined (ISession.resource session)
                     && String.eqb (getResourceType (ISession.resource session)) "interactive" in
  let always := truthy isRequestToShutDownRestartSession || interactive in
  if always then true
  else if live then false
  else if defined (ISession.resource session)
          && String.eqb (getResourceType (ISession.resource session)) "notebook"
          && bool_decide (ISession.isRemoteSession session = Some true) then false
  else true.

(** The run of claim C5's failing input: a local session that is starting,
    and whose kernel dies while [waitForIdleOnSession] waits. *)
Definition dyingRun : Result unit * World :=
  waitForIdleOnSession resourceTypeBySuffix "Timed out waiting for idle" "jupyter.widget"
    (Some 1) 1000 None [StatusChanged Kernel.busy; StatusChanged Kernel.dead] startingWorld.


Definition restartRun : Result unit * World :=
  restart resourceTypeBySuffix "Session disposed" startsStandby3 1000 standbyWorld.

Definition sameDefaultKernelRun : Result unit * World :=
  changeKernel resourceTypeBySuffix hasKernelSpecUnlessLive createsSession2
    (Some notebookUri) (defaultMetadata "A") 1000 defaultKernelWorld.

(** Connections, failures and connectors of the retry loop. *)
Definition localConnection (n : nat) : IJupyterConnection :=
  {| connectionId := n; baseUrl := "http://localhost:8888/"; localLaunch := true;
     hostName := "localhost" |}.

Definition remoteConnection : IJupyterConnection :=
  {| connectionId := 7; baseUrl := "https://hub.example.org/"; localLaunch := false;
     hostName := "hub.example.org" |}.

Definition idleTimedOut : CaughtError :=
  {| errorClass := IsJupyterWaitForIdleError; errorMessage := "Timed out waiting for idle" |}.

Definition refused : CaughtError :=
  {| errorClass := IsOtherError; errorMessage := "connect ECONNREFUSED 127.0.0.1:8888" |}.

Definition selfSigned : CaughtError :=
  {| errorClass := IsOtherError;
     errorMessage := "request to https://hub.example.org/api failed, reason: self signed certificate" |}.

Definition localOptions : INotebookServerOptions :=
  {| uri := None; kernelConnection := None; skipSearchingForKernel := false; allowUI := true |}.

Definition remoteOptions : INotebookServerOptions :=
  {| uri := Some "https://hub.example.org/?token=t"; kernelConnection := None;
     skipSearchingForKernel := false; allowUI := true |}.

(** One [format]: the template followed by its string arguments. *)
Definition formatArgs (template : string) (args : list FormatArg) : string :=
  fold_left (λ acc a, match a with
                      | ArgString s => acc +:+ " " +:+ s
                      | ArgError e => acc +:+ " " +:+ errorMessage e
                      end) args template.

(** The fake connector of the retry scenario: two idle timeouts, then
    success. *)
Definition timesOutTwice (tryCount : Z) : Attempt :=
  {| startOrConnect := inr (localConnection (Z.to_nat tryCount), Some (specMetadata "A"));
     findKernel := inr None;
     serverConnect := if (tryCount <? 3)%Z then Some idleTimedOut else None;
     disposedMeanwhile := false |}.

(** A connector whose server process cannot be started. *)
Definition neverStarts (tryCount : Z) : Attempt :=
  {| startOrConnect := inl refused; findKernel := inr None; serverConnect := None;
     disposedMeanwhile := false |}.

(** A remote connector whose [connect] fails on the certificate; the second
    one finds the orchestrator disposed when the failure arrives. *)
Definition rejectsCertificate (tryCount : Z) : Attempt :=
  {| startOrConnect := inr (remoteConnection, None);
     findKernel := inr (Some (specMetadata "A"));
     serverConnect := Some selfSigned;
     disposedMeanwhile := false |}.

Definition rejectsCertificateDuringDispose (tryCount : Z) : Attempt :=
  {| startOrConnect := inr (remoteConnection, None);
     findKernel := inr (Some (specMetadata "A"));
     serverConnect := Some selfSigned;
     disposedMeanwhile := true |}.

(** ** Vocabulary of further statements about the retry loop *)

(** The values of [tryCount] at which the connector was called, in order. *)
Fixpoint starts (l : list LoopEvent) : list Z :=
  match l with
  | [] => []
  | StartOrConnect n :: l' => n :: starts l'
  | _ :: l' => starts l'
  end.

(** What is shown to the user: the kernel picker and the time-out message. *)
Definition prompts (e : LoopEvent) : bool :=
  match e with
  | AskForLocalKernel | ShowStartTimedOut => true
  | _ => false
  end.

Definition finalState (o : Outcome) : option LoopState :=
  match o with
  | Returned _ st | Threw _ st => Some st
  | OutOfFuel => None
  end.

(** The server and connection events of pass [n] when it obtains the
    connection [c] and then times out waiting for idle: the last pass leaves
    the connection alone. *)
Definition timedOutPass (maxTries : Z) (c : Z → IJupyterConnection) (n : Z) : list LoopEvent :=
  [StartOrConnect n; ServerCreated (Z.to_nat n); ServerDispose (Z.to_nat n)]
  ++ (if (n <? maxTries)%Z then [ConnectionDispose (connectionId (c n))] else []).

(** What the options of the call allow the loop to do: prompts need
    [allowUI], the kernel picker a local connection as well, the remote
    kernel finder is not consulted under [skipSearchingForKernel], a kernel
    connection given by the caller is not tracked again, and the telemetry of
    a connection names its kind. *)
Definition respectsOptions (options : INotebookServerOptions) (e : LoopEvent) : bool :=
  match e with
  | ShowStartTimedOut => allowUI options
  | AskForLocalKernel
  | SendTelemetryEvent AskUserForNewJupyterKernel =>
      allowUI options && isLocalConnection options
  | RemoteFindKernel => negb (skipSearchingForKernel options)
  | TrackResourceInformation _ => negb (defined (kernelConnection options))
  | SendTelemetryEvent ConnectLocalJupyter
  | SendTelemetryEvent ConnectFailedJupyter => isLocalConnection options
  | SendTelemetryEvent ConnectRemoteJupyter
  | SendTelemetryEvent ConnectRemoteFailedJupyter
  | SendTelemetryEvent ConnectRemoteSelfCertFailedJupyter => negb (isLocalConnection options)
  | _ => true
  end.

(** ** Vocabulary of further statements about the session *)

(** The [ioPubHandler] of the session object is connected to no handle but
    the active one. *)
Definition ioPubExclusive (w : World) : Prop :=
  ∀ r s, heap w !! r = Some s → ioPubHandler ∈ ISession.iopubMessage s →
         _session w = Some r.

(** The signal that reports an idle kernel: the status signal with
    ['idle'], or the kernel-changed signal with an idle replacement. *)
Definition reportsIdle (ev : WaitEvent) : bool :=
  match ev with
  | StatusChanged e => bool_decide (e = Kernel.idle)
  | KernelChanged (Some k) => bool_decide (Kernel.status k = Kernel.idle)
  | _ => false
  end.

(** ** Method bodies over the state of any object

    The same reading of asynchronous methods as for the session object, for
    the classes below: a method is a transformer of the object's state that
    returns, throws, or stays suspended on a promise that never settles. *)

Definition Prog (S A : Type) : Type := S → Result A * S.

Definition pret {S A} (a : A) : Prog S A := λ s, (Ok a, s).

Definition pbind {S A B} (m : Prog S A) (k : A → Prog S B) : Prog S B :=
  λ s, match m s with
       | (Ok a, s') => k a s'
       | (Throw e, s') => (Throw e, s')
       | (Pending, s') => (Pending, s')
       end.

Notation "'do!' x ':=' m 'in' k" := (pbind m (λ x, k))
  (at level 10, x binder, m at level 100, k at level 200).

Definition pthrow {S A} (e : JsError) : Prog S A := λ s, (Throw e, s).

(** [try { m } catch (e) { h e }]. *)
Definition ptry {S A} (m : Prog S A) (h : JsError → Prog S A) : Prog S A :=
  λ s, match m s with
       | (Throw e, s') => h e s'
       | r => r
       end.

Definition pget {S} : Prog S S := λ s, (Ok s, s).
Definition pmodify {S} (f : S → S) : Prog S unit := λ s, (Ok tt, f s).

(** [await p] on a promise and on a request. *)
Definition pawait {S A} (p : Promise A) : Prog S A :=
  match p with
  | resolved a => pret a
  | rejected e => pthrow e
  | never => λ s, (Pending, s)
  end.

Definition pawaitReply {S} (reply : Reply) : Prog S unit :=
  match reply with
  | Resolves => pret tt
  | Rejects e => pthrow e
  | NeverSettles => λ s, (Pending, s)
  end.

(** [m.ignoreErrors()] on a call that is not awaited: the caller goes on
    whatever becomes of it. *)
Definition pignoreErrors {S A} (m : Prog S A) : Prog S unit :=
  λ s, (Ok tt, snd (m s)).

(** [await Promise.all(l)] on promises that do not settle any further: the
    first rejection if there is one, no answer if one of them stays
    pending, all the values otherwise. *)
Fixpoint firstRejection {A} (l : list (Promise A)) : option JsError :=
  match l with
  | [] => None
  | rejected e :: _ => Some e
  | _ :: l' => firstRejection l'
  end.

Fixpoint allResolved {A} (l : list (Promise A)) : option (list A) :=
  match l with
  | [] => Some []
  | resolved a :: l' => cons a <$> allResolved l'
  | _ :: _ => None
  end.

Definition pawaitAll {S A} (l : list (Promise A)) : Prog S (list A) :=
  match firstRejection l with
  | Some e => pthrow e
  | None => match allResolved l with
            | Some values => pret values
            | None => λ s, (Pending, s)
            end
  end.

Definition replyPromise (reply : Reply) : Promise unit :=
  match reply with
  | Resolves => resolved tt
  | Rejects e => rejected e
  | NeverSettles => never
  end.

(** A JavaScript [Map] with string keys, in insertion order: [set] on a key
    that is present keeps its place. *)
Fixpoint mapGet {V} (key : string) (m : list (string * V)) : option V :=
  match m with
  | [] => None
  | (k, v) :: m' => if String.eqb k key then Some v else mapGet key m'
  end.

Fixpoint mapSet {V} (key : string) (v : V) (m : list (string * V)) : list (string * V) :=
  match m with
  | [] => [(key, v)]
  | (k, v') :: m' => if String.eqb k key then (k, v) :: m' else (k, v') :: mapSet key v m'
  end.

Definition mapDelete {V} (key : string) (m : list (string * V)) : list (string * V) :=
  filter (λ kv, negb (String.eqb (fst kv) key)) m.

(** A method body leaves the part [f] of the state alone, however it
    ends. *)
Definition preserves {S A B} (f : S → B) (m : Prog S A) : Prop :=
  ∀ s, f (snd (m s)) = f s.

(** ** JupyterServerBase (jupyterServer.ts) *)

Module JupyterServerBase.

Record INotebookServerLaunchInfo := {
  connectionInfo : IJupyterConnection;
  kernelConnectionMetadata : option KernelConnectionMetadata.t;
  disableUI : option bool
}.

(** What the server asks of its collaborators, in program order. *)
Inductive ServerEffect :=
| DisconnectHandlerDispose (handler : nat)
| SessionManagerFactoryCreate (connInfo : IJupyterConnection)
| SessionManagerStartNew (manager : nat)
    (kernelConnection : option KernelConnectionMetadata.t) (disableUI : option bool)
| SessionWaitForIdle (session : nat) (timeout : Z)
| SessionShutdown (session : nat)
| SavedSessionDispose (session : nat)
| NotebookDispose (notebook : nat)
| SessionManagerDispose (manager : nat)
| ConnectionInfoDispose (connectionId : nat)
| CreateNotebookInstance (identity : string) (savedSession : option nat)
| OutputAppendLine (output : string)
| TraceError (message : string)
| TelemetryCreatingNotebook (failed : bool).

(** The fields of the class, the objects it refers to, and the history.
    [notebooks] holds references to promises; [promises] gives the state of
    each ([never] while it is pending), [registrations] the [then]/[catch]
    callbacks that [setNotebook] has attached to promises, and
    [disposeWrappers] the identities that the replaced [dispose] of a
    notebook object removes from [notebooks], the latest replacement
    first. *)
Record t := mk {
  launchInfo : option INotebookServerLaunchInfo;
  connectPromise : option INotebookServerLaunchInfo;
  connectionInfoDisconnectHandler : option nat;
  serverExitCode : option Z;
  notebooks : list (string * nat);
  sessionManager : option nat;
  savedSession : option nat;
  promises : gmap nat (Promise nat);
  registrations : list (string * nat);
  disposeWrappers : gmap nat (list string);
  disposables : nat;
  log : list ServerEffect
}.

Definition set_launchInfo (v : option INotebookServerLaunchInfo) (s : t) : t :=
  mk v (connectPromise s) (connectionInfoDisconnectHandler s) (serverExitCode s)
     (notebooks s) (sessionManager s) (savedSession s) (promises s) (registrations s)
     (disposeWrappers s) (disposables s) (log s).

Definition set_connectPromise (v : option INotebookServerLaunchInfo) (s : t) : t :=
  mk (launchInfo s) v (connectionInfoDisconnectHandler s) (serverExitCode s)
     (notebooks s) (sessionManager s) (savedSession s) (promises s) (registrations s)
     (disposeWrappers s) (disposables s) (log s).

Definition set_connectionInfoDisconnectHandler (v : option nat) (s : t) : t :=
  mk (launchInfo s) (connectPromise s) v (serverExitCode s)
     (notebooks s) (sessionManager s) (savedSession s) (promises s) (registrations s)
     (disposeWrappers s) (disposables s) (log s).

Definition set_serverExitCode (v : option Z) (s : t) : t :=
  mk (launchInfo s) (connectPromise s) (connectionInfoDisconnectHandler s) v
     (notebooks s) (sessionManager s) (savedSession s) (promises s) (registrations s)
     (disposeWrappers s) (disposables s) (log s).

Definition set_notebooks (v : list (string * nat)) (s : t) : t :=
  mk (launchInfo s) (connectPromise s) (connectionInfoDisconnectHandler s) (serverExitCode s)
     v (sessionManager s) (savedSession s) (promises s) (registrations s)
     (disposeWrappers s) (disposables s) (log s).

Definition set_sessionManager (v : option nat) (s : t) : t :=
  mk (launchInfo s) (connectPromise s) (connectionInfoDisconnectHandler s) (serverExitCode s)
     (notebooks s) v (savedSession s) (promises s) (registrations s)
     (disposeWrappers s) (disposables s) (log s).

Definition set_savedSession (v : option nat) (s : t) : t :=
  mk (launchInfo s) (connectPromise s) (connectionInfoDisconnectHandler s) (serverExitCode s)
     (notebooks s) (sessionManager s) v (promises s) (registrations s)
     (disposeWrappers s) (disposables s) (log s).

Definition set_promises (v : gmap nat (Promise nat)) (s : t) : t :=
  mk (launchInfo s) (connectPromise s) (connectionInfoDisconnectHandler s) (serverExitCode s)
     (notebooks s) (sessionManager s) (savedSession s) v (registrations s)
     (disposeWrappers s) (disposables s) (log s).

Definition set_registrations (v : list (string * nat)) (s : t) : t :=
  mk (launchInfo s) (connectPromise s) (connectionInfoDisconnectHandler s) (serverExitCode s)
     (notebooks s) (sessionManager s) (savedSession s) (promises s) v
     (disposeWrappers s) (disposables s) (log s).

Definition set_disposeWrappers (v : gmap nat (list string)) (s : t) : t :=
  mk (launchInfo s) (connectPromise s) (connectionInfoDisconnectHandler s) (serverExitCode s)
     (notebooks s) (sessionManager s) (savedSession s) (promises s) (registrations s)
     v (disposables s) (log s).

Definition set_disposables (v : nat) (s : t) : t :=
  mk (launchInfo s) (connectPromise s) (connectionInfoDisconnectHandler s) (serverExitCode s)
     (notebooks s) (sessionManager s) (savedSession s) (promises s) (registrations s)
     (disposeWrappers s) v (log s).

Definition set_log (v : list ServerEffect) (s : t) : t :=
  mk (launchInfo s) (connectPromise s) (connectionInfoDisconnectHandler s) (serverExitCode s)
     (notebooks s) (sessionManager s) (savedSession s) (promises s) (registrations s)
     (disposeWrappers s) (disposables s) v.

Definition emit (e : ServerEffect) : Prog t unit :=
  pmodify (λ s, set_log (log s ++ [e]) s).

(** A server object as its constructor leaves it. *)
Definition new : t := mk None None None None [] None None ∅ [] ∅ 0 [].

(** How the collaborators answer during [connect]: the session manager
    factory, [startNew], the wait for idle and the shutdown of the probe
    session. *)
Record ConnectReplies := {
  create : JsError + nat;
  startNew : JsError + nat;
  waitForIdle : Reply;
  sessionShutdown : Reply
}.

(** How they answer during [shutdown]: the saved session, each notebook, and
    the session manager, whose [dispose] races against [sleep(10_000)];
    [NeverSettles] stands for a dispose that loses the race. *)
Record ShutdownReplies := {
  savedSessionDispose : Reply;
  notebookDispose : nat → Reply;
  sessionManagerDispose : Reply
}.

Definition ofSum {A} (r : JsError + A) : Prog t A :=
  match r with
  | inl e => pthrow e
  | inr a => pret a
  end.

Section Methods.

(** The localized messages with [String.prototype.format] and
    [Number.prototype.toString], the launch timeout of the settings, and the
    getter that the concrete classes override. *)
Variable sessionDisposed : string.
Variable jupyterServerCrashed : string.
Variable connectingToJupyterUri : string.
Variable createdNewNotebook : string.
Variable format : string → list string → string.
Variable toString : Z → string.
Variable jupyterLaunchTimeout : Z.
Variable isDisposed : t → bool.

Definition logRemoteOutput (output : string) : Prog t unit :=
  do! s := pget in
  match launchInfo s with
  | Some info =>
      if negb (localLaunch (connectionInfo info)) then emit (OutputAppendLine output)
      else pret tt
  | None => pret tt
  end.

Definition destroyKernelSpec : Prog t unit :=
  pmodify (λ s, match launchInfo s with
                | Some info =>
                    set_launchInfo
                      (Some {| connectionInfo := connectionInfo info;
                               kernelConnectionMetadata := None;
                               disableUI := disableUI info |}) s
                | None => s
                end).

(** One call of the wrapped [dispose] of a notebook object: the wrappers
    that [setNotebook] installed remove their identities, then the original
    [dispose] runs; the result is its promise. *)
Definition notebookDisposeCall (replies : ShutdownReplies) (notebook : nat)
    : Prog t (Promise unit) :=
  do! s := pget in
  do! _ := pmodify (set_notebooks
                      (foldr mapDelete (notebooks s)
                             (default [] (disposeWrappers s !! notebook)))) in
  do! _ := emit (NotebookDispose notebook) in
  pret (replyPromise (notebookDispose replies notebook)).

Fixpoint disposeAll (replies : ShutdownReplies) (l : list nat)
    : Prog t (list (Promise unit)) :=
  match l with
  | [] => pret []
  | n :: l' =>
      do! p := notebookDisposeCall replies n in
      do! ps := disposeAll replies l' in
      pret (p :: ps)
  end.

Definition shutdown (replies : ShutdownReplies) : Prog t unit :=
  ptry
    ((* 1) connectionInfoDisconnectHandler - listens to process close *)
     do! s := pget in
     do! _ := match connectionInfoDisconnectHandler s with
              | Some handler =>
                  do! _ := emit (DisconnectHandlerDispose handler) in
                  pmodify (set_connectionInfoDisconnectHandler None)
              | None => pret tt
              end in
     (* Destroy the kernel spec *)
     do! _ := destroyKernelSpec in
     (* Remove the saved session if we haven't passed it onto a notebook *)
     do! s1 := pget in
     do! _ := match savedSession s1 with
              | Some session =>
                  do! _ := emit (SavedSessionDispose session) in
                  do! _ := pawaitReply (savedSessionDispose replies) in
                  pmodify (set_savedSession None)
              | None => pret tt
              end in
     (* 2) sessions (owned by the notebooks) *)
     do! s2 := pget in
     do! resolvedNotebooks :=
       pawaitAll (map (λ kv, default never (promises s2 !! snd kv)) (notebooks s2)) in
     do! disposed := disposeAll replies resolvedNotebooks in
     do! _ := pawaitAll disposed in
     (* 3) session manager (owned by this object) *)
     do! s3 := pget in
     do! _ := match sessionManager s3 with
              | Some manager =>
                  do! _ := emit (SessionManagerDispose manager) in
                  do! _ := match sessionManagerDispose replies with
                           | Resolves => pret tt
                           | Rejects e => pthrow e
                           | NeverSettles => emit (TraceError "Session shutdown timed out.")
                           end in
                  pmodify (set_sessionManager None)
              | None => pret tt
              end in
     (* 4) connInfo (owned by this object) - kills the jupyter process *)
     do! s4 := pget in
     match launchInfo s4 with
     | Some info =>
         do! _ := emit (ConnectionInfoDispose (connectionId (connectionInfo info))) in
         pmodify (set_launchInfo None)
     | None => pret tt
     end)
    (λ e, emit (TraceError "Error during shutdown: ")).

Definition dispose (replies : ShutdownReplies) : Prog t unit := shutdown replies.

(** The listener that [connect] puts on [connectionInfo.disconnected]. *)
Definition onDisconnected (replies : ShutdownReplies) (c : Z) : Prog t unit :=
  ptry
    (do! _ := pmodify (set_serverExitCode (Some c)) in
     do! _ := emit (TraceError (format jupyterServerCrashed [toString c])) in
     pignoreErrors (shutdown replies))
    (λ _, pret tt).

Definition connect (info : INotebookServerLaunchInfo) (replies : ConnectReplies)
    : Prog t unit :=
  (* Save our launch info *)
  do! _ := pmodify (set_launchInfo (Some info)) in
  (* Indicate connect started *)
  do! _ := pmodify (λ s, if defined (connectPromise s) then s
                         else set_connectPromise (Some info) s) in
  (* Listen to the process going down *)
  do! s := pget in
  do! _ := pmodify (λ s, set_disposables (S (disposables s))
                           (set_connectionInfoDisconnectHandler (Some (disposables s)) s)) in
  (* Indicate we have a new session on the output channel *)
  do! _ := logRemoteOutput (format connectingToJupyterUri [baseUrl (connectionInfo info)]) in
  (* Create our session manager *)
  do! _ := emit (SessionManagerFactoryCreate (connectionInfo info)) in
  do! manager := ofSum (create replies) in
  do! _ := pmodify (set_sessionManager (Some manager)) in
  (* Try creating a session just to ensure we're connected. *)
  do! _ := emit (SessionManagerStartNew manager (kernelConnectionMetadata info)
                   (disableUI info)) in
  do! session := ofSum (startNew replies) in
  (* The wait for idle should throw if we can't connect. *)
  do! _ := emit (SessionWaitForIdle session jupyterLaunchTimeout) in
  do! _ := pawaitReply (waitForIdle replies) in
  do! s1 := pget in
  match launchInfo s1 with
  | Some info1 =>
      if localLaunch (connectionInfo info1) then
        (* For local we want to save this for the next notebook to use. *)
        pmodify (set_savedSession (Some session))
      else
        (* Otherwise for remote, just get rid of it. *)
        do! _ := emit (SessionShutdown session) in
        pawaitReply (sessionShutdown replies)
  | None => pthrow TypeError
  end.

(** [createNotebookInstance] is left to the concrete classes; [instance] is
    the promise it returns. *)
Definition createNotebook (identity : string) (instance : Promise nat) : Prog t nat :=
  do! s := pget in
  if negb (defined (sessionManager s)) || isDisposed s then
    pthrow (Error sessionDisposed)
  else
    (* If we have a saved session send this into the notebook *)
    let saved := savedSession s in
    do! _ := pmodify (set_savedSession None) in
    ptry
      (do! _ := emit (CreateNotebookInstance identity saved) in
       do! notebook := pawait instance in
       do! s1 := pget in
       let url := match launchInfo s1 with
                  | Some info => baseUrl (connectionInfo info)
                  | None => ""
                  end in
       do! _ := logRemoteOutput (format createdNewNotebook [url]) in
       do! _ := emit (TelemetryCreatingNotebook false) in
       pret notebook)
      (λ ex, do! _ := emit (TelemetryCreatingNotebook true) in pthrow ex).

Definition waitForConnect (s : t) : option INotebookServerLaunchInfo := connectPromise s.

(** A copy of the connection information; its [dispose] does nothing. *)
Definition getConnectionInfo (s : t) : option IJupyterConnection :=
  connectionInfo <$> launchInfo s.

Definition getDisposedError (s : t) : JsError :=
  match serverExitCode s with
  | Some c =>
      (* if (this.serverExitCode): zero is falsy *)
      if (c =? 0)%Z then Error sessionDisposed
      else Error (format jupyterServerCrashed [toString c])
  | None => Error sessionDisposed
  end.

Definition getNotebook (identity : string) (s : t) : option nat :=
  mapGet identity (notebooks s).

Definition getNotebooks (s : t) : list nat := map snd (notebooks s).

(** The callbacks [setNotebook] attaches to the promise, run once the
    promise is settled: [then] replaces the [dispose] of the notebook,
    [catch] is [removeNotebook]. *)
Definition onSettled (identity : string) (notebook : nat) : Prog t unit :=
  do! s := pget in
  match promises s !! notebook with
  | Some (resolved nb) =>
      pmodify (set_disposeWrappers
                 (<[nb := identity :: default [] (disposeWrappers s !! nb)]>
                    (disposeWrappers s)))
  | Some (rejected _) =>
      if decide (mapGet identity (notebooks s) = Some notebook)
      then pmodify (set_notebooks (mapDelete identity (notebooks s)))
      else pret tt
  | _ => pret tt
  end.

Definition setNotebook (identity : string) (notebook : nat) : Prog t unit :=
  do! _ := pmodify (λ s, set_registrations (registrations s ++ [(identity, notebook)]) s) in
  (* Save the notebook *)
  do! _ := pmodify (λ s, set_notebooks (mapSet identity notebook (notebooks s)) s) in
  onSettled identity notebook.

Fixpoint runCallbacks (l : list (string * nat)) (promise : nat) : Prog t unit :=
  match l with
  | [] => pret tt
  | (identity, p) :: l' =>
      do! _ := if decide (p = promise) then onSettled identity p else pret tt in
      runCallbacks l' promise
  end.

(** A pending notebook promise settles: the callbacks attached to it run,
    in the order of their registration. *)
Definition settle (promise : nat) (outcome : JsError + nat) : Prog t unit :=
  do! s := pget in
  match promises s !! promise with
  | Some (resolved _) | Some (rejected _) => pret tt
  | _ =>
      do! _ := pmodify (set_promises
                          (<[promise := match outcome with
                                        | inl e => rejected e
                                        | inr nb => resolved nb
                                        end]> (promises s))) in
      runCallbacks (registrations s) promise
  end.

End Methods.

End JupyterServerBase.

(** ** Vocabulary of the statements about the notebook server *)

Section ServerVocabulary.

Import JupyterServerBase.

(** The registry after the wrapped [dispose] of the notebooks [l] ran. *)
Definition unregistered (s : JupyterServerBase.t) (l : list nat) : list (string * nat) :=
  foldl (λ m n, foldr mapDelete m (default [] (disposeWrappers s !! n))) (notebooks s) l.

(** The registry has one entry per identity; every promise in it got there
    through [setNotebook], none of them is rejected, and the notebook of a
    resolved one unregisters its identity when it is disposed. *)
Definition tracked (s : JupyterServerBase.t) : Prop :=
  NoDup (fst <$> notebooks s)
  ∧ ∀ identity p,
      (identity, p) ∈ notebooks s →
      (identity, p) ∈ registrations s
      ∧ (∀ e, promises s !! p ≠ Some (rejected e))
      ∧ (∀ nb, promises s !! p = Some (resolved nb) →
           identity ∈ default [] (disposeWrappers s !! nb)).

(** Every promise in the registry is resolved. *)
Definition settled (s : JupyterServerBase.t) : Prop :=
  ∀ identity p, (identity, p) ∈ notebooks s →
                ∃ nb, promises s !! p = Some (resolved nb).

(** The notebooks of the resolved promises of the registry, in its order. *)
Definition resolvedNotebooks (s : JupyterServerBase.t) : list nat :=
  omap (λ kv, match promises s !! snd kv with
              | Some (resolved nb) => Some nb
              | _ => None
              end) (notebooks s).

(** Collaborators that answer every [dispose] of a [shutdown]; the session
    manager may be slower than the ten seconds it is given. *)
Definition cooperative (replies : ShutdownReplies) : Prop :=
  savedSessionDispose replies = Resolves
  ∧ (∀ n, notebookDispose replies n = Resolves)
  ∧ (∀ e, sessionManagerDispose replies ≠ Rejects e).

End ServerVocabulary.

(** A method body moves the state along the relation [R], however it
    ends. *)
Definition advances {S A} (R : S → S → Prop) (m : Prog S A) : Prop :=
  ∀ s, R s (snd (m s)).

(** The log of [s'] continues the log of [s]. *)
Definition logExtends (s s' : JupyterServerBase.t) : Prop :=
  ∃ l, JupyterServerBase.log s' = JupyterServerBase.log s ++ l.

(** From [s] to [s'] the registry lost entries at most, and the promises,
    their callbacks and the replaced [dispose] methods are the same. *)
Definition registryShrinks (s s' : JupyterServerBase.t) : Prop :=
  JupyterServerBase.notebooks s' `sublist_of` JupyterServerBase.notebooks s
  ∧ JupyterServerBase.promises s' = JupyterServerBase.promises s
  ∧ JupyterServerBase.registrations s' = JupyterServerBase.registrations s
  ∧ JupyterServerBase.disposeWrappers s' = JupyterServerBase.disposeWrappers s.

(** A promise that is not settled. *)
Definition unsettled (s : JupyterServerBase.t) (p : nat) : Prop :=
  JupyterServerBase.promises s !! p = None
  ∨ JupyterServerBase.promises s !! p = Some never.

(** ** The fields of JupyterExecutionBase (jupyterExecution.ts) *)

Module IJupyterServerUri.

(** [expiration] is the [getTime()] of the date, in milliseconds. *)
Record t := mk {
  baseUrl : string;
  token : string;
  authorizationHeader : string;
  expiration : option Z;
  displayName : string
}.

End IJupyterServerUri.

Module JupyterExecution.

Record HandleAndId := { handle : string; id : string }.

(** What the object asks of its collaborators and of the timers of the
    runtime, in program order. *)
Inductive ExecutionEffect :=
| GetSelectedInterpreter
| GetJupyterServerUri (id handle : string)
| SetTimeout (timer : nat) (uri : string) (timeoutInMS : Z)
| ClearTimeout (timer : nat).

(** The fields of the class beside the ones of the retry loop, and the
    timers of the runtime that are armed: [timers] gives the URI that the
    callback of an armed timer refreshes and its delay. *)
Record t := mk {
  usablePythonInterpreter : option nat;
  disposed : bool;
  uriToJupyterServerUri : list (string * IJupyterServerUri.t);
  pendingTimeouts : list nat;
  timers : gmap nat (string * Z);
  nextTimer : nat;
  log : list ExecutionEffect
}.

Definition set_usablePythonInterpreter (v : option nat) (s : t) : t :=
  mk v (disposed s) (uriToJupyterServerUri s) (pendingTimeouts s) (timers s)
     (nextTimer s) (log s).

Definition set_disposed (v : bool) (s : t) : t :=
  mk (usablePythonInterpreter s) v (uriToJupyterServerUri s) (pendingTimeouts s) (timers s)
     (nextTimer s) (log s).

Definition set_uriToJupyterServerUri (v : list (string * IJupyterServerUri.t)) (s : t) : t :=
  mk (usablePythonInterpreter s) (disposed s) v (pendingTimeouts s) (timers s)
     (nextTimer s) (log s).

Definition set_pendingTimeouts (v : list nat) (s : t) : t :=
  mk (usablePythonInterpreter s) (disposed s) (uriToJupyterServerUri s) v (timers s)
     (nextTimer s) (log s).

Definition set_timers (v : gmap nat (string * Z)) (s : t) : t :=
  mk (usablePythonInterpreter s) (disposed s) (uriToJupyterServerUri s) (pendingTimeouts s) v
     (nextTimer s) (log s).

Definition set_nextTimer (v : nat) (s : t) : t :=
  mk (usablePythonInterpreter s) (disposed s) (uriToJupyterServerUri s) (pendingTimeouts s)
     (timers s) v (log s).

Definition set_log (v : list ExecutionEffect) (s : t) : t :=
  mk (usablePythonInterpreter s) (disposed s) (uriToJupyterServerUri s) (pendingTimeouts s)
     (timers s) (nextTimer s) v.

Definition emit (e : ExecutionEffect) : Prog t unit :=
  pmodify (λ s, set_log (log s ++ [e]) s).

(** The object as its constructor leaves it. *)
Definition new : t := mk None false [] [] ∅ 0 [].

Section Methods.

(** The names of the two query parameters, and [new URL(uri)] with the
    [get] of its [searchParams]: [None] when the URI does not parse and the
    constructor throws. *)
Variable REMOTE_URI_ID_PARAM : string.
Variable REMOTE_URI_HANDLE_PARAM : string.
Variable searchParams : string → option (string → option string).

Definition clearTimeouts : Prog t unit :=
  do! _ := pmodify (λ s, set_log (log s ++ map ClearTimeout (pendingTimeouts s))
                           (set_timers (foldr delete (timers s) (pendingTimeouts s)) s)) in
  pmodify (set_pendingTimeouts []).

Definition dispose : Prog t unit :=
  do! _ := pmodify (set_disposed true) in
  clearTimeouts.

(** [selected] is what the race between [getSelectedInterpreter] and the
    cancellation comes to. *)
Definition getUsableJupyterPython (selected : Promise (option nat)) : Prog t (option nat) :=
  do! s := pget in
  (* Only try to compute this once. *)
  do! _ := if negb (defined (usablePythonInterpreter s)) && negb (disposed s) then
             do! _ := emit GetSelectedInterpreter in
             do! interpreter := pawait selected in
             pmodify (set_usablePythonInterpreter interpreter)
           else pret tt in
  do! s1 := pget in
  pret (usablePythonInterpreter s1).

Definition onSettingsChanged : Prog t unit :=
  (* Clear our usableJupyterInterpreter so that we recompute our values *)
  pmodify (set_usablePythonInterpreter None).

Definition extractJupyterServerHandleAndId (uri : string) : Prog t (option HandleAndId) :=
  match searchParams uri with
  | None => pthrow TypeError
  | Some get =>
      (* Id has to be there too. *)
      match get REMOTE_URI_ID_PARAM, get REMOTE_URI_HANDLE_PARAM with
      | Some id, Some uriHandle =>
          if nonEmpty (Some id) && nonEmpty (Some uriHandle)
          then pret (Some {| handle := uriHandle; id := id |})
          else pret None
      | _, _ => pret None
      end
  end.

Definition getServerUri (uri : string) : Prog t (option IJupyterServerUri.t) :=
  do! idAndHandle := extractJupyterServerHandleAndId uri in
  match idAndHandle with
  | Some _ =>
      do! s := pget in
      pret (mapGet uri (uriToJupyterServerUri s))
  | None => pret None
  end.

(** [reply] is the answer of the provider registration and [now] the
    [Date.now()] at the time it arrives. *)
Definition updateServerUri (uri : string) (reply : Promise IJupyterServerUri.t) (now : Z)
    : Prog t unit :=
  do! idAndHandle := extractJupyterServerHandleAndId uri in
  match idAndHandle with
  | Some idAndHandle =>
      do! _ := emit (GetJupyterServerUri (id idAndHandle) (handle idAndHandle)) in
      do! serverUri := pawait reply in
      do! _ := pmodify (λ s, set_uriToJupyterServerUri
                               (mapSet uri serverUri (uriToJupyterServerUri s)) s) in
      (* See if there's an expiration date *)
      match IJupyterServerUri.expiration serverUri with
      | Some expiration =>
          let timeoutInMS := (expiration - now)%Z in
          (* Week seems long enough (in case the expiration is ridiculous) *)
          if (0 <? timeoutInMS)%Z && (timeoutInMS <? 604800000)%Z then
            do! s := pget in
            let timer := nextTimer s in
            do! _ := pmodify (λ s, set_nextTimer (S timer)
                                     (set_timers (<[timer := (uri, timeoutInMS)]> (timers s)) s)) in
            do! _ := emit (SetTimeout timer uri timeoutInMS) in
            pmodify (λ s, set_pendingTimeouts (pendingTimeouts s ++ [timer]) s)
          else pret tt
      | None => pret tt
      end
  | None => pret tt
  end.

(** The runtime fires an armed timer: its callback is
    [this.updateServerUri(uri).ignoreErrors()]. *)
Definition onTimeout (timer : nat) (reply : Promise IJupyterServerUri.t) (now : Z)
    : Prog t unit :=
  do! s := pget in
  match timers s !! timer with
  | Some (uri, _) =>
      do! _ := pmodify (λ s, set_timers (delete timer (timers s)) s) in
      pignoreErrors (updateServerUri uri reply now)
  | None => pret tt
  end.

End Methods.

End JupyterExecution.

(** ** Vocabulary of the statements about the refresh timers *)


(** The expiration lies after [now] and less than a week ahead. *)
Definition withinAWeek (now : Z) (serverUri : IJupyterServerUri.t) : bool :=
  match IJupyterServerUri.expiration serverUri with
  | Some expiration => (now <? expiration)%Z && (expiration <? now + 604800000)%Z
  | None => false
  end.

(** The object after a refresh of [uri] that got the answer [serverUri]. *)
Definition refreshed (uri : string) (ih : JupyterExecution.HandleAndId)
    (serverUri : IJupyterServerUri.t) (now : Z) (s : JupyterExecution.t)
    : JupyterExecution.t :=
  let s1 := JupyterExecution.set_uriToJupyterServerUri
              (mapSet uri serverUri (JupyterExecution.uriToJupyterServerUri s))
              (JupyterExecution.set_log
                 (JupyterExecution.log s
                  ++ [JupyterExecution.GetJupyterServerUri
                        (JupyterExecution.id ih) (JupyterExecution.handle ih)]) s) in
  match IJupyterServerUri.expiration serverUri with
  | Some e =>
      if withinAWeek now serverUri then
        JupyterExecution.set_pendingTimeouts
          (JupyterExecution.pendingTimeouts s ++ [JupyterExecution.nextTimer s])
          (JupyterExecution.set_log
             (JupyterExecution.log s1
              ++ [JupyterExecution.SetTimeout (JupyterExecution.nextTimer s) uri (e - now)])
             (JupyterExecution.set_nextTimer (S (JupyterExecution.nextTimer s))
                (JupyterExecution.set_timers
                   (<[JupyterExecution.nextTimer s := (uri, (e - now)%Z)]>
                      (JupyterExecution.timers s)) s1)))
      else s1
  | None => s1
  end.

(** ** Concrete inputs of the further examples *)

(** A connector whose every pass obtains a connection and then times out
    waiting for idle, and one whose second pass cannot start the server. *)
Definition alwaysTimesOut (tryCount : Z) : Attempt :=
  {| startOrConnect := inr (localConnection (Z.to_nat tryCount), Some (specMetadata "A"));
     findKernel := inr None;
     serverConnect := Some idleTimedOut;
     disposedMeanwhile := false |}.

Definition timesOutThenNeverStarts (tryCount : Z) : Attempt :=
  if (tryCount <? 2)%Z then alwaysTimesOut tryCount else neverStarts tryCount.

(** A remote call that allows no UI, brings its kernel connection and skips
    the search for a kernel. *)
Definition quietOptions : INotebookServerOptions :=
  {| uri := Some "https://hub.example.org/?token=t";
     kernelConnection := Some (specMetadata "A");
     skipSearchingForKernel := true; allowUI := false |}.

(** A world whose active session has a standby that never got ready. *)
Definition rejectedStandbyWorld : World :=
  aWorld (Some 1) (Some (specMetadata "A")) (Some (rejected (Error "standby failed")))
         {[1 := localNotebook Kernel.idle]}.

(** One [format] on strings: the template followed by its arguments. *)
Definition formatStrings (template : string) (args : list string) : string :=
  fold_left (λ acc a, acc +:+ " " +:+ a) args template.

Definition localLaunchInfo : JupyterServerBase.INotebookServerLaunchInfo :=
  {| JupyterServerBase.connectionInfo := localConnection 1;
     JupyterServerBase.kernelConnectionMetadata := Some (specMetadata "A");
     JupyterServerBase.disableUI := None |}.

Definition remoteLaunchInfo : JupyterServerBase.INotebookServerLaunchInfo :=
  {| JupyterServerBase.connectionInfo := remoteConnection;
     JupyterServerBase.kernelConnectionMetadata := Some (specMetadata "A");
     JupyterServerBase.disableUI := Some true |}.

(** Collaborators of [connect]: session manager 10 and probe session 20,
    which becomes idle or does not. *)
Definition connectsFine : JupyterServerBase.ConnectReplies :=
  {| JupyterServerBase.create := inr 10%nat;
     JupyterServerBase.startNew := inr 20%nat;
     JupyterServerBase.waitForIdle := Resolves;
     JupyterServerBase.sessionShutdown := Resolves |}.

Definition neverIdle : JupyterServerBase.ConnectReplies :=
  {| JupyterServerBase.create := inr 10%nat;
     JupyterServerBase.startNew := inr 20%nat;
     JupyterServerBase.waitForIdle :=
       Rejects (JupyterWaitForIdleError "Timed out waiting for idle");
     JupyterServerBase.sessionShutdown := Resolves |}.

(** Collaborators of [shutdown]: all of them answer, or the saved session
    fails to dispose. *)
Definition disposesFine : JupyterServerBase.ShutdownReplies :=
  {| JupyterServerBase.savedSessionDispose := Resolves;
     JupyterServerBase.notebookDispose := λ _, Resolves;
     JupyterServerBase.sessionManagerDispose := Resolves |}.

Definition savedSessionFails : JupyterServerBase.ShutdownReplies :=
  {| JupyterServerBase.savedSessionDispose := Rejects (Error "kernel is gone");
     JupyterServerBase.notebookDispose := λ _, Resolves;
     JupyterServerBase.sessionManagerDispose := Resolves |}.

(** A server object after a local [connect], and the same with the notebook
    50 of the resolved promise 5 registered for one identity. *)
Definition connectedServer : JupyterServerBase.t :=
  snd (JupyterServerBase.connect "Connecting to" formatStrings 60000 localLaunchInfo
         connectsFine JupyterServerBase.new).

Definition serverWithNotebook : JupyterServerBase.t :=
  snd (JupyterServerBase.settle 5 (inr 50%nat)
         (snd (JupyterServerBase.setNotebook "file:///work/analysis.ipynb" 5
                 connectedServer))).

(** The same before the promise 5 is settled. *)
Definition serverWithPendingNotebook : JupyterServerBase.t :=
  snd (JupyterServerBase.setNotebook "file:///work/analysis.ipynb" 5 connectedServer).

(** A stand-in for [new URL(uri).searchParams]: one URI of a provider, with
    its id and handle, one URI without them, and text that is no URI. *)
Definition providerUri : string := "https://hub.example.org/?id=provider-1&uriHandle=h-7".

Definition exampleSearchParams (uri : string) : option (string → option string) :=
  if String.eqb uri providerUri then
    Some (λ key, if String.eqb key "id" then Some "provider-1"
                 else if String.eqb key "uriHandle" then Some "h-7"
                 else None)
  else if String.prefix "http" uri then Some (λ _, None)
  else None.

(** An answer of the provider that expires at the given time. *)
Definition expiringAt (expiration : option Z) : IJupyterServerUri.t :=
  {| IJupyterServerUri.baseUrl := "https://hub.example.org/user/a/";
     IJupyterServerUri.token := "";
     IJupyterServerUri.authorizationHeader := "{}";
     IJupyterServerUri.expiration := expiration;
     IJupyterServerUri.displayName := "hub" |}.

(** An active session whose backend answers no request. *)
Definition unresponsiveNotebook : ISession.t :=
  ISession.mk (Some (aKernel "k1" Kernel.busy)) (Some notebookUri) None
              (Some {| socket := 1 |}) (Some (specMetadata "A"))
              false [] [] [] ShutdownHangs NeverSettles NeverSettles.

Definition unresponsiveWorld : World :=
  aWorld (Some 1) (Some (specMetadata "A")) None {[1 := unresponsiveNotebook]}.

(** * Properties of the session object *)

(** Unfolding of the monad, for symbolic runs of method bodies. *)
Ltac run :=
  repeat (cbn [bind ret get modify emit spawn throw try_catch await update
               pendingForever sessionDispose fst snd
               _session kernelConnectionMetadata resource restartSessionPromise
               onStatusChangedEvent heap effects pending closures
               set_session set_kernelConnectionMetadata set_resource
               set_restartSessionPromise set_onStatusChangedEvent set_heap
               set_effects set_pending set_closures deref mbind option_bind
               ISession.kernel ISession.resource ISession.isRemoteSession
               ISession.kernelSocketInformation ISession.kernelConnectionMetadata
               ISession.isDisposed ISession.statusChanged ISession.kernelChanged
               ISession.iopubMessage ISession.shutdownReply ISession.interruptReply
               ISession.restartReply ISession.set_kernel ISession.set_isDisposed
               ISession.set_statusChanged ISession.set_kernelChanged
               ISession.set_iopubMessage negb andb orb defined truthy default
               fmap option_fmap option_map] in *;
          unfold bind, ret, get, modify, emit, spawn, throw, update, sessionDispose in *).

Section SessionProperties.

Set Default Proof Using "Type".

Variable getResourceType : Resource → string.
Variable kernelConnectionMetadataHasKernelSpec : KernelConnectionMetadata.t → bool.
Variable sessionDisposed : string.
Variable jupyterLaunchTimedOut : string.
Variable interruptingKernelFailed : string.
Variable DefaultCommTarget : string.
Variable startRestartSession : Z → M unit.
Variable createNewKernelSession : Resource → KernelConnectionMetadata.t → Z → M SessionRef.

Lemma set_isDisposed_same handler s b :
  ISession.isDisposed s = b →
  ISession.set_isDisposed b (unhook handler s) = unhook handler s.
Proof. intros <-. destruct handler, s; reflexivity. Qed.

Lemma alter_unhook (h : gmap nat ISession.t) r s handler :
  h !! r = Some s →
  match handler with
  | Some x => alter (λ s, ISession.set_statusChanged
                            (disconnect x (ISession.statusChanged s)) s) r h
  | None => h
  end = <[r := unhook handler s]> h.
Proof.
  intros Hs. destruct handler; cbn [unhook].
  - apply map_eq; intros i. destruct (decide (r = i)) as [->|Hne].
    + rewrite lookup_alter_eq, lookup_insert_eq, Hs. reflexivity.
    + rewrite lookup_alter_ne, lookup_insert_ne by done. reflexivity.
  - symmetry. apply insert_id. exact Hs.
Qed.

Lemma world_eta w :
  mkWorld (_session w) (kernelConnectionMetadata w) (resource w) (restartSessionPromise w)
          (onStatusChangedEvent w) (heap w) (effects w) (pending w) (closures w) = w.
Proof. destruct w; reflexivity. Qed.

Ltac fields :=
  cbn [effects pending _session restartSessionPromise kernelConnectionMetadata
       resource onStatusChangedEvent closures heap set_effects set_heap set_pending
       set_session set_restartSessionPromise set_kernelConnectionMetadata
       set_resource set_onStatusChangedEvent set_closures].

Lemma shutdownSession_begin_eq w r s handler isRestart :
  heap w !! r = Some s →
  defined (ISession.kernel s) = true →
  shutdownSession_begin getResourceType (Some r) handler isRestart w
  = (Ok (inflight getResourceType r s isRestart),
     set_effects (effects w ++ beginLog getResourceType r s isRestart)
       (set_heap
          (<[r := ISession.set_isDisposed
                    (ISession.isDisposed s
                     || negb (canShutdownSession getResourceType s isRestart))
                    (unhook handler s)]> (heap w)) w)).
Proof.
  intros Hs Hk. unfold shutdownSession_begin, inflight, beginLog. run.
  rewrite Hs, Hk.
  pose proof (alter_unhook (heap w) r s handler Hs) as Hh.
  destruct (canShutdownSession getResourceType s isRestart) eqn:Hc.
  - destruct handler as [h|]; destruct (ISession.isDisposed s) eqn:Hd; run; fields;
      cbn [orb negb]; rewrite <- ?(assoc_L (++));
      rewrite (set_isDisposed_same _ _ _ Hd), <- Hh; reflexivity.
  - rewrite orb_true_r.
    destruct handler as [h|]; run; fields.
    + rewrite Hh, alter_insert_eq. reflexivity.
    + cbn [unhook]. do 3 f_equal.
      apply map_eq; intros i. destruct (decide (r = i)) as [->|Hne].
      * rewrite lookup_alter_eq, lookup_insert_eq, Hs. reflexivity.
      * rewrite lookup_alter_ne, lookup_insert_ne by done. reflexivity.
Qed.

Lemma shutdownSession_begin_none w session handler isRestart :
  deref w session ≫= ISession.kernel = None →
  shutdownSession_begin getResourceType session handler isRestart w = (Ok None, w).
Proof.
  intros H. unfold shutdownSession_begin. run.
  destruct session as [r|]; [|reflexivity]. cbn in H.
  destruct (heap w !! r) as [s|]; [|reflexivity]. cbn in H. rewrite H. reflexivity.
Qed.

Lemma shutdownSession_resume_eq w r s :
  heap w !! r = Some s →
  shutdownSession_resume r w
  = (Ok tt, set_effects (effects w ++ resumeLog r s)
              (set_heap (<[r := ISession.set_isDisposed true s]> (heap w)) w)).
Proof.
  intros Hs. unfold shutdownSession_resume, resumeLog. run.
  rewrite lookup_alter_eq, Hs. cbn [fmap option_fmap option_map].
  assert (Hi : ∀ f : ISession.t → ISession.t,
             alter f r (heap w) = <[r := f s]> (heap w)).
  { intros f. apply map_eq; intros i. destruct (decide (r = i)) as [->|Hne].
    - rewrite lookup_alter_eq, lookup_insert_eq, Hs. reflexivity.
    - rewrite lookup_alter_ne, lookup_insert_ne by done. reflexivity. }
  rewrite Hi.
  assert (Hsame : ISession.isDisposed s = true → ISession.set_isDisposed true s = s)
    by (destruct s; cbn; intros ->; reflexivity).
  destruct (ISession.isDisposed s) eqn:Hd;
    destruct (ISession.shutdownReply s) as [[]| |];
    cbn [ISession.isDisposed ISession.set_isDisposed]; rewrite ?Hd; run; fields;
    rewrite ?app_nil_r, ?alter_insert_eq, ?Hsame by reflexivity;
    cbn [ISession.set_isDisposed ISession.isDisposed];
    try (destruct w; reflexivity); destruct s; reflexivity.
Qed.

Lemma shutdownSession_ignoreErrors_run session handler isRestart w :
  shutdownSession_ignoreErrors getResourceType session handler isRestart w
  = (Ok tt, begun getResourceType session handler isRestart w).
Proof.
  unfold shutdownSession_ignoreErrors, begun.
  destruct session as [r|].
  2:{ unfold bind. rewrite shutdownSession_begin_none by reflexivity. reflexivity. }
  destruct (heap w !! r) as [s|] eqn:Hs.
  2:{ unfold bind. rewrite shutdownSession_begin_none by (cbn; rewrite Hs; reflexivity).
      reflexivity. }
  destruct (defined (ISession.kernel s)) eqn:Hk.
  2:{ unfold bind. rewrite shutdownSession_begin_none; [reflexivity|].
      cbn. rewrite Hs. cbn. destruct (ISession.kernel s); [discriminate|reflexivity]. }
  unfold bind. rewrite (shutdownSession_begin_eq w r s) by assumption.
  destruct (inflight getResourceType r s isRestart); run; fields; rewrite ?app_nil_r; reflexivity.
Qed.

Lemma shutdownSession_run session handler isRestart w :
  shutdownSession getResourceType session handler isRestart w
  = (Ok tt, tornDown getResourceType session handler isRestart w).
Proof.
  unfold shutdownSession, tornDown.
  destruct session as [r|].
  2:{ unfold bind. rewrite shutdownSession_begin_none by reflexivity. reflexivity. }
  destruct (heap w !! r) as [s|] eqn:Hs.
  2:{ unfold bind. rewrite shutdownSession_begin_none by (cbn; rewrite Hs; reflexivity).
      reflexivity. }
  destruct (defined (ISession.kernel s)) eqn:Hk.
  2:{ unfold bind. rewrite shutdownSession_begin_none; [reflexivity|].
      cbn. rewrite Hs. cbn. destruct (ISession.kernel s); [discriminate|reflexivity]. }
  unfold bind. rewrite (shutdownSession_begin_eq w r s) by assumption.
  unfold inflight, beginLog, teardownLog.
  destruct (canShutdownSession getResourceType s isRestart) eqn:Hc;
    destruct (ISession.isDisposed s) eqn:Hd; cbn [andb orb negb ret].
  - rewrite (set_isDisposed_same _ _ _ Hd). reflexivity.
  - erewrite shutdownSession_resume_eq by (fields; apply lookup_insert_eq).
    fields. unfold resumeLog.
    rewrite insert_insert_eq, <- (assoc_L (++)).
    destruct handler, s; reflexivity.
  - reflexivity.
  - reflexivity.
Qed.

(** C1, as amended.  The can-shutdown predicate of [shutdownSession] is
    false for every handle attached to a live kernel, whatever else holds
    (also when the call shuts down the restart standby, also for an
    interactive-window resource).  For the other handles it is true when the
    call shuts down the restart standby, true for an interactive resource,
    false for a notebook resource on a remote session when the call is not
    for the standby, and true in the remaining cases.  When it is false, a
    call of [shutdownSession] on a handle that has a kernel, awaited or not,
    only disposes the handle locally: the one request it records is
    [SessionDispose], no [SessionShutdown] goes to the backend and no
    continuation is left pending. *)
Theorem canShutdownSession_policy (s : ISession.t) (isRestart : option bool) :
  (isLive s → canShutdownSession getResourceType s isRestart = false)
  ∧ (¬ isLive s → isRestart = Some true →
     canShutdownSession getResourceType s isRestart = true)
  ∧ (¬ isLive s → defined (ISession.resource s) = true →
     getResourceType (ISession.resource s) = "interactive" →
     canShutdownSession getResourceType s isRestart = true)
  ∧ (¬ isLive s → isRestart ≠ Some true → defined (ISession.resource s) = true →
     getResourceType (ISession.resource s) = "notebook" →
     ISession.isRemoteSession s = Some true →
     canShutdownSession getResourceType s isRestart = false)
  ∧ (¬ isLive s →
     ISession.resource s = None ∨ getResourceType (ISession.resource s) ≠ "notebook"
       ∨ ISession.isRemoteSession s ≠ Some true →
     canShutdownSession getResourceType s isRestart = true)
  ∧ (∀ w r handler,
       heap w !! r = Some s → defined (ISession.kernel s) = true →
       canShutdownSession getResourceType s isRestart = false →
       ∃ w', shutdownSession getResourceType (Some r) handler isRestart w = (Ok tt, w')
           ∧ shutdownSession_ignoreErrors getResourceType (Some r) handler isRestart w
             = (Ok tt, w')
           ∧ effects w' = effects w ++ [SessionDispose r]
           ∧ pending w' = pending w
           ∧ ISession.isDisposed <$> heap w' !! r = Some true).
Proof.
  unfold isLive, canShutdownSession.
  repeat split.
  - intros H. rewrite decide_True by exact H. reflexivity.
  - intros Hl ->. rewrite decide_False by exact Hl. reflexivity.
  - intros Hl Hr Hi. rewrite decide_False by exact Hl. rewrite Hr, Hi.
    destruct (truthy isRestart); reflexivity.
  - intros Hl Hn Hr Ht Hrem. rewrite decide_False by exact Hl.
    rewrite Hr, Ht, Hrem.
    destruct isRestart as [[]|]; try reflexivity. congruence.
  - intros Hl Hcase. rewrite decide_False by exact Hl.
    destruct (truthy isRestart); [reflexivity|].
    destruct (defined (ISession.resource s)
              && String.eqb (getResourceType (ISession.resource s)) "interactive");
      [reflexivity|].
    destruct Hcase as [Hn | [Hn | Hn]].
    + rewrite Hn. reflexivity.
    + apply String.eqb_neq in Hn. rewrite Hn, andb_false_r. reflexivity.
    + rewrite bool_decide_eq_false_2 by exact Hn. rewrite andb_false_r. reflexivity.
  - intros w r handler Hs Hk Hc.
    rewrite shutdownSession_run, shutdownSession_ignoreErrors_run.
    unfold tornDown, begun, inflight, teardownLog, beginLog.
    fold (canShutdownSession getResourceType s isRestart) in Hc.
    rewrite Hs, Hk, Hc. cbn [andb negb]. rewrite orb_true_r, app_nil_r.
    eexists. split; [reflexivity|]. split; [destruct w; reflexivity|].
    fields. rewrite lookup_insert_eq. repeat split.
Qed.

Lemma noActiveKernel_activeKernel w : noActiveKernel w → activeKernel w = None.
Proof.
  unfold activeKernel. intros [H | (r & s & Hr & Hs & Hk)].
  - rewrite H. reflexivity.
  - rewrite Hr, Hs. cbn. rewrite Hk. reflexivity.
Qed.

(** C10.  With no active session, or with an active session that has no
    kernel, [requestExecute], [requestDebug], [requestInspect],
    [requestComplete], [registerCommTarget], [registerMessageHook] and
    [removeMessageHook] throw the session-disposed error, while
    [interrupt] and [sendInputReply] return normally; none of them changes
    the world, so nothing is sent to the backend. *)
Theorem no_active_session_asymmetry (w : World) :
  noActiveKernel w →
  (∀ content, requestExecute sessionDisposed content w = (Throw (Error sessionDisposed), w))
  ∧ (∀ content, requestDebug sessionDisposed content w = (Throw (Error sessionDisposed), w))
  ∧ (∀ content, requestInspect sessionDisposed content w = (Throw (Error sessionDisposed), w))
  ∧ (∀ content, requestComplete sessionDisposed content w = (Throw (Error sessionDisposed), w))
  ∧ (∀ target, registerCommTarget sessionDisposed target w = (Throw (Error sessionDisposed), w))
  ∧ (∀ msgId hook, registerMessageHook sessionDisposed msgId hook w
                   = (Throw (Error sessionDisposed), w))
  ∧ (∀ msgId hook, removeMessageHook sessionDisposed msgId hook w
                   = (Throw (Error sessionDisposed), w))
  ∧ (∀ timeout, interrupt interruptingKernelFailed timeout w = (Ok tt, w))
  ∧ (∀ content, sendInputReply content w = (Ok tt, w)).
Proof.
  intros H. apply noActiveKernel_activeKernel in H.
  unfold requestExecute, requestDebug, requestInspect, requestComplete,
    registerCommTarget, registerMessageHook, removeMessageHook, interrupt,
    sendInputReply, bind, get.
  rewrite H. repeat split.
Qed.

Lemma onStatusChangedEvent_swappedOut w :
  onStatusChangedEvent (swappedOut w) = onStatusChangedEvent w.
Proof. reflexivity. Qed.

Lemma setSession_None_run w : setSession None w = (Ok tt, swappedOut w).
Proof.
  unfold setSession, swappedOut. run. destruct (_session w); run; fields; reflexivity.
Qed.

Lemma effects_tornDown session handler isRestart w :
  effects (tornDown getResourceType session handler isRestart w)
  = effects w ++ teardownEffects getResourceType session isRestart w.
Proof.
  unfold tornDown, teardownEffects.
  destruct session as [r|]; [|symmetry; apply app_nil_r].
  destruct (heap w !! r) as [s|]; [|symmetry; apply app_nil_r].
  destruct (defined (ISession.kernel s)); [reflexivity|symmetry; apply app_nil_r].
Qed.

Lemma fields_tornDown session handler isRestart w :
  _session (tornDown getResourceType session handler isRestart w) = _session w
  ∧ restartSessionPromise (tornDown getResourceType session handler isRestart w) = restartSessionPromise w
  ∧ onStatusChangedEvent (tornDown getResourceType session handler isRestart w) = onStatusChangedEvent w
  ∧ pending (tornDown getResourceType session handler isRestart w) = pending w.
Proof.
  unfold tornDown.
  destruct session as [r|]; [|done].
  destruct (heap w !! r) as [s|]; [|done].
  destruct (defined (ISession.kernel s)); done.
Qed.

(** C9.  [shutdown] is idempotent.  If the standby promise is not one that
    never settles, a first call completes and a second call right after it
    completes too; the first call leaves no active session (and, when there
    was one, no standby promise), and the second call leaves every handle as
    it was: it records nothing but the disposal of the status-changed
    emitter, so no handle is disposed or shut down a second time and nothing
    is thrown.  The first call, made with an active session, records in this
    order the teardown of the active session, the teardown of the awaited
    standby as a restart session, the swap to [undefined] and the disposal
    of the emitter. *)
Theorem shutdown_idempotent (w : World) :
  restartSessionPromise w ≠ Some never →
  ∃ w1 w2,
    shutdown getResourceType w = (Ok tt, w1)
    ∧ shutdown getResourceType w1 = (Ok tt, w2)
    (* the first call leaves no active session and, when there was one, no standby *)
    ∧ _session w1 = None
    ∧ (_session w ≠ None → restartSessionPromise w1 = None)
    (* the second call touches no handle *)
    ∧ heap w2 = heap w1
    ∧ effects w2 = effects w1 ++ emitterLog w1
    ∧ pending w2 = pending w1
    (* the order of the first call *)
    ∧ (∀ r, _session w = Some r →
         let w' := tornDown getResourceType (Some r) (Some statusHandler) (Some false) w in
         effects w1
         = effects w
           ++ teardownEffects getResourceType (Some r) (Some false) w
           ++ teardownEffects getResourceType (awaitedStandby (restartSessionPromise w)) (Some true) w'
           ++ [SetSession None]
           ++ emitterLog w).
Proof.
  intros Hp.
  assert (Hsecond : ∀ w1, _session w1 = None →
            shutdown getResourceType w1
            = (Ok tt, match onStatusChangedEvent w1 with
                      | Some _ => set_effects (effects w1 ++ [StatusChangedEmitterDispose])
                                    (set_onStatusChangedEvent
                                       (Some {| emitterDisposed := true |}) w1)
                      | None => w1
                      end)).
  { intros w1 H1. unfold shutdown. run. rewrite H1. run.
    destruct (onStatusChangedEvent w1); reflexivity. }
  destruct (_session w) as [r|] eqn:Hr.
  2:{ unfold emitterLog. rewrite (Hsecond w Hr).
      destruct (onStatusChangedEvent w) eqn:He.
      - eexists _, _. split; [reflexivity|]. rewrite Hsecond by exact Hr.
        fields. split; [reflexivity|]. cbn [defined]. repeat split; done.
      - eexists _, _. split; [reflexivity|]. rewrite Hsecond by exact Hr.
        rewrite He. split; [reflexivity|]. cbn [defined]. rewrite app_nil_r.
        repeat split; done. }
  set (w' := tornDown getResourceType (Some r) (Some statusHandler) (Some false) w).
  set (w'' := tornDown getResourceType (awaitedStandby (restartSessionPromise w)) None (Some true) w').
  assert (He'' : onStatusChangedEvent w'' = onStatusChangedEvent w).
  { unfold w''. destruct (fields_tornDown (awaitedStandby (restartSessionPromise w))
                            None (Some true) w') as (_ & _ & -> & _).
    unfold w'. apply fields_tornDown. }
  assert (Hfirst : shutdown getResourceType w
            = (Ok tt, match onStatusChangedEvent w with
                      | Some _ =>
                          set_effects
                            (effects (swappedOut w'') ++ [StatusChangedEmitterDispose])
                            (set_onStatusChangedEvent (Some {| emitterDisposed := true |})
                               (set_restartSessionPromise None (swappedOut w'')))
                      | None => set_restartSessionPromise None (swappedOut w'')
                      end)).
  { unfold shutdown. run. rewrite Hr. unfold try_catch. run.
    rewrite shutdownSession_run. fold w'.
    destruct (fields_tornDown (Some r) (Some statusHandler) (Some false) w)
      as (Hs' & Hp' & He' & _). fold w' in Hs', Hp', He'.
    rewrite Hp'. clear Hp'. revert Hp. 
    generalize dependent (restartSessionPromise w). intros p w'' He'' Hp.
    destruct p as [[q|e|]|]; [| | congruence |]; run.
    - rewrite shutdownSession_run.
      change (tornDown getResourceType q None (Some true) w') with w''. rewrite setSession_None_run. run. fields.
      rewrite onStatusChangedEvent_swappedOut, He''. destruct (onStatusChangedEvent w); reflexivity.
    - change (tornDown getResourceType None None (Some true) w') with w' in w''. subst w''.
      rewrite setSession_None_run. run. fields.
      rewrite onStatusChangedEvent_swappedOut, He'.
      destruct (onStatusChangedEvent w); reflexivity.
    - change (tornDown getResourceType None None (Some true) w') with w' in w''. subst w''.
      rewrite setSession_None_run. run. fields.
      rewrite onStatusChangedEvent_swappedOut, He'.
      destruct (onStatusChangedEvent w); reflexivity. }
  assert (Heff : effects (swappedOut w'')
            = effects w ++ teardownEffects getResourceType (Some r) (Some false) w
              ++ teardownEffects getResourceType (awaitedStandby (restartSessionPromise w)) (Some true) w'
              ++ [SetSession None]).
  { unfold swappedOut. fields. unfold w''. rewrite effects_tornDown.
    unfold w' at 1. rewrite effects_tornDown. rewrite <- !(assoc_L (++)). reflexivity. }
  rewrite Hfirst. unfold emitterLog.
  destruct (onStatusChangedEvent w) eqn:He.
  - eexists _, _. split; [reflexivity|]. rewrite Hsecond by reflexivity.
    fields. split; [reflexivity|]. cbn [defined]. repeat split; try done.
    intros r0 [= <-]. rewrite Heff, <- !(assoc_L (++)). reflexivity.
  - eexists _, _. split; [reflexivity|]. rewrite Hsecond by reflexivity.
    fields. rewrite onStatusChangedEvent_swappedOut, He''.
    split; [reflexivity|]. cbn [defined]. rewrite !app_nil_r. repeat split; try done.
    intros r0 [= <-]. rewrite Heff. reflexivity.
Qed.

(** C7, as amended.  [changeKernel] returns without doing anything but
    storing the resource when there is an active session, the stored and the
    requested metadata both carry a kernel spec, and their ids are equal:
    it records no effect (no session is created, none is shut down or
    disposed), leaves no continuation, and keeps the heap, the active
    session, the stored metadata and the standby promise. *)
Theorem changeKernel_same_kernel_is_noop (w : World) (resource' : Resource)
    (kernelConnection m : KernelConnectionMetadata.t) (timeoutMS : Z) :
  defined (_session w) = true →
  kernelConnectionMetadata w = Some m →
  kernelConnectionMetadataHasKernelSpec m = true →
  defined (KernelConnectionMetadata.kernelSpec m) = true →
  kernelConnectionMetadataHasKernelSpec kernelConnection = true →
  defined (KernelConnectionMetadata.kernelSpec kernelConnection) = true →
  KernelConnectionMetadata.id m = KernelConnectionMetadata.id kernelConnection →
  ∃ w', changeKernel getResourceType kernelConnectionMetadataHasKernelSpec
          createNewKernelSession resource' kernelConnection timeoutMS w = (Ok tt, w')
      ∧ effects w' = effects w
      ∧ pending w' = pending w
      ∧ heap w' = heap w
      ∧ _session w' = _session w
      ∧ kernelConnectionMetadata w' = kernelConnectionMetadata w
      ∧ restartSessionPromise w' = restartSessionPromise w.
Proof.
  intros Hs Hm Hk1 Hd1 Hk2 Hd2 Hid.
  unfold changeKernel. run. rewrite Hm, Hk1, Hk2, Hs, Hd1, Hd2, Hid.
  rewrite String.eqb_refl. cbn [andb].
  eexists. split; [reflexivity|]. fields. rewrite ?Hm. repeat split.
Qed.

Lemma restart_not_remote w timeout :
  remoteAttached w = false →
  restart getResourceType sessionDisposed startRestartSession timeout w
  = restartFromStandby getResourceType sessionDisposed startRestartSession timeout w.
Proof.
  unfold remoteAttached, restart. run. intros H.
  destruct (_session w) as [r|]; [|reflexivity]. cbn in *.
  destruct (heap w !! r) as [s|]; [|reflexivity]. cbn in *. rewrite H. reflexivity.
Qed.

Lemma kernelOf_run w r s k :
  heap w !! r = Some s → ISession.kernel s = Some k → kernelOf r w = (Ok k, w).
Proof. intros Hs Hk. unfold kernelOf. run. rewrite Hs. cbn. rewrite Hk. reflexivity. Qed.

Lemma setSession_Some_run w n sn kn :
  _session w ≠ Some n → heap w !! n = Some sn → ISession.kernel sn = Some kn →
  setSession (Some n) w = (Ok tt, swappedIn n sn kn w).
Proof.
  intros Hne Hsn Hkn. unfold setSession, swappedIn. run.
  rewrite decide_False by exact Hne.
  assert (Hl : alter (λ s, ISession.set_iopubMessage
                         (connect ioPubHandler (ISession.iopubMessage s)) s) n
             match _session w with
             | Some o => alter (λ s, ISession.set_iopubMessage
                                       (disconnect ioPubHandler (ISession.iopubMessage s)) s)
                               o (heap w)
             | None => heap w
             end !! n
           = Some (ISession.set_iopubMessage
                     (connect ioPubHandler (ISession.iopubMessage sn)) sn)).
  { rewrite lookup_alter_eq. destruct (_session w) as [o|].
    - rewrite lookup_alter_ne, Hsn by congruence. reflexivity.
    - rewrite Hsn. reflexivity. }
  destruct (_session w) as [o|]; run; fields; rewrite Hl;
    cbn [mbind option_bind ISession.kernelSocketInformation ISession.set_iopubMessage];
    destruct (ISession.kernelSocketInformation sn) as [info|];
    cbn [fmap option_fmap option_map];
    (erewrite kernelOf_run; [| fields; exact Hl | exact Hkn]);
    fields; rewrite <- !(assoc_L (++)); reflexivity.
Qed.

Lemma restart_swap (w : World) (timeout : Z) o so ko n sn kn :
  _session w = Some o → heap w !! o = Some so → ISession.kernel so = Some ko →
  ISession.isRemoteSession so ≠ Some true →
  restartSessionPromise w = Some (resolved (Some n)) →
  n ≠ o → heap w !! n = Some sn → ISession.kernel sn = Some kn →
  ∃ w', restart getResourceType sessionDisposed startRestartSession timeout w = (Ok tt, w')
      ∧ _session w' = Some n
      ∧ restartSessionPromise w' = None
      ∧ effects w'
        = effects w
          ++ [SetSession (Some n);
              KernelSocketNext (fmap (pair kn) (ISession.kernelSocketInformation sn));
              RestartSessionUsed (Some kn)]
          ++ beginLog getResourceType o so (Some false)
      ∧ pending w'
        = pending w ++ match inflight getResourceType o so (Some false) with
                       | Some i => [ResumeShutdownSession i]
                       | None => []
                       end
      ∧ (∃ so', heap w' !! o = Some so'
                ∧ (statusHandler ∉ ISession.statusChanged so')
                ∧ (ioPubHandler ∉ ISession.iopubMessage so'))
      ∧ (∃ sn', heap w' !! n = Some sn'
                ∧ statusHandler ∈ ISession.statusChanged sn'
                ∧ ioPubHandler ∈ ISession.iopubMessage sn'
                ∧ ISession.isDisposed sn' = ISession.isDisposed sn).
Proof.
  intros Ho Hso Hko Hrem Hp Hne Hsn Hkn.
  rewrite restart_not_remote.
  2:{ unfold remoteAttached. rewrite Ho. cbn. rewrite Hso.
      destruct (ISession.isRemoteSession so) as [[]|]; [congruence|reflexivity..]. }
  unfold restartFromStandby. run. rewrite Hp. run. rewrite Hp, Ho.
  rewrite (kernelOf_run w o so ko Hso Hko). run.
  rewrite (setSession_Some_run w n sn kn) by (congruence || assumption).
  unfold swappedIn at 1 2. fields. rewrite Ho.
  set (h1 := alter _ n (alter _ o (heap w))).
  assert (Hn1 : h1 !! n = Some (ISession.set_iopubMessage
                                  (connect ioPubHandler (ISession.iopubMessage sn)) sn)).
  { unfold h1. rewrite lookup_alter_eq, lookup_alter_ne, Hsn by done. reflexivity. }
  assert (Ho1 : h1 !! o = Some (ISession.set_iopubMessage
                                  (disconnect ioPubHandler (ISession.iopubMessage so)) so)).
  { unfold h1. rewrite lookup_alter_ne, lookup_alter_eq, Hso by done. reflexivity. }
  rewrite Hn1. cbn [mbind option_bind ISession.kernel ISession.set_iopubMessage].
  rewrite Hkn.
  erewrite kernelOf_run; [| unfold swappedIn; fields; rewrite Ho; exact Hn1 | exact Hkn].
  rewrite shutdownSession_ignoreErrors_run. unfold begun, swappedIn. fields.
  rewrite Ho. fold h1.
  rewrite lookup_alter_eq, lookup_alter_ne, Ho1 by done.
  cbn [fmap option_fmap option_map ISession.kernel ISession.set_statusChanged
         ISession.set_iopubMessage]. rewrite Hko. cbn [defined unhook].
  eexists; split; [reflexivity|]; fields.
  split; [reflexivity|]. split; [reflexivity|].
  split; [rewrite <- !(assoc_L (++)); reflexivity|].
  split; [reflexivity|]. split.
  - eexists. split; [apply lookup_insert_eq|].
    cbn [ISession.statusChanged ISession.iopubMessage ISession.set_isDisposed
         ISession.set_statusChanged ISession.set_iopubMessage].
    unfold disconnect. split; intros [? _]%list_elem_of_filter; congruence.
  - eexists. split.
    { rewrite lookup_insert_ne, lookup_alter_ne, lookup_alter_eq, Hn1 by done.
      reflexivity. }
    cbn [ISession.statusChanged ISession.iopubMessage ISession.isDisposed
         ISession.set_statusChanged ISession.set_iopubMessage].
    unfold connect. split; [|split; [|reflexivity]];
      case_decide; try done; apply elem_of_app; right; apply list_elem_of_singleton;
      reflexivity.
Qed.

Lemma restart_remote (w : World) (timeout : Z) o so ko :
  _session w = Some o → heap w !! o = Some so → ISession.kernel so = Some ko →
  ISession.isRemoteSession so = Some true →
  restart getResourceType sessionDisposed startRestartSession timeout w
  = awaitReply (ISession.restartReply so) (set_effects (effects w ++ [KernelRestart o]) w).
Proof.
  intros Ho Hso Hko Hrem. unfold restart. run. rewrite Ho.
  cbn [deref mbind option_bind]. rewrite Hso, Hrem.
  cbn [truthy]. rewrite (kernelOf_run w o so ko Hso Hko). reflexivity.
Qed.

Lemma restart_no_standby (w w1 : World) (timeout : Z) :
  remoteAttached w = false →
  restartSessionPromise w = None →
  startRestartSession timeout (set_effects (effects w ++ [StartRestartSession timeout]) w)
  = (Ok tt, w1) →
  restartSessionPromise w1 = None →
  restart getResourceType sessionDisposed startRestartSession timeout w
  = (Throw (Error sessionDisposed), w1).
Proof.
  intros Hrem Hp Hstart Hp1. rewrite restart_not_remote by exact Hrem.
  unfold restartFromStandby. run. rewrite Hp. run. rewrite Hstart, Hp1. reflexivity.
Qed.

Lemma restart_standby_undefined (w : World) (timeout : Z) :
  remoteAttached w = false →
  traceable w →
  restartSessionPromise w = Some (resolved None) →
  restart getResourceType sessionDisposed startRestartSession timeout w
  = (Throw (Error sessionDisposed), swappedOut w).
Proof.
  intros Hrem Htr Hp. rewrite restart_not_remote by exact Hrem.
  unfold restartFromStandby. run. rewrite Hp. run. rewrite Hp.
  destruct (_session w) as [o|] eqn:Ho.
  - destruct (Htr o Ho) as [k Hk].
    destruct (heap w !! o) as [so|] eqn:Hso; [|discriminate].
    rewrite (kernelOf_run w o so k Hso Hk). run. rewrite setSession_None_run.
    reflexivity.
  - run. rewrite setSession_None_run. reflexivity.
Qed.

(** C6, as amended.  [restart] on an active session flagged as remote asks
    that session's kernel to restart and does nothing else: no swap.
    Otherwise, with a standby that resolved to a session, the standby becomes
    the active session, the restart-session-used listener gets its kernel,
    the status handler is connected to it and disconnected from the old
    session, the old session's shutdown is started and not awaited (its
    continuation is left pending), and the standby promise is cleared:
    [restart] itself starts no next standby, the next call does when it
    finds none.  A standby that resolved to [undefined], or none at all after
    [startRestartSession], ends in the session-disposed error. *)
Theorem restart_delegates_or_swaps (w : World) (timeout : Z) :
  (∀ o so ko,
     _session w = Some o → heap w !! o = Some so → ISession.kernel so = Some ko →
     ISession.isRemoteSession so = Some true →
     restart getResourceType sessionDisposed startRestartSession timeout w
     = awaitReply (ISession.restartReply so)
         (set_effects (effects w ++ [KernelRestart o]) w))
  ∧ (∀ o so ko n sn kn,
       _session w = Some o → heap w !! o = Some so → ISession.kernel so = Some ko →
       ISession.isRemoteSession so ≠ Some true →
       restartSessionPromise w = Some (resolved (Some n)) →
       n ≠ o → heap w !! n = Some sn → ISession.kernel sn = Some kn →
       ∃ w', restart getResourceType sessionDisposed startRestartSession timeout w
             = (Ok tt, w')
           ∧ _session w' = Some n
           ∧ restartSessionPromise w' = None
           ∧ effects w'
             = effects w
               ++ [SetSession (Some n);
                   KernelSocketNext (fmap (pair kn) (ISession.kernelSocketInformation sn));
                   RestartSessionUsed (Some kn)]
               ++ beginLog getResourceType o so (Some false)
           ∧ pending w'
             = pending w ++ match inflight getResourceType o so (Some false) with
                            | Some i => [ResumeShutdownSession i]
                            | None => []
                            end
           ∧ (∃ so', heap w' !! o = Some so'
                     ∧ (statusHandler ∉ ISession.statusChanged so')
                     ∧ (ioPubHandler ∉ ISession.iopubMessage so'))
           ∧ (∃ sn', heap w' !! n = Some sn'
                     ∧ statusHandler ∈ ISession.statusChanged sn'
                     ∧ ioPubHandler ∈ ISession.iopubMessage sn'
                     ∧ ISession.isDisposed sn' = ISession.isDisposed sn))
  ∧ (remoteAttached w = false → traceable w →
     restartSessionPromise w = Some (resolved None) →
     restart getResourceType sessionDisposed startRestartSession timeout w
     = (Throw (Error sessionDisposed), swappedOut w))
  ∧ (∀ w1, remoteAttached w = false →
       restartSessionPromise w = None →
       startRestartSession timeout
         (set_effects (effects w ++ [StartRestartSession timeout]) w) = (Ok tt, w1) →
       restartSessionPromise w1 = None →
       restart getResourceType sessionDisposed startRestartSession timeout w
       = (Throw (Error sessionDisposed), w1)).
Proof.
  split; [|split; [|split]].
  - intros. eapply restart_remote; eassumption.
  - intros. eapply restart_swap; eassumption.
  - apply restart_standby_undefined.
  - intros. apply restart_no_standby; assumption.
Qed.

(** *** Waiting for idle *)

Lemma elem_of_connect slot slots : slot ∈ connect slot slots.
Proof.
  unfold connect. case_decide; [assumption|].
  apply elem_of_app. right. apply list_elem_of_singleton. reflexivity.
Qed.

Lemma elem_of_connect_other slot other slots :
  other ∈ slots → other ∈ connect slot slots.
Proof.
  unfold connect. case_decide; [done|]. intros. apply elem_of_app. by left.
Qed.

Lemma not_elem_of_disconnect slot slots : slot ∉ disconnect slot slots.
Proof. unfold disconnect. intros [? _]%list_elem_of_filter. congruence. Qed.

Lemma not_elem_of_disconnect_other slot other slots :
  other ∉ slots → other ∉ disconnect slot slots.
Proof. unfold disconnect. intros H [_ ?]%list_elem_of_filter. contradiction. Qed.

Lemma quietStatus_handler r isRestart e w :
  quietStatus e = true →
  waitStatusHandler getResourceType r isRestart (Some e) w = (Ok None, w).
Proof. destruct e; try discriminate; reflexivity. Qed.

Lemma set_kernel_set_kernel k k' s :
  ISession.set_kernel k' (ISession.set_kernel k s) = ISession.set_kernel k' s.
Proof. reflexivity. Qed.

Lemma race_quiet r call isRestart timeout quietEvents :
  ∀ rest w s k,
    heap w !! r = Some s → ISession.kernel s = Some k →
    Kernel.status k ≠ Kernel.idle →
    statusChangeHandler call ∈ ISession.statusChanged s →
    kernelChangedHandler call ∈ ISession.kernelChanged s →
    forallb (quiet timeout) quietEvents = true →
    ∃ k', Kernel.status k' ≠ Kernel.idle
        ∧ race getResourceType r call isRestart timeout (quietEvents ++ rest) w
          = race getResourceType r call isRestart timeout rest
              (set_heap (<[r := ISession.set_kernel (Some k') s]> (heap w)) w).
Proof.
  induction quietEvents as [|ev evs IH]; intros rest w s k Hs Hk Hidle Hsc Hkc Hq.
  - exists k. split; [exact Hidle|]. cbn [app].
    rewrite <- Hk. replace (ISession.set_kernel (ISession.kernel s) s) with s
      by (destruct s; reflexivity).
    rewrite insert_id by exact Hs. destruct w; reflexivity.
  - cbn [forallb] in Hq. apply andb_true_iff in Hq as [Hq1 Hq].
    assert (Hstep : ∃ k1, Kernel.status k1 ≠ Kernel.idle
              ∧ race getResourceType r call isRestart timeout ((ev :: evs) ++ rest) w
                = race getResourceType r call isRestart timeout (evs ++ rest)
                    (set_heap (<[r := ISession.set_kernel (Some k1) s]> (heap w)) w)).
    { assert (Hal : ∀ f : ISession.t → ISession.t,
                alter f r (heap w) = <[r := f s]> (heap w)).
      { intros f. apply map_eq; intros i. destruct (decide (r = i)) as [->|Hne].
        - rewrite lookup_alter_eq, lookup_insert_eq, Hs. reflexivity.
        - rewrite lookup_alter_ne, lookup_insert_ne by done. reflexivity. }
      cbn [app race]. destruct ev as [e | [k1|] | now]; cbn [quiet] in Hq1.
      - exists (Kernel.mk (Kernel.id k) (Kernel.name k) e (Kernel.own k)). split.
        { cbn. destruct e; try discriminate; congruence. }
        run. fields. rewrite Hal, lookup_insert_eq.
        cbn [fmap option_fmap option_map default from_option id setStatus
             ISession.statusChanged ISession.set_kernel].
        rewrite decide_True by exact Hsc.
        rewrite quietStatus_handler by exact Hq1.
        unfold setStatus. rewrite Hk. reflexivity.
      - exists k1. split.
        { destruct (Kernel.status k1); try discriminate; congruence. }
        run. fields. rewrite Hal, lookup_insert_eq.
        cbn [fmap option_fmap option_map default from_option id
             ISession.kernelChanged ISession.set_kernel].
        rewrite decide_True by exact Hkc.
        rewrite quietStatus_handler by exact Hq1. reflexivity.
      - exists k. split; [exact Hidle|].
        run. rewrite Hs.
        cbn [fmap option_fmap option_map default from_option id
             ISession.kernelChanged].
        rewrite decide_True by exact Hkc.
        rewrite <- Hk. replace (ISession.set_kernel (ISession.kernel s) s) with s
          by (destruct s; reflexivity).
        rewrite insert_id by exact Hs. destruct w; reflexivity.
      - exists k. split; [exact Hidle|].
        run. rewrite Hs. cbn [mbind option_bind]. rewrite Hk.
        rewrite bool_decide_eq_false_2 by exact Hidle. rewrite Hq1. cbn [negb andb].
        rewrite <- Hk. replace (ISession.set_kernel (ISession.kernel s) s) with s
          by (destruct s; reflexivity).
        rewrite insert_id by exact Hs. destruct w; reflexivity. }
    destruct Hstep as (k1 & Hidle1 & ->).
    edestruct (IH rest (set_heap (<[r := ISession.set_kernel (Some k1) s]> (heap w)) w)
                 (ISession.set_kernel (Some k1) s) k1) as (k' & Hidle' & ->);
      try assumption; try reflexivity.
    { fields. apply lookup_insert_eq. }
    exists k'. split; [exact Hidle'|]. fields.
    rewrite insert_insert_eq, set_kernel_set_kernel. reflexivity.
Qed.

Lemma alter_alter_insert (h : gmap nat ISession.t) r s (f g : ISession.t → ISession.t) :
  h !! r = Some s → alter g r (alter f r h) = <[r := g (f s)]> h.
Proof.
  intros Hs. apply map_eq; intros i. destruct (decide (r = i)) as [->|Hne].
  - rewrite !lookup_alter_eq, lookup_insert_eq, Hs. reflexivity.
  - rewrite !lookup_alter_ne, lookup_insert_ne by done. reflexivity.
Qed.

Lemma waitForIdleOnSession_eq w r s k timeout isRestart events :
  heap w !! r = Some s → ISession.kernel s = Some k →
  waitForIdleOnSession getResourceType jupyterLaunchTimedOut DefaultCommTarget
    (Some r) timeout isRestart events w
  = bind (if negb (bool_decide (Kernel.status k = Kernel.idle)) && (0 <? timeout)%Z
          then race getResourceType r (closures w) isRestart timeout events
          else ret (Some Resolved))
         (afterRace getResourceType jupyterLaunchTimedOut DefaultCommTarget r (closures w) isRestart) (registered r s w).
Proof.
  intros Hs Hk. unfold waitForIdleOnSession, registered, listening.
  cbn [bind get]. cbn [deref mbind option_bind]. rewrite Hs. cbn [mbind option_bind].
  rewrite Hk. cbn [bind modify update ret fst snd set_closures heap set_heap].
  rewrite (alter_alter_insert _ _ _ _ _ Hs). reflexivity.
Qed.

Lemma afterRace_not_idle w1 r s1 k1 call isRestart :
  heap w1 !! r = Some s1 → ISession.kernel s1 = Some k1 →
  Kernel.status k1 ≠ Kernel.idle →
  afterRace getResourceType jupyterLaunchTimedOut DefaultCommTarget r call isRestart (Some Resolved) w1
  = (Throw (JupyterWaitForIdleError jupyterLaunchTimedOut),
     begun getResourceType (Some r) (Some statusHandler) isRestart
       (set_heap (<[r := unlistening call s1]> (heap w1)) w1)).
Proof.
  intros Hs Hk Hidle. unfold afterRace.
  unfold bind at 1. rewrite (kernelOf_run w1 r s1 k1 Hs Hk).
  unfold bind, update, modify, get. fields.
  rewrite (alter_alter_insert _ _ _ _ _ Hs), lookup_insert_eq.
  cbn [mbind option_bind ISession.kernel ISession.set_kernelChanged
       ISession.set_statusChanged]. rewrite Hk. cbn [fmap option_fmap option_map].
  rewrite bool_decide_eq_false_2 by congruence.
  rewrite shutdownSession_ignoreErrors_run. reflexivity.
Qed.

Lemma afterRace_idle w1 r s1 k1 call isRestart :
  heap w1 !! r = Some s1 → ISession.kernel s1 = Some k1 →
  Kernel.status k1 = Kernel.idle →
  afterRace getResourceType jupyterLaunchTimedOut DefaultCommTarget r call isRestart (Some Resolved) w1
  = (Ok tt,
     set_effects (effects w1 ++ [KernelRegisterCommTarget r DefaultCommTarget])
       (set_heap (<[r := unlistening call s1]> (heap w1)) w1)).
Proof.
  intros Hs Hk Hidle. unfold afterRace.
  unfold bind at 1. rewrite (kernelOf_run w1 r s1 k1 Hs Hk).
  unfold bind, update, modify, get. fields.
  rewrite (alter_alter_insert _ _ _ _ _ Hs), lookup_insert_eq.
  cbn [mbind option_bind ISession.kernel ISession.set_kernelChanged
       ISession.set_statusChanged]. rewrite Hk. cbn [fmap option_fmap option_map].
  rewrite bool_decide_eq_true_2 by congruence. reflexivity.
Qed.

Lemma registered_waited r s k w :
  ISession.kernel s = Some k → registered r s w = waited r s k w.
Proof.
  intros Hk. unfold registered, waited. do 3 f_equal.
  destruct s; cbn in *; subst; reflexivity.
Qed.

Lemma timeout_tail w r s k' isRestart :
  Kernel.status k' ≠ Kernel.idle →
  ∃ w' s',
    afterRace getResourceType jupyterLaunchTimedOut DefaultCommTarget r (closures w) isRestart (Some Resolved) (waited r s k' w)
    = (Throw (JupyterWaitForIdleError jupyterLaunchTimedOut), w')
    ∧ effects w' = effects w ++ beginLog getResourceType r s isRestart
    ∧ pending w' = pending w ++ match inflight getResourceType r s isRestart with
                                | Some i => [ResumeShutdownSession i]
                                | None => []
                                end
    ∧ _session w' = _session w
    ∧ heap w' !! r = Some s'
    ∧ ISession.kernel s' = Some k'
    ∧ (statusChangeHandler (closures w) ∉ ISession.statusChanged s')
    ∧ (kernelChangedHandler (closures w) ∉ ISession.kernelChanged s')
    ∧ (statusHandler ∉ ISession.statusChanged s')
    ∧ (canShutdownSession getResourceType s isRestart = false →
       ISession.isDisposed s' = true).
Proof.
  intros Hidle.
  erewrite afterRace_not_idle;
    [| unfold waited; fields; apply lookup_insert_eq | reflexivity | exact Hidle].
  unfold begun, waited. fields. rewrite insert_insert_eq, lookup_insert_eq.
  cbn [ISession.kernel unlistening listening ISession.set_kernel
       ISession.set_kernelChanged ISession.set_statusChanged defined].
  eexists _, _. split; [reflexivity|]. fields.
  rewrite insert_insert_eq, lookup_insert_eq.
  split; [reflexivity|]. split; [reflexivity|]. split; [reflexivity|].
  split; [reflexivity|].
  cbn [unhook ISession.kernel ISession.statusChanged ISession.kernelChanged
       ISession.isDisposed ISession.set_isDisposed ISession.set_statusChanged
       ISession.set_kernelChanged ISession.set_kernel].
  split; [reflexivity|].
  split; [apply not_elem_of_disconnect_other, not_elem_of_disconnect|].
  split; [apply not_elem_of_disconnect|].
  split; [apply not_elem_of_disconnect|].
  intros Hc.
  change (canShutdownSession getResourceType s isRestart = false) in Hc.
  match goal with |- (_ || negb ?c)%bool = true => replace c with false end.
  apply orb_true_r.
Qed.

Lemma set_heap_set_heap a b w : set_heap a (set_heap b w) = set_heap a w.
Proof. reflexivity. Qed.

(** C4.  A call of [waitForIdleOnSession] on a handle with a kernel that is
    not idle, whose wait times out (a non-positive timeout, or a wake-up of
    the polling loop at or past the timeout before any signal reported idle
    or dead), starts the shutdown of the session without awaiting it and
    throws [JupyterWaitForIdleError]: what [shutdownSession] does before its
    first suspension is recorded, its continuation is pending when a request
    went to the backend, and the listeners of the call and the status
    handler are disconnected. *)
Theorem waitForIdle_times_out (w : World) (r : SessionRef) (s : ISession.t)
    (k : Kernel.t) (timeout : Z) (isRestart : option bool) (events : list WaitEvent) :
  heap w !! r = Some s → ISession.kernel s = Some k →
  Kernel.status k ≠ Kernel.idle →
  timesOut timeout events →
  ∃ w' s' k',
    waitForIdleOnSession getResourceType jupyterLaunchTimedOut DefaultCommTarget
      (Some r) timeout isRestart events w
    = (Throw (JupyterWaitForIdleError jupyterLaunchTimedOut), w')
    ∧ effects w' = effects w ++ beginLog getResourceType r s isRestart
    ∧ pending w' = pending w ++ match inflight getResourceType r s isRestart with
                                | Some i => [ResumeShutdownSession i]
                                | None => []
                                end
    ∧ _session w' = _session w
    ∧ heap w' !! r = Some s'
    ∧ ISession.kernel s' = Some k'
    ∧ Kernel.status k' ≠ Kernel.idle
    ∧ (statusChangeHandler (closures w) ∉ ISession.statusChanged s')
    ∧ (kernelChangedHandler (closures w) ∉ ISession.kernelChanged s')
    ∧ (statusHandler ∉ ISession.statusChanged s')
    ∧ (canShutdownSession getResourceType s isRestart = false →
       ISession.isDisposed s' = true).
Proof.
  intros Hs Hk Hidle Hto.
  rewrite (waitForIdleOnSession_eq w r s k) by assumption.
  rewrite bool_decide_eq_false_2 by exact Hidle. cbn [negb andb].
  assert (Himm : ∃ w' s' k',
            afterRace getResourceType jupyterLaunchTimedOut DefaultCommTarget r (closures w) isRestart (Some Resolved) (registered r s w)
            = (Throw (JupyterWaitForIdleError jupyterLaunchTimedOut), w')
            ∧ effects w' = effects w ++ beginLog getResourceType r s isRestart
            ∧ pending w' = pending w ++ match inflight getResourceType r s isRestart with
                                        | Some i => [ResumeShutdownSession i]
                                        | None => []
                                        end
            ∧ _session w' = _session w
            ∧ heap w' !! r = Some s'
            ∧ ISession.kernel s' = Some k'
            ∧ Kernel.status k' ≠ Kernel.idle
            ∧ (statusChangeHandler (closures w) ∉ ISession.statusChanged s')
            ∧ (kernelChangedHandler (closures w) ∉ ISession.kernelChanged s')
            ∧ (statusHandler ∉ ISession.statusChanged s')
            ∧ (canShutdownSession getResourceType s isRestart = false →
               ISession.isDisposed s' = true)).
  { rewrite (registered_waited r s k w Hk).
    destruct (timeout_tail w r s k isRestart Hidle)
      as (w' & s' & H1 & H2 & H3 & H4 & H5 & H6 & H7 & H8 & H9 & H10).
    exists w', s', k. repeat split; assumption. }
  destruct (0 <? timeout)%Z eqn:Hpos.
  2:{ unfold bind, ret. exact Himm. }
  destruct Hto as [Hle | (quietEvents & now & rest & -> & Hq & Hnow)].
  { apply Z.ltb_lt in Hpos.
    destruct (Z.lt_irrefl 0 (Z.lt_le_trans _ _ _ Hpos Hle)). }
  unfold bind.
  edestruct (race_quiet r (closures w) isRestart timeout quietEvents
               (SleepOver now :: rest) (registered r s w) (listening (closures w) s) k)
    as (k' & Hidle' & ->); try assumption.
  { unfold registered. fields. apply lookup_insert_eq. }
  { apply elem_of_connect. }
  { apply elem_of_connect. }
  unfold registered. fields. rewrite insert_insert_eq, set_heap_set_heap.
  fold (waited r s k' w).
  cbn [race]. unfold bind, get.
  assert (Hl : heap (waited r s k' w) !! r
               = Some (ISession.set_kernel (Some k') (listening (closures w) s))).
  { unfold waited. fields. apply lookup_insert_eq. }
  rewrite Hl. cbn [mbind option_bind ISession.kernel ISession.set_kernel].
  rewrite bool_decide_eq_false_2 by exact Hidle'.
  replace (now <? timeout)%Z with false by (symmetry; apply Z.ltb_ge; exact Hnow).
  cbn [negb andb ret].
  destruct (timeout_tail w r s k' isRestart Hidle')
    as (w' & s' & H1 & H2 & H3 & H4 & H5 & H6 & H7 & H8 & H9 & H10).
  exists w', s', k'. repeat split; assumption.
Qed.

Lemma dead_signal_step w r s k' isRestart timeout ev rest :
  reportsDead ev = true →
  ∃ w' s' kd,
    race getResourceType r (closures w) isRestart timeout (ev :: rest) (waited r s k' w)
    = (Ok (Some (Rejected (invalidKernel kd))), w')
    ∧ Kernel.status kd = Kernel.dead
    ∧ effects w' = effects w ++ beginLog getResourceType r s isRestart
    ∧ pending w' = pending w ++ match inflight getResourceType r s isRestart with
                                | Some i => [ResumeShutdownSession i]
                                | None => []
                                end
    ∧ _session w' = _session w
    ∧ heap w' !! r = Some s'
    ∧ ISession.kernel s' = Some kd
    ∧ (statusHandler ∉ ISession.statusChanged s')
    ∧ statusChangeHandler (closures w) ∈ ISession.statusChanged s'
    ∧ kernelChangedHandler (closures w) ∈ ISession.kernelChanged s'.
Proof.
  intros Hdead.
  assert (Hl : heap (waited r s k' w) !! r
               = Some (ISession.set_kernel (Some k') (listening (closures w) s))).
  { unfold waited. fields. apply lookup_insert_eq. }
  assert (Hal : ∀ f : ISession.t → ISession.t,
            alter f r (heap (waited r s k' w))
            = <[r := f (ISession.set_kernel (Some k') (listening (closures w) s))]> (heap w)).
  { intros f. unfold waited. fields. apply map_eq; intros i.
    destruct (decide (r = i)) as [->|Hne].
    - rewrite lookup_alter_eq, !lookup_insert_eq. reflexivity.
    - rewrite lookup_alter_ne, !lookup_insert_ne by done. reflexivity. }
  cbn [race]. destruct ev as [e | [kd|] | now]; cbn [reportsDead] in Hdead;
    try discriminate; apply bool_decide_eq_true_1 in Hdead.
  - subst e. unfold bind, update, modify, get. fields.
    rewrite Hal. cbn beta. fields. rewrite lookup_insert_eq.
    cbn [fmap option_fmap option_map default from_option id setStatus
         ISession.statusChanged ISession.set_kernel ISession.kernel listening
         ISession.set_kernelChanged ISession.set_statusChanged].
    rewrite decide_True by apply elem_of_connect.
    cbn [waitStatusHandler]. unfold bind.
    rewrite shutdownSession_ignoreErrors_run. unfold begun, waited. fields.
    rewrite lookup_insert_eq. unfold setStatus.
    cbn [ISession.kernel ISession.set_kernel listening ISession.set_kernelChanged
         ISession.set_statusChanged fmap option_fmap option_map defined].
    unfold bind, get, ret. fields. rewrite insert_insert_eq, lookup_insert_eq.
    cbn [mbind option_bind ISession.kernel ISession.set_isDisposed unhook
         ISession.set_statusChanged].
    eexists _, _, (Kernel.mk (Kernel.id k') (Kernel.name k') Kernel.dead (Kernel.own k')).
    split; [reflexivity|]. fields. rewrite lookup_insert_eq.
    repeat split.
    + cbn. apply not_elem_of_disconnect.
    + cbn. unfold disconnect. apply list_elem_of_filter. split; [done|].
      apply elem_of_connect.
    + cbn. apply elem_of_connect.
  - unfold bind, update, modify, get. fields.
    rewrite Hal. cbn beta. fields. rewrite lookup_insert_eq.
    cbn [fmap option_fmap option_map default from_option id
         ISession.kernelChanged ISession.set_kernel ISession.kernel listening
         ISession.set_kernelChanged ISession.set_statusChanged].
    rewrite decide_True by apply elem_of_connect.
    rewrite Hdead. cbn [waitStatusHandler]. unfold bind.
    rewrite shutdownSession_ignoreErrors_run. unfold begun, waited. fields.
    rewrite lookup_insert_eq. unfold setStatus.
    cbn [ISession.kernel ISession.set_kernel listening ISession.set_kernelChanged
         ISession.set_statusChanged fmap option_fmap option_map defined].
    unfold bind, get, ret. fields. rewrite insert_insert_eq, lookup_insert_eq.
    cbn [mbind option_bind ISession.kernel ISession.set_isDisposed unhook
         ISession.set_statusChanged].
    eexists _, _, kd.
    split; [reflexivity|]. fields. rewrite lookup_insert_eq.
    repeat split.
    + exact Hdead.
    + cbn. apply not_elem_of_disconnect.
    + cbn. unfold disconnect. apply list_elem_of_filter. split; [done|].
      apply elem_of_connect.
    + cbn. apply elem_of_connect.
Qed.


(** In the same situation the two listeners of the call are still connected
    when it rejects: the disconnects after the race are not reached. *)
Lemma waitForIdle_dead_signal_listeners (w : World) (r : SessionRef) (s : ISession.t)
    (k : Kernel.t) (timeout : Z) (isRestart : option bool)
    (quietEvents : list WaitEvent) (ev : WaitEvent) (rest : list WaitEvent) :
  heap w !! r = Some s → ISession.kernel s = Some k →
  Kernel.status k ≠ Kernel.idle →
  (0 < timeout)%Z →
  forallb (quiet timeout) quietEvents = true →
  reportsDead ev = true →
  ∃ w' s' e,
    waitForIdleOnSession getResourceType jupyterLaunchTimedOut DefaultCommTarget
      (Some r) timeout isRestart (quietEvents ++ ev :: rest) w
    = (Throw e, w')
    ∧ heap w' !! r = Some s'
    ∧ statusChangeHandler (closures w) ∈ ISession.statusChanged s'
    ∧ kernelChangedHandler (closures w) ∈ ISession.kernelChanged s'.
Proof.
  intros Hs Hk Hidle Hpos Hq Hdead.
  rewrite (waitForIdleOnSession_eq w r s k) by assumption.
  rewrite bool_decide_eq_false_2 by exact Hidle.
  replace (0 <? timeout)%Z with true by (symmetry; apply Z.ltb_lt; exact Hpos).
  cbn [negb andb]. unfold bind.
  edestruct (race_quiet r (closures w) isRestart timeout quietEvents
               (ev :: rest) (registered r s w) (listening (closures w) s) k)
    as (k' & Hidle' & ->); try assumption.
  { unfold registered. fields. apply lookup_insert_eq. }
  { apply elem_of_connect. }
  { apply elem_of_connect. }
  unfold registered. fields. rewrite insert_insert_eq, set_heap_set_heap.
  fold (waited r s k' w).
  destruct (dead_signal_step w r s k' isRestart timeout ev rest Hdead)
    as (w' & s' & kd & -> & Hkd & He & Hp & Hse & Hh & Hks & Hn & Hsc & Hkc).
  exists w', s', (invalidKernel kd). cbn [throw afterRace]. repeat split; assumption.
Qed.

(** A handle that is idle already: the call returns at once, with its two
    listeners disconnected again. *)
Lemma waitForIdle_already_idle (w : World) (r : SessionRef) (s : ISession.t)
    (k : Kernel.t) (timeout : Z) (isRestart : option bool) (events : list WaitEvent) :
  heap w !! r = Some s → ISession.kernel s = Some k →
  Kernel.status k = Kernel.idle →
  ∃ w' s',
    waitForIdleOnSession getResourceType jupyterLaunchTimedOut DefaultCommTarget
      (Some r) timeout isRestart events w
    = (Ok tt, w')
    ∧ effects w' = effects w ++ [KernelRegisterCommTarget r DefaultCommTarget]
    ∧ pending w' = pending w
    ∧ heap w' !! r = Some s'
    ∧ (statusChangeHandler (closures w) ∉ ISession.statusChanged s')
    ∧ (kernelChangedHandler (closures w) ∉ ISession.kernelChanged s')
    ∧ ISession.isDisposed s' = ISession.isDisposed s.
Proof.
  intros Hs Hk Hidle.
  rewrite (waitForIdleOnSession_eq w r s k) by assumption.
  rewrite bool_decide_eq_true_2 by exact Hidle. cbn [negb andb]. unfold bind, ret.
  erewrite afterRace_idle;
    [| unfold registered; fields; apply lookup_insert_eq
     | cbn [listening ISession.kernel ISession.set_kernelChanged
            ISession.set_statusChanged]; exact Hk
     | exact Hidle].
  unfold registered. fields. rewrite insert_insert_eq.
  eexists _, _. split; [reflexivity|]. fields. rewrite lookup_insert_eq.
  repeat split; cbn; apply not_elem_of_disconnect.
Qed.

End SessionProperties.

(** * Properties of the connection retry loop *)

Section ExecutionProperties.

Set Default Proof Using "Type".

Variable kernelConnectionMetadataHasKernelSpec : KernelConnectionMetadata.t → bool.
Variable jupyterNotebookRemoteConnectFailed : string.
Variable jupyterNotebookConnectFailed : string.
Variable format : string → list FormatArg → string.
Variable options : INotebookServerOptions.
Variable maxTries : Z.

Local Abbreviation onError' :=
  (onError jupyterNotebookRemoteConnectFailed jupyterNotebookConnectFailed format
           options maxTries).
Local Abbreviation tryBlock' := (tryBlock kernelConnectionMetadataHasKernelSpec options).
Local Abbreviation attempt' :=
  (attempt kernelConnectionMetadataHasKernelSpec jupyterNotebookRemoteConnectFailed
           jupyterNotebookConnectFailed format options maxTries).
Local Abbreviation retryLoop' :=
  (retryLoop kernelConnectionMetadataHasKernelSpec jupyterNotebookRemoteConnectFailed
             jupyterNotebookConnectFailed format options maxTries).
Local Abbreviation connectToNotebookServer' :=
  (connectToNotebookServer kernelConnectionMetadataHasKernelSpec
     jupyterNotebookRemoteConnectFailed jupyterNotebookConnectFailed format options
     maxTries).

Lemma lifecycle_app l1 l2 : lifecycle (l1 ++ l2) = lifecycle l1 ++ lifecycle l2.
Proof.
  induction l1 as [|e l1 IH]; [reflexivity|].
  cbn [app lifecycle]. rewrite IH. destruct e; reflexivity.
Qed.

Ltac loopfields :=
  cbn [record tryCount result connection disposed servers events].

Lemma onError_retried err st :
  errorClass err = IsJupyterWaitForIdleError → (tryCount st < maxTries)%Z →
  onError' err st = Continue (retried st).
Proof.
  intros Hc Hlt. unfold onError, retried, cleanup.
  assert (Ht : ∀ st', tryCount st' = tryCount st →
            (bool_decide (errorClass err = IsJupyterWaitForIdleError)
             && (tryCount st' <? maxTries)%Z) = true).
  { intros st' ->. rewrite bool_decide_eq_true_2 by exact Hc.
    apply Z.ltb_lt in Hlt. rewrite Hlt. reflexivity. }
  destruct (result st) as [server|] eqn:Hres; rewrite Ht by reflexivity;
    destruct (connection st) as [c|] eqn:Hconn; loopfields;
    rewrite ?Hconn, ?Hres; loopfields; rewrite ?Hconn, ?Hres;
    cbn [app]; rewrite ?app_nil_r, <- ?(assoc_L (++)); reflexivity.
Qed.

Lemma translated_translate c err : translated (translate jupyterNotebookRemoteConnectFailed jupyterNotebookConnectFailed format options c err) = true.
Proof.
  unfold translate. destruct (negb _); [|reflexivity].
  destruct (includes _ _); reflexivity.
Qed.

Lemma onError_not_retried err st :
  (bool_decide (errorClass err = IsJupyterWaitForIdleError)
   && (tryCount st <? maxTries)%Z) = false →
  ∃ st',
    lifecycle (events st')
    = lifecycle (events st) ++ match result st with
                               | Some server => [ServerDispose server]
                               | None => []
                               end
    ∧ onError' err st
      = match connection st with
        | Some c => if disposed st then Return None st'
                    else Raise (translate jupyterNotebookRemoteConnectFailed jupyterNotebookConnectFailed format options c err) st'
        | None => Raise (Rethrown err) st'
        end.
Proof.
  intros Hn. unfold onError, translate, WrappedError_from.
  assert (Ht : ∀ st', tryCount st' = tryCount st →
            (bool_decide (errorClass err = IsJupyterWaitForIdleError)
             && (tryCount st' <? maxTries)%Z) = false).
  { intros st' ->. exact Hn. }
  destruct (result st) as [server|] eqn:Hres; rewrite Ht by reflexivity;
    destruct (connection st) as [c|] eqn:Hconn; loopfields;
    rewrite ?Hconn; loopfields;
    destruct (disposed st); try destruct (negb (isLocalConnection options));
    try destruct (includes _ _);
    (eexists; split; [|reflexivity]);
    loopfields; rewrite ?lifecycle_app; cbn [lifecycle];
    rewrite ?app_nil_r; reflexivity.
Qed.

Lemma tryBlock_tryCount a st :
  tryCount (snd (tryBlock' a st)) = tryCount st.
Proof.
  unfold tryBlock. destruct (startOrConnect a) as [err|[c m]]; [reflexivity|].
  repeat match goal with
         | |- context [if ?b then _ else _] => destruct b
         | |- context [match findKernel a with _ => _ end] => destruct (findKernel a)
         | |- context [match serverConnect a with _ => _ end] => destruct (serverConnect a)
         end; reflexivity.
Qed.

(** A pass whose [result.connect] fails, after a connection was obtained. *)
Lemma tryBlock_connect_fails a st c m m' err :
  startOrConnect a = inr (c, m) → findKernel a = inr m' → serverConnect a = Some err →
  ∃ st1, tryBlock' a st = (inl err, st1)
       ∧ tryCount st1 = tryCount st
       ∧ result st1 = Some (S (servers st))
       ∧ connection st1 = Some c
       ∧ disposed st1 = disposed st || disposedMeanwhile a
       ∧ servers st1 = S (servers st)
       ∧ lifecycle (events st1)
         = lifecycle (events st) ++ [StartOrConnect (tryCount st); ServerCreated (S (servers st))].
Proof.
  intros Hs Hf Hc. unfold tryBlock. rewrite Hs, Hf, Hc.
  repeat match goal with
         | |- context [if ?b then _ else _] => destruct b
         end;
    (eexists; split; [reflexivity|]); loopfields;
    rewrite ?lifecycle_app; cbn [lifecycle]; rewrite ?app_nil_r, <- ?(assoc_L (++));
    repeat split.
Qed.

(** A pass that reaches [return result]. *)
Lemma tryBlock_succeeds a st c m m' :
  startOrConnect a = inr (c, m) → findKernel a = inr m' → serverConnect a = None →
  ∃ st1, tryBlock' a st = (inr (S (servers st)), st1)
       ∧ lifecycle (events st1)
         = lifecycle (events st) ++ [StartOrConnect (tryCount st); ServerCreated (S (servers st))].
Proof.
  intros Hs Hf Hc. unfold tryBlock. rewrite Hs, Hf, Hc.
  repeat match goal with
         | |- context [if ?b then _ else _] => destruct b
         end;
    (eexists; split; [reflexivity|]); loopfields;
    rewrite ?lifecycle_app; cbn [lifecycle]; rewrite ?app_nil_r, <- ?(assoc_L (++));
    repeat split.
Qed.

Lemma retryLoop_step fuel connector st :
  (tryCount st ≤ maxTries)%Z → disposed st = false →
  retryLoop' (S fuel) connector st
  = match tryBlock' (connector (tryCount st)) st with
    | (inl err, st') =>
        match onError' err st' with
        | Continue st'' => retryLoop' fuel connector st''
        | Return server st'' => Returned server st''
        | Raise e st'' => Threw e st''
        end
    | (inr server, st') => Returned (Some server) st'
    end.
Proof.
  intros Hle Hd. cbn [retryLoop]. apply Z.leb_le in Hle. rewrite Hle, Hd. cbn [negb andb].
  unfold attempt. destruct (tryBlock' (connector (tryCount st)) st) as [[err|server] st'];
    reflexivity.
Qed.

(** The loop comes to an end: the fuel [connectToNotebookServer] starts with
    is never used up. *)
Lemma retryLoop_fuel connector fuel :
  ∀ st, (Z.to_nat (maxTries + 1 - tryCount st) < fuel)%nat →
        retryLoop' fuel connector st ≠ OutOfFuel.
Proof.
  induction fuel as [|fuel IH]; intros st Hf; [lia|].
  cbn [retryLoop].
  destruct ((tryCount st <=? maxTries)%Z && negb (disposed st)) eqn:Hcond.
  2:{ unfold startTimedOut. discriminate. }
  apply andb_true_iff in Hcond as [Hle _]. apply Z.leb_le in Hle.
  unfold attempt.
  pose proof (tryBlock_tryCount (connector (tryCount st)) st) as Htc.
  destruct (tryBlock' (connector (tryCount st)) st) as [[err|server] st']; [|discriminate].
  cbn [snd] in Htc.
  destruct (bool_decide (errorClass err = IsJupyterWaitForIdleError)
            && (tryCount st' <? maxTries)%Z) eqn:Hr.
  - apply andb_true_iff in Hr as [Hc Hlt].
    apply bool_decide_eq_true_1 in Hc. apply Z.ltb_lt in Hlt.
    rewrite onError_retried by assumption.
    apply IH. unfold retried. loopfields. lia.
  - destruct (onError_not_retried err st' Hr) as (st'' & _ & ->).
    destruct (connection st'); [destruct (disposed st')|]; discriminate.
Qed.

Lemma retry_scenario connector c1 c2 c3 :
  maxTries = 3%Z →
  idleTimeout (connector 1%Z) c1 → idleTimeout (connector 2%Z) c2 →
  succeeds (connector 3%Z) c3 →
  ∃ st, connectToNotebookServer' connector false = Returned (Some 3) st
      ∧ lifecycle (events st)
        = [StartOrConnect 1; ServerCreated 1; ServerDispose 1;
           ConnectionDispose (connectionId c1);
           StartOrConnect 2; ServerCreated 2; ServerDispose 2;
           ConnectionDispose (connectionId c2);
           StartOrConnect 3; ServerCreated 3].
Proof.
  intros Hmax (m1 & m1' & e1 & Hs1 & Hf1 & Hc1 & He1 & Hd1)
         (m2 & m2' & e2 & Hs2 & Hf2 & Hc2 & He2 & Hd2)
         (m3 & m3' & Hs3 & Hf3 & Hc3).
  unfold connectToNotebookServer.
  replace (Z.to_nat maxTries) with 3 by (rewrite Hmax; reflexivity).
  (* first pass *)
  rewrite retryLoop_step by (cbn; lia || reflexivity).
  destruct (tryBlock_connect_fails (connector 1%Z) (initialState false) c1 m1 m1' e1
              Hs1 Hf1 Hc1) as (st1 & Ht1 & Htc1 & Hr1 & Hcn1 & Hdp1 & Hsv1 & Hl1).
  change (tryCount (initialState false)) with 1%Z. rewrite Ht1.
  rewrite onError_retried by (assumption || (rewrite Htc1; cbn; lia)).
  (* second pass *)
  assert (Hd1' : disposed st1 = false) by (rewrite Hdp1, Hd1; reflexivity).
  rewrite retryLoop_step by (unfold retried; loopfields; rewrite ?Htc1; cbn; lia || assumption).
  change (tryCount (retried st1)) with (tryCount st1 + 1)%Z. rewrite Htc1.
  change (tryCount (initialState false) + 1)%Z with 2%Z.
  destruct (tryBlock_connect_fails (connector 2%Z) (retried st1) c2 m2 m2' e2
              Hs2 Hf2 Hc2) as (st2 & Ht2 & Htc2 & Hr2 & Hcn2 & Hdp2 & Hsv2 & Hl2).
  rewrite Ht2.
  assert (Htc2' : tryCount st2 = 2%Z).
  { rewrite Htc2. unfold retried. loopfields. rewrite Htc1. reflexivity. }
  rewrite onError_retried by (assumption || (rewrite Htc2'; lia)).
  (* third pass *)
  assert (Hd2' : disposed st2 = false).
  { rewrite Hdp2, Hd2. unfold retried. loopfields. rewrite Hd1'. reflexivity. }
  rewrite retryLoop_step by (unfold retried; loopfields; rewrite ?Htc2'; lia || assumption).
  change (tryCount (retried st2)) with (tryCount st2 + 1)%Z. rewrite Htc2'.
  change (2 + 1)%Z with 3%Z.
  destruct (tryBlock_succeeds (connector 3%Z) (retried st2) c3 m3 m3' Hs3 Hf3 Hc3)
    as (st3 & Ht3 & Hl3).
  rewrite Ht3.
  assert (Hsv : servers (retried st2) = 2).
  { unfold retried. loopfields. rewrite Hsv2. unfold retried. loopfields.
    rewrite Hsv1. reflexivity. }
  rewrite Hsv. eexists. split; [reflexivity|].
  rewrite Hl3. unfold retried at 1 2. loopfields. rewrite lifecycle_app, Hl2.
  unfold retried at 1 2 3. loopfields. rewrite lifecycle_app, Hl1.
  unfold cleanup. rewrite Hr1, Hcn1, Hr2, Hcn2. unfold retried. loopfields.
  rewrite ?Hsv2. unfold retried. loopfields. rewrite ?Hsv1, ?Htc2', ?Htc1. reflexivity.
Qed.

(** C2, as amended.  The retry loop always comes to an end.  A pass that
    fails with the wait-for-idle error while [tryCount < maxTries] disposes
    the server object, if one was created, and the connection, if one was
    obtained, adds one to [tryCount] and goes round again; the next pass
    runs unless the orchestrator was disposed meanwhile.  A pass that fails
    with any other error is not retried: with a connection and a live
    orchestrator the translated error is thrown, with a connection and a
    disposed orchestrator [undefined] is returned, and without a connection
    the error is rethrown as it is.  With [maxTries = 3], a connector that
    times out waiting for idle in passes 1 and 2 and connects in pass 3
    gives server 3 after exactly three passes, servers 1 and 2 and their
    connections having been disposed before the next pass started. *)
Theorem retry_only_on_idle_timeout (connector : Z → Attempt) :
  (∀ isDisposed, connectToNotebookServer' connector isDisposed ≠ OutOfFuel)
  ∧ (∀ fuel st err st1,
       (tryCount st ≤ maxTries)%Z → disposed st = false →
       tryBlock' (connector (tryCount st)) st = (inl err, st1) →
       errorClass err = IsJupyterWaitForIdleError → (tryCount st < maxTries)%Z →
       retryLoop' (S fuel) connector st = retryLoop' fuel connector (retried st1)
       ∧ tryCount (retried st1) = (tryCount st + 1)%Z
       ∧ events (retried st1) = events st1 ++ cleanup st1
       ∧ (disposed st1 = false →
          ∀ fuel', retryLoop' (S fuel') connector (retried st1)
                   = match tryBlock' (connector (tryCount st + 1)%Z) (retried st1) with
                     | (inl err', st') =>
                         match onError' err' st' with
                         | Continue st'' => retryLoop' fuel' connector st''
                         | Return server st'' => Returned server st''
                         | Raise e st'' => Threw e st''
                         end
                     | (inr server, st') => Returned (Some server) st'
                     end))
  ∧ (∀ fuel st err st1,
       (tryCount st ≤ maxTries)%Z → disposed st = false →
       tryBlock' (connector (tryCount st)) st = (inl err, st1) →
       errorClass err ≠ IsJupyterWaitForIdleError →
       ∃ st2,
         lifecycle (events st2)
         = lifecycle (events st1) ++ match result st1 with
                                     | Some server => [ServerDispose server]
                                     | None => []
                                     end
         ∧ retryLoop' (S fuel) connector st
           = match connection st1 with
             | Some c => if disposed st1 then Returned None st2
                         else Threw (translate jupyterNotebookRemoteConnectFailed jupyterNotebookConnectFailed format options c err) st2
             | None => Threw (Rethrown err) st2
             end)
  ∧ (∀ c1 c2 c3,
       maxTries = 3%Z →
       idleTimeout (connector 1%Z) c1 → idleTimeout (connector 2%Z) c2 →
       succeeds (connector 3%Z) c3 →
       ∃ st, connectToNotebookServer' connector false = Returned (Some 3) st
           ∧ lifecycle (events st)
             = [StartOrConnect 1; ServerCreated 1; ServerDispose 1;
                ConnectionDispose (connectionId c1);
                StartOrConnect 2; ServerCreated 2; ServerDispose 2;
                ConnectionDispose (connectionId c2);
                StartOrConnect 3; ServerCreated 3]).
Proof.
  split; [|split; [|split]].
  - intros d. unfold connectToNotebookServer. apply retryLoop_fuel.
    cbn [initialState tryCount]. lia.
  - intros fuel st err st1 Hle Hd Ht Hc Hlt.
    pose proof (tryBlock_tryCount (connector (tryCount st)) st) as Htc.
    rewrite Ht in Htc. cbn [snd] in Htc.
    rewrite retryLoop_step, Ht by assumption.
    rewrite onError_retried by (assumption || (rewrite Htc; assumption)).
    split; [reflexivity|]. split; [unfold retried; loopfields; lia|].
    split; [reflexivity|]. intros Hd1 fuel'.
    rewrite retryLoop_step.
    + replace (tryCount (retried st1)) with (tryCount st + 1)%Z
        by (unfold retried; loopfields; lia).
      reflexivity.
    + unfold retried. loopfields. lia.
    + exact Hd1.
  - intros fuel st err st1 Hle Hd Ht Hc.
    rewrite retryLoop_step, Ht by assumption.
    destruct (onError_not_retried err st1) as (st2 & Hl & ->).
    { rewrite bool_decide_eq_false_2 by exact Hc. reflexivity. }
    exists st2. split; [exact Hl|].
    destruct (connection st1); [destruct (disposed st1)|]; reflexivity.
  - intros c1 c2 c3. apply retry_scenario.
Qed.

(** C8, as amended.  A pass of a remote connection that fails with an error
    that is not retried, after a connection was obtained and while the
    orchestrator is not disposed, throws [JupyterSelfCertsError] with the
    connection's base URL when the message of the error contains the
    self-signed-certificate signature, and otherwise the wrapped error whose
    cause is the original error and whose message is the remote
    connect-failed template formatted with the base URL and the error. *)
Theorem remote_failure_translation (connector : Z → Attempt) (fuel : nat)
    (st st1 : LoopState) (err : CaughtError) (c : IJupyterConnection) :
  isLocalConnection options = false →
  (tryCount st ≤ maxTries)%Z → disposed st = false →
  tryBlock' (connector (tryCount st)) st = (inl err, st1) →
  (errorClass err = IsJupyterWaitForIdleError → (maxTries ≤ tryCount st)%Z) →
  connection st1 = Some c →
  disposed st1 = false →
  ∃ st2,
    retryLoop' (S fuel) connector st
    = Threw (if includes "reason: self signed certificate" (errorMessage err)
             then JupyterSelfCertsError (baseUrl c)
             else WrappedError
                    (format jupyterNotebookRemoteConnectFailed
                            [ArgString (baseUrl c); ArgError err])
                    err) st2.
Proof.
  intros Hremote Hle Hd Ht Hnot Hc Hd1.
  pose proof (tryBlock_tryCount (connector (tryCount st)) st) as Htc.
  rewrite Ht in Htc. cbn [snd] in Htc.
  rewrite retryLoop_step, Ht by assumption.
  destruct (onError_not_retried err st1) as (st2 & _ & ->).
  { destruct (decide (errorClass err = IsJupyterWaitForIdleError)) as [He|He].
    - rewrite bool_decide_eq_true_2 by exact He. cbn [andb].
      apply Z.ltb_ge. rewrite Htc. apply Hnot, He.
    - rewrite bool_decide_eq_false_2 by exact He. reflexivity. }
  rewrite Hc, Hd1. unfold translate. rewrite Hremote. cbn [negb].
  exists st2. destruct (includes _ _); reflexivity.
Qed.

End ExecutionProperties.

(** * The theorems at concrete inputs *)

Lemma canShutdownSession_policy_witness :
  canShutdownSession resourceTypeBySuffix liveRemoteNotebook None = false
  ∧ ∃ w', shutdownSession resourceTypeBySuffix (Some 1) (Some statusHandler) None liveWorld
          = (Ok tt, w')
        ∧ effects w' = [SessionDispose 1].
Proof.
  destruct (canShutdownSession_policy resourceTypeBySuffix liveRemoteNotebook None)
    as (Hlive & _ & _ & _ & _ & Hdispose).
  split.
  - apply Hlive. reflexivity.
  - destruct (Hdispose liveWorld 1 (Some statusHandler)) as (w' & Hrun & _ & He & _).
    + reflexivity.
    + reflexivity.
    + reflexivity.
    + exists w'. split; [exact Hrun | exact He].
Defined.

(** Against C1 as stated: for the restart standby of a live-kernel session the
    claim allows the shutdown, the code forbids it. *)
Lemma live_standby_is_not_shut_down :
  canShutdown_claimed resourceTypeBySuffix liveRemoteNotebook (Some true) = true
  ∧ canShutdownSession resourceTypeBySuffix liveRemoteNotebook (Some true) = false.
Proof. split; reflexivity. Qed.

Lemma retry_only_on_idle_timeout_witness :
  ∃ st, connectToNotebookServer hasKernelSpecUnlessLive "remote" "local" formatArgs
          localOptions 3 timesOutTwice false
        = Returned (Some 3) st
      ∧ lifecycle (events st)
        = [StartOrConnect 1; ServerCreated 1; ServerDispose 1; ConnectionDispose 1;
           StartOrConnect 2; ServerCreated 2; ServerDispose 2; ConnectionDispose 2;
           StartOrConnect 3; ServerCreated 3].
Proof.
  destruct (retry_only_on_idle_timeout hasKernelSpecUnlessLive "remote" "local"
              formatArgs localOptions 3 timesOutTwice) as (_ & _ & _ & Hscenario).
  apply (Hscenario (localConnection 1) (localConnection 2) (localConnection 3)).
  - reflexivity.
  - exists (Some (specMetadata "A")), None, idleTimedOut. repeat split; reflexivity.
  - exists (Some (specMetadata "A")), None, idleTimedOut. repeat split; reflexivity.
  - exists (Some (specMetadata "A")), None. repeat split; reflexivity.
Defined.

(** Against C2 as stated: a failure to start the server is not retried, and
    it leaves the loop as it came, not translated. *)
Lemma refused_connection_is_rethrown :
  ∃ st, connectToNotebookServer hasKernelSpecUnlessLive "remote" "local" formatArgs
          localOptions 3 neverStarts false
        = Threw (Rethrown refused) st
      ∧ translated (Rethrown refused) = false.
Proof. eexists. split; reflexivity. Qed.



Lemma waitForIdle_times_out_witness :
  ∃ w', waitForIdleOnSession resourceTypeBySuffix "Timed out waiting for idle"
          "jupyter.widget" (Some 1) 1000 None
          ([StatusChanged Kernel.busy; SleepOver 500] ++ SleepOver 1000 :: [])
          startingWorld
        = (Throw (JupyterWaitForIdleError "Timed out waiting for idle"), w')
      ∧ effects w' = [SuppressShutdownErrors 1; SessionShutdown 1]
      ∧ pending w' = [ResumeShutdownSession 1].
Proof.
  destruct (waitForIdle_times_out resourceTypeBySuffix "Timed out waiting for idle"
              "jupyter.widget" startingWorld 1 (localNotebook Kernel.starting)
              (aKernel "k1" Kernel.starting) 1000 None
              ([StatusChanged Kernel.busy; SleepOver 500] ++ SleepOver 1000 :: []))
    as (w' & s' & k' & Hrun & He & Hp & _).
  - reflexivity.
  - reflexivity.
  - discriminate.
  - right. exists [StatusChanged Kernel.busy; SleepOver 500], 1000%Z, [].
    split; [reflexivity|]. split; [reflexivity|]. lia.
  - exists w'. split; [exact Hrun|]. split; [exact He | exact Hp].
Defined.

(** C5, at its failing input.  The kernel of a starting local session dies
    while [waitForIdleOnSession] waits: the call rejects with an
    invalid-kernel error and the two listeners it connected are still
    connected to the handle, which is not disposed yet. *)
Theorem waitForIdle_dead_keeps_listeners :
  (∃ kernelModel id,
     fst dyingRun = Throw (JupyterInvalidKernelError kernelModel connectToLiveKernel id))
  ∧ ISession.statusChanged <$> heap (snd dyingRun) !! 1 = Some [statusChangeHandler 0]
  ∧ ISession.kernelChanged <$> heap (snd dyingRun) !! 1 = Some [kernelChangedHandler 0]
  ∧ ISession.isDisposed <$> heap (snd dyingRun) !! 1 = Some false.
Proof. split; [eexists _, _; reflexivity|]. repeat split; reflexivity. Qed.

Lemma restart_delegates_or_swaps_witness :
  ∃ w', restart resourceTypeBySuffix "Session disposed" startsStandby3 1000 standbyWorld
        = (Ok tt, w')
      ∧ _session w' = Some 2
      ∧ restartSessionPromise w' = None
      ∧ pending w' = [ResumeShutdownSession 1].
Proof.
  destruct (restart_delegates_or_swaps resourceTypeBySuffix "Session disposed"
              startsStandby3 standbyWorld 1000) as (_ & Hswap & _ & _).
  destruct (Hswap 1 (localNotebook Kernel.idle) (aKernel "k1" Kernel.idle)
                  2 standbySession (aKernel "k2" Kernel.idle))
    as (w' & Hrun & Hs & Hp & _ & Hq & _).
  - reflexivity.
  - reflexivity.
  - reflexivity.
  - discriminate.
  - reflexivity.
  - lia.
  - reflexivity.
  - reflexivity.
  - exists w'. split; [exact Hrun|]. split; [exact Hs|]. split; [exact Hp | exact Hq].
Defined.

(** Against C6 as stated: after the swap no standby is under construction;
    [startRestartSession] has not been called and the promise is empty. *)
Lemma restart_starts_no_next_standby :
  fst restartRun = Ok tt
  ∧ effects (snd restartRun)
    = [SetSession (Some 2);
       KernelSocketNext (Some (aKernel "k2" Kernel.idle, {| socket := 1 |}));
       RestartSessionUsed (Some (aKernel "k2" Kernel.idle));
       SuppressShutdownErrors 1; SessionShutdown 1]
  ∧ restartSessionPromise (snd restartRun) = None.
Proof. repeat split; reflexivity. Qed.

Lemma changeKernel_same_kernel_is_noop_witness :
  ∃ w', changeKernel resourceTypeBySuffix hasKernelSpecUnlessLive createsSession2
          (Some scriptUri) (specMetadata "A") 1000 startingWorld
        = (Ok tt, w')
      ∧ effects w' = [] ∧ _session w' = Some 1.
Proof.
  destruct (changeKernel_same_kernel_is_noop resourceTypeBySuffix hasKernelSpecUnlessLive
              createsSession2 startingWorld (Some scriptUri) (specMetadata "A")
              (specMetadata "A") 1000)
    as (w' & Hrun & He & _ & _ & Hs & _).
  - reflexivity.
  - reflexivity.
  - reflexivity.
  - reflexivity.
  - reflexivity.
  - reflexivity.
  - reflexivity.
  - exists w'. split; [exact Hrun|]. split; [exact He | exact Hs].
Defined.

(** Against C7 as stated: the stored and the requested metadata have the same
    id, and a session is created and the old one shut down all the same,
    because the metadata carry no kernel spec. *)
Lemma same_id_without_kernel_spec_switches :
  KernelConnectionMetadata.id <$> kernelConnectionMetadata defaultKernelWorld
  = Some (KernelConnectionMetadata.id (defaultMetadata "A"))
  ∧ fst sameDefaultKernelRun = Ok tt
  ∧ effects (snd sameDefaultKernelRun)
    = [TrackKernelResourceInformation (Some notebookUri) (defaultMetadata "A");
       CreateNewKernelSession (Some notebookUri) (defaultMetadata "A") 1000;
       SuppressShutdownErrors 1; SessionShutdown 1;
       SetSession (Some 2);
       KernelSocketNext (Some (aKernel "k2" Kernel.idle, {| socket := 1 |}))]
  ∧ _session (snd sameDefaultKernelRun) = Some 2.
Proof. repeat split; reflexivity. Qed.

Lemma remote_failure_translation_witness :
  ∃ st, retryLoop hasKernelSpecUnlessLive "remote" "local" formatArgs remoteOptions 3
          4 rejectsCertificate (initialState false)
        = Threw (JupyterSelfCertsError "https://hub.example.org/") st.
Proof.
  destruct (remote_failure_translation hasKernelSpecUnlessLive "remote" "local" formatArgs
              remoteOptions 3 rejectsCertificate 3 (initialState false)
              (snd (tryBlock hasKernelSpecUnlessLive remoteOptions
                      (rejectsCertificate 1) (initialState false)))
              selfSigned remoteConnection) as (st & Hrun).
  - reflexivity.
  - cbn. lia.
  - reflexivity.
  - reflexivity.
  - discriminate.
  - reflexivity.
  - reflexivity.
  - exists st. exact Hrun.
Defined.

(** Against C8 as stated: the same failure, arriving after the orchestrator
    was disposed, throws nothing; the call returns [undefined]. *)
Lemma remote_failure_during_dispose_returns_undefined :
  ∃ st, connectToNotebookServer hasKernelSpecUnlessLive "remote" "local" formatArgs
          remoteOptions 3 rejectsCertificateDuringDispose false
        = Returned None st.
Proof. eexists. reflexivity. Qed.

Lemma shutdown_idempotent_witness :
  ∃ w1 w2, shutdown resourceTypeBySuffix standbyWorld = (Ok tt, w1)
         ∧ shutdown resourceTypeBySuffix w1 = (Ok tt, w2)
         ∧ heap w2 = heap w1
         ∧ effects w1
           = [SuppressShutdownErrors 1; SessionShutdown 1;
              SuppressShutdownErrors 2; SessionShutdown 2;
              SetSession None; StatusChangedEmitterDispose].
Proof.
  destruct (shutdown_idempotent resourceTypeBySuffix standbyWorld)
    as (w1 & w2 & H1 & H2 & _ & _ & Hh & _ & _ & Horder).
  - discriminate.
  - exists w1, w2. split; [exact H1|]. split; [exact H2|]. split; [exact Hh|].
    rewrite (Horder 1 eq_refl). reflexivity.
Defined.

Lemma no_active_session_asymmetry_witness :
  requestExecute "Session disposed" "1+1" emptyWorld
  = (Throw (Error "Session disposed"), emptyWorld)
  ∧ interrupt "Interrupt failed" 1000 emptyWorld = (Ok tt, emptyWorld)
  ∧ sendInputReply "y" emptyWorld = (Ok tt, emptyWorld).
Proof.
  destruct (no_active_session_asymmetry "Session disposed" "Interrupt failed" emptyWorld)
    as (Hexec & _ & _ & _ & _ & _ & _ & Hint & Hinput).
  - left. reflexivity.
  - split; [apply Hexec|]. split; [apply Hint | apply Hinput].
Defined.

(** The fire-and-forget shutdown of the old session, later on: its
    continuation runs and the old handle ends up disposed, by the backend's
    reply. *)
Example old_session_disposed_later :
  ISession.isDisposed <$> heap (snd restartRun) !! 1 = Some false
  ∧ ISession.isDisposed
      <$> heap (snd (drain resourceTypeBySuffix 2 (snd restartRun))) !! 1 = Some true
  ∧ pending (snd (drain resourceTypeBySuffix 2 (snd restartRun))) = [].
Proof. repeat split; reflexivity. Qed.

(** * Further properties of the session object *)

Section MoreSessionProperties.

Set Default Proof Using "Type".

Variable getResourceType : Resource → string.
Variable kernelConnectionMetadataHasKernelSpec : KernelConnectionMetadata.t → bool.
Variable sessionDisposed : string.
Variable jupyterLaunchTimedOut : string.
Variable interruptingKernelFailed : string.
Variable DefaultCommTarget : string.
Variable startRestartSession : Z → M unit.
Variable createNewKernelSession : Resource → KernelConnectionMetadata.t → Z → M SessionRef.

Ltac wfields :=
  cbn [effects pending _session restartSessionPromise kernelConnectionMetadata
       resource onStatusChangedEvent closures heap set_effects set_heap set_pending
       set_session set_restartSessionPromise set_kernelConnectionMetadata
       set_resource set_onStatusChangedEvent set_closures fst snd].

Lemma statusChanged_unhook handler s h :
  handler = Some h → h ∉ ISession.statusChanged (unhook handler s).
Proof.
  intros ->. cbn [unhook ISession.statusChanged ISession.set_statusChanged].
  apply not_elem_of_disconnect.
Qed.

(** X1.  An awaited [shutdownSession] on a handle that has a kernel
    never throws and never hangs, whatever the backend answers to the
    shutdown request (reply, rejection, or silence, which the one-second
    bound cuts short).  It leaves the handle disposed and the given status
    handler disconnected, and touches no other handle.  The shutdown request
    goes to the backend exactly when the predicate allows it and the handle
    was not disposed before; a handle that was disposed before and may be
    shut down is not disposed again. *)
Theorem shutdownSession_disposes_handle (w : World) (r : SessionRef) (s : ISession.t)
    (handler : option Slot) (isRestart : option bool) :
  heap w !! r = Some s → defined (ISession.kernel s) = true →
  ∃ w' s' log,
    shutdownSession getResourceType (Some r) handler isRestart w = (Ok tt, w')
    ∧ heap w' !! r = Some s'
    ∧ ISession.isDisposed s' = true
    ∧ (∀ h, handler = Some h → h ∉ ISession.statusChanged s')
    ∧ (∀ r', r' ≠ r → heap w' !! r' = heap w !! r')
    ∧ effects w' = effects w ++ log
    ∧ (SessionShutdown r ∈ log
       ↔ canShutdownSession getResourceType s isRestart = true
         ∧ ISession.isDisposed s = false)
    ∧ (canShutdownSession getResourceType s isRestart = true →
       ISession.isDisposed s = true → SessionDispose r ∉ log)
    ∧ pending w' = pending w
    ∧ _session w' = _session w.
Proof.
  intros Hs Hk. rewrite shutdownSession_run. unfold tornDown. rewrite Hs, Hk.
  eexists _, _, (teardownLog getResourceType r s isRestart). wfields.
  split; [reflexivity|]. split; [apply lookup_insert_eq|].
  split; [reflexivity|]. split.
  { intros h Hh. cbn [ISession.statusChanged ISession.set_isDisposed].
    apply statusChanged_unhook. exact Hh. }
  split. { intros r' Hne. apply lookup_insert_ne. congruence. }
  split; [reflexivity|].
  unfold teardownLog.
  destruct (canShutdownSession getResourceType s isRestart);
    destruct (ISession.isDisposed s);
    try destruct (ISession.shutdownReply s) as [[]| |];
    (split; [split; [intros Hin|intros [? ?]; try discriminate]|]);
    repeat match goal with
           | H : _ ∈ _ :: _ |- _ => apply elem_of_cons in H as [H|H]; try discriminate
           | H : _ ∈ [] |- _ => apply elem_of_nil in H; contradiction
           | |- _ ∧ _ => split
           | |- _ = _ => reflexivity
           | |- _ → _ => intro
           end;
    try discriminate;
    try (apply elem_of_cons; right; apply elem_of_cons; left; reflexivity);
    try (intros Hin; apply list_elem_of_singleton in Hin; discriminate).
Qed.

(** X2.  With no session, a dangling one or one without a kernel,
    [shutdownSession] (awaited or not) and [waitForIdleOnSession] return at
    once and change nothing: no handler is disconnected, no listener is
    registered, no request is made, nothing is waited for, whatever the
    timeout and whatever happens meanwhile. *)
Theorem missing_session_is_ignored (w : World) (session : option SessionRef)
    (handler : option Slot) (isRestart : option bool) (timeout : Z)
    (events : list WaitEvent) :
  deref w session ≫= ISession.kernel = None →
  shutdownSession getResourceType session handler isRestart w = (Ok tt, w)
  ∧ shutdownSession_ignoreErrors getResourceType session handler isRestart w = (Ok tt, w)
  ∧ waitForIdleOnSession getResourceType jupyterLaunchTimedOut DefaultCommTarget
      session timeout isRestart events w = (Ok tt, w).
Proof.
  intros Hnone. split; [|split].
  - unfold shutdownSession, bind.
    rewrite shutdownSession_begin_none by exact Hnone. reflexivity.
  - unfold shutdownSession_ignoreErrors, bind.
    rewrite shutdownSession_begin_none by exact Hnone. reflexivity.
  - unfold waitForIdleOnSession. cbn [bind get].
    destruct session; [rewrite Hnone|]; reflexivity.
Qed.

Lemma idle_signal_step w r s k' isRestart timeout ev rest :
  reportsIdle ev = true →
  ∃ ki,
    Kernel.status ki = Kernel.idle
    ∧ race getResourceType r (closures w) isRestart timeout (ev :: rest) (waited r s k' w)
      = (Ok (Some Resolved),
         set_heap (<[r := ISession.set_kernel (Some ki) (listening (closures w) s)]> (heap w))
                  (set_closures (S (closures w)) w)).
Proof.
  intros Hidle.
  assert (Hal : ∀ f : ISession.t → ISession.t,
            alter f r (heap (waited r s k' w))
            = <[r := f (ISession.set_kernel (Some k') (listening (closures w) s))]> (heap w)).
  { intros f. unfold waited. wfields. apply map_eq; intros i.
    destruct (decide (r = i)) as [->|Hne].
    - rewrite lookup_alter_eq, !lookup_insert_eq. reflexivity.
    - rewrite lookup_alter_ne, !lookup_insert_ne by done. reflexivity. }
  cbn [race]. destruct ev as [e | [ki|] | now]; cbn [reportsIdle] in Hidle;
    try discriminate; apply bool_decide_eq_true_1 in Hidle.
  - subst e. exists (Kernel.mk (Kernel.id k') (Kernel.name k') Kernel.idle (Kernel.own k')).
    split; [reflexivity|].
    unfold bind, update, modify, get. wfields.
    rewrite Hal. cbn beta. wfields. rewrite lookup_insert_eq.
    cbn [fmap option_fmap option_map default from_option id setStatus
         ISession.statusChanged ISession.set_kernel ISession.kernel listening
         ISession.set_kernelChanged ISession.set_statusChanged].
    rewrite decide_True by apply elem_of_connect.
    cbn [waitStatusHandler ret]. unfold waited. wfields. reflexivity.
  - exists ki. split; [exact Hidle|].
    unfold bind, update, modify, get. wfields.
    rewrite Hal. cbn beta. wfields. rewrite lookup_insert_eq.
    cbn [fmap option_fmap option_map default from_option id
         ISession.kernelChanged ISession.set_kernel ISession.kernel listening
         ISession.set_kernelChanged ISession.set_statusChanged].
    rewrite decide_True by apply elem_of_connect.
    rewrite Hidle. cbn [waitStatusHandler ret]. unfold waited. wfields. reflexivity.
Qed.

(** X3.  A call of [waitForIdleOnSession] with a positive timeout on a
    handle whose kernel is not idle, during which a signal reports the
    kernel idle (the status signal, or the kernel-changed signal with an idle
    kernel) before anything else settles the wait, returns normally.  It has
    disconnected its two listeners, registered the default comm target on
    the kernel, started no shutdown and left the handle undisposed, with an
    idle kernel. *)
Theorem waitForIdle_idle_signal (w : World) (r : SessionRef) (s : ISession.t)
    (k : Kernel.t) (timeout : Z) (isRestart : option bool)
    (quietEvents : list WaitEvent) (ev : WaitEvent) (rest : list WaitEvent) :
  heap w !! r = Some s → ISession.kernel s = Some k →
  Kernel.status k ≠ Kernel.idle →
  (0 < timeout)%Z →
  forallb (quiet timeout) quietEvents = true →
  reportsIdle ev = true →
  ∃ w' s' ki,
    waitForIdleOnSession getResourceType jupyterLaunchTimedOut DefaultCommTarget
      (Some r) timeout isRestart (quietEvents ++ ev :: rest) w
    = (Ok tt, w')
    ∧ effects w' = effects w ++ [KernelRegisterCommTarget r DefaultCommTarget]
    ∧ pending w' = pending w
    ∧ heap w' !! r = Some s'
    ∧ ISession.kernel s' = Some ki
    ∧ Kernel.status ki = Kernel.idle
    ∧ (statusChangeHandler (closures w) ∉ ISession.statusChanged s')
    ∧ (kernelChangedHandler (closures w) ∉ ISession.kernelChanged s')
    ∧ ISession.isDisposed s' = ISession.isDisposed s.
Proof.
  intros Hs Hk Hidle Hpos Hq Hev.
  rewrite (waitForIdleOnSession_eq _ _ _ w r s k) by assumption.
  rewrite bool_decide_eq_false_2 by exact Hidle.
  replace (0 <? timeout)%Z with true by (symmetry; apply Z.ltb_lt; exact Hpos).
  cbn [negb andb]. unfold bind.
  edestruct (race_quiet getResourceType r (closures w) isRestart timeout quietEvents
               (ev :: rest) (registered r s w) (listening (closures w) s) k)
    as (k' & Hidle' & ->); try assumption.
  { unfold registered. wfields. apply lookup_insert_eq. }
  { apply elem_of_connect. }
  { apply elem_of_connect. }
  unfold registered. wfields. rewrite insert_insert_eq, set_heap_set_heap.
  fold (waited r s k' w).
  destruct (idle_signal_step w r s k' isRestart timeout ev rest Hev) as (ki & Hki & ->).
  erewrite afterRace_idle; [| wfields; apply lookup_insert_eq | reflexivity | exact Hki].
  eexists _, _, ki. split; [reflexivity|]. wfields.
  rewrite insert_insert_eq, lookup_insert_eq.
  repeat split; try assumption.
  - cbn. apply not_elem_of_disconnect.
  - cbn. apply not_elem_of_disconnect.
Qed.

(** Where [setSession] leaves the references and the handles, whether it
    returns or throws on the way to its log message. *)
Lemma setSession_state session w :
  _session (snd (setSession session w)) = session
  ∧ heap (snd (setSession session w))
    = match session with
      | Some r => alter (λ s, ISession.set_iopubMessage
                                (connect ioPubHandler (ISession.iopubMessage s)) s) r
      | None => λ h, h
      end
        match _session w with
        | Some o => alter (λ s, ISession.set_iopubMessage
                                  (disconnect ioPubHandler (ISession.iopubMessage s)) s)
                          o (heap w)
        | None => heap w
        end
  ∧ ∃ log, effects (snd (setSession session w)) = effects w ++ SetSession session :: log
         ∧ (session = None ∨ session = _session w → log = []).
Proof.
  unfold setSession, kernelOf. run.
  destruct (_session w) as [o|] eqn:Ho; destruct session as [r|]; run;
    try (destruct (decide (Some o = Some r)) as [Heq|Hne]);
    try (destruct (decide (None = Some r)) as [Heq|Hne]; [discriminate|]);
    run; repeat (case_match; run; simplify_eq); wfields;
    (split; [reflexivity|]; split; [reflexivity|]);
    eexists; rewrite <- ?(assoc_L (++)); cbn [app];
    (split; [reflexivity|]); intros [Hx|Hx]; congruence.
Qed.

(** X4.  [setSession] keeps the io-pub handler of the session object on
    the active handle only: if no handle but the active one had it before
    the call, the same holds afterwards (also when the call throws on a
    handle without a kernel), the new active handle has it and the old one
    has lost it.  Setting no session, or the session that is already active,
    publishes no kernel socket. *)
Theorem setSession_moves_ioPubHandler (w : World) (session : option SessionRef) :
  ioPubExclusive w →
  ioPubExclusive (snd (setSession session w))
  ∧ _session (snd (setSession session w)) = session
  ∧ (∀ r s, session = Some r → heap w !! r = Some s →
       ∃ s', heap (snd (setSession session w)) !! r = Some s'
             ∧ ioPubHandler ∈ ISession.iopubMessage s')
  ∧ (∀ o so, _session w = Some o → session ≠ Some o → heap w !! o = Some so →
       ∃ so', heap (snd (setSession session w)) !! o = Some so'
              ∧ ioPubHandler ∉ ISession.iopubMessage so')
  ∧ (session = None ∨ session = _session w →
     effects (snd (setSession session w)) = effects w ++ [SetSession session]).
Proof.
  intros Hex.
  destruct (setSession_state session w) as (Hse & Hh & log & He & Hlog).
  set (w' := snd (setSession session w)) in *.
  split; [|split; [exact Hse|split; [|split]]].
  - intros r' s' Hs' Hin. rewrite Hse.
    destruct session as [r|].
    + destruct (decide (r = r')) as [->|Hne]; [reflexivity|].
      rewrite Hh, lookup_alter_ne in Hs' by exact Hne.
      destruct (_session w) as [o|] eqn:Ho.
      * destruct (decide (o = r')) as [->|Hne'].
        -- rewrite lookup_alter_eq in Hs'.
           destruct (heap w !! r') as [so|]; [|discriminate].
           cbn in Hs'. injection Hs' as <-. cbn in Hin.
           exfalso. exact (not_elem_of_disconnect _ _ Hin).
        -- rewrite lookup_alter_ne in Hs' by exact Hne'.
           pose proof (Hex r' s' Hs' Hin) as H. congruence.
      * pose proof (Hex r' s' Hs' Hin) as H. congruence.
    + rewrite Hh in Hs'. destruct (_session w) as [o|] eqn:Ho.
      * destruct (decide (o = r')) as [->|Hne'].
        -- rewrite lookup_alter_eq in Hs'.
           destruct (heap w !! r') as [so|]; [|discriminate].
           cbn in Hs'. injection Hs' as <-. cbn in Hin.
           exfalso. exact (not_elem_of_disconnect _ _ Hin).
        -- rewrite lookup_alter_ne in Hs' by exact Hne'.
           pose proof (Hex r' s' Hs' Hin) as H. congruence.
      * pose proof (Hex r' s' Hs' Hin) as H. congruence.
  - intros r s -> Hs. rewrite Hh, lookup_alter_eq.
    destruct (_session w) as [o|].
    + destruct (decide (o = r)) as [->|Hne].
      * rewrite lookup_alter_eq, Hs. eexists. split; [reflexivity|].
        cbn. apply elem_of_connect.
      * rewrite lookup_alter_ne, Hs by exact Hne. eexists. split; [reflexivity|].
        cbn. apply elem_of_connect.
    + rewrite Hs. eexists. split; [reflexivity|]. cbn. apply elem_of_connect.
  - intros o so Ho Hne Hs. rewrite Hh, Ho.
    destruct session as [r|].
    + rewrite lookup_alter_ne by congruence. rewrite lookup_alter_eq, Hs.
      eexists. split; [reflexivity|]. cbn. apply not_elem_of_disconnect.
    + rewrite lookup_alter_eq, Hs.
      eexists. split; [reflexivity|]. cbn. apply not_elem_of_disconnect.
  - intros H. rewrite He, (Hlog H). reflexivity.
Qed.

(** X5.  [changeKernel] to a kernel connection with another id than
    the stored one.  The resource is replaced first.  If
    [createNewKernelSession] throws, the error leaves the method as it is and
    nothing else was done: the active session, its handlers and the stored
    metadata are as [createNewKernelSession] left them, and no shutdown was
    started.  If it returns a new handle, the old session is shut down
    without being awaited, the requested metadata is stored, the new handle
    becomes the active one, gets the io-pub and status handlers and has its
    kernel socket published; the old handle has lost both handlers.  The
    standby promise is left in place: a standby that has resolved is handed
    to a continuation that shuts it down. *)
Theorem changeKernel_switches_or_fails (w : World) (resource' : Resource)
    (kernelConnection : KernelConnectionMetadata.t) (timeoutMS : Z) :
  (∀ m, kernelConnectionMetadata w = Some m →
        KernelConnectionMetadata.id m ≠ KernelConnectionMetadata.id kernelConnection) →
  let started :=
    set_effects (effects w ++ [TrackKernelResourceInformation resource' kernelConnection;
                               CreateNewKernelSession resource' kernelConnection timeoutMS])
                (set_resource resource' w) in
  (∀ e w1, createNewKernelSession resource' kernelConnection timeoutMS started = (Throw e, w1) →
     changeKernel getResourceType kernelConnectionMetadataHasKernelSpec
       createNewKernelSession resource' kernelConnection timeoutMS w = (Throw e, w1))
  ∧ (∀ n w1 o so sn kn,
       createNewKernelSession resource' kernelConnection timeoutMS started = (Ok n, w1) →
       _session w1 = Some o → heap w1 !! o = Some so →
       defined (ISession.kernel so) = true →
       n ≠ o → heap w1 !! n = Some sn → ISession.kernel sn = Some kn →
       ∃ w' so' sn',
         changeKernel getResourceType kernelConnectionMetadataHasKernelSpec
           createNewKernelSession resource' kernelConnection timeoutMS w = (Ok tt, w')
         ∧ _session w' = Some n
         ∧ kernelConnectionMetadata w' = Some kernelConnection
         ∧ restartSessionPromise w' = restartSessionPromise w1
         ∧ effects w'
           = effects w1 ++ beginLog getResourceType o so (Some false)
             ++ [SetSession (Some n);
                 KernelSocketNext (fmap (pair kn) (ISession.kernelSocketInformation sn))]
         ∧ pending w'
           = pending w1
             ++ match inflight getResourceType o so (Some false) with
                | Some i => [ResumeShutdownSession i]
                | None => []
                end
             ++ match restartSessionPromise w1 with
                | Some (resolved standby) => [ThenShutdownRestartSession standby]
                | _ => []
                end
         ∧ heap w' !! o = Some so'
         ∧ (statusHandler ∉ ISession.statusChanged so')
         ∧ (ioPubHandler ∉ ISession.iopubMessage so')
         ∧ heap w' !! n = Some sn'
         ∧ statusHandler ∈ ISession.statusChanged sn'
         ∧ ioPubHandler ∈ ISession.iopubMessage sn'
         ∧ ISession.isDisposed sn' = ISession.isDisposed sn).
Proof.
  intros Hid started.
  assert (Hneq : ∀ m, kernelConnectionMetadata w = Some m →
            String.eqb (KernelConnectionMetadata.id m)
                       (KernelConnectionMetadata.id kernelConnection) = false).
  { intros m Hm. apply String.eqb_neq. apply Hid. exact Hm. }
  assert (Hstart : ∀ A (k : World → Result A * World),
    (let! _ := emit (TrackKernelResourceInformation resource' kernelConnection) in
     let! _ := emit (CreateNewKernelSession resource' kernelConnection timeoutMS) in k)
      (set_resource resource' w) = k started).
  { intros A k. unfold bind, emit, modify. wfields. subst started.
    rewrite <- (assoc_L (++)). reflexivity. }
  split.
  - intros e w1 Hcreate. unfold changeKernel.
    unfold bind at 1. cbn [modify]. unfold bind at 1. cbn [get]. wfields.
    destruct (kernelConnectionMetadata w) as [m|] eqn:Hm;
      rewrite ?(Hneq m eq_refl), ?andb_false_r;
      rewrite Hstart; unfold bind at 1; rewrite Hcreate; reflexivity.
  - intros n w1 o so sn kn Hcreate Ho Hso Hko Hne Hsn Hkn. unfold changeKernel.
    unfold bind at 1. cbn [modify]. unfold bind at 1. cbn [get]. wfields.
    assert (Hgoal : ∃ w' so' sn',
      (let! newSession := createNewKernelSession resource' kernelConnection timeoutMS in
       let! w0 := get in
       let! _ := match _session w0 with
                 | Some r =>
                     let! _ := shutdownSession_ignoreErrors getResourceType (Some r)
                                 (Some statusHandler) (Some false) in
                     match restartSessionPromise w0 with
                     | Some (resolved restartSession) =>
                         spawn (ThenShutdownRestartSession restartSession)
                     | _ => ret tt
                     end
                 | None => ret tt
                 end in
       let! _ := modify (set_kernelConnectionMetadata (Some kernelConnection)) in
       let! _ := setSession (Some newSession) in
       let! w2 := get in
       match _session w2 with
       | Some r => update r (λ s, ISession.set_statusChanged
                                    (connect statusHandler (ISession.statusChanged s)) s)
       | None => ret tt
       end) started = (Ok tt, w')
      ∧ _session w' = Some n
      ∧ kernelConnectionMetadata w' = Some kernelConnection
      ∧ restartSessionPromise w' = restartSessionPromise w1
      ∧ effects w'
        = effects w1 ++ beginLog getResourceType o so (Some false)
          ++ [SetSession (Some n);
              KernelSocketNext (fmap (pair kn) (ISession.kernelSocketInformation sn))]
      ∧ pending w'
        = pending w1
          ++ match inflight getResourceType o so (Some false) with
             | Some i => [ResumeShutdownSession i]
             | None => []
             end
          ++ match restartSessionPromise w1 with
             | Some (resolved standby) => [ThenShutdownRestartSession standby]
             | _ => []
             end
      ∧ heap w' !! o = Some so'
      ∧ (statusHandler ∉ ISession.statusChanged so')
      ∧ (ioPubHandler ∉ ISession.iopubMessage so')
      ∧ heap w' !! n = Some sn'
      ∧ statusHandler ∈ ISession.statusChanged sn'
      ∧ ioPubHandler ∈ ISession.iopubMessage sn'
      ∧ ISession.isDisposed sn' = ISession.isDisposed sn).
    2:{ destruct (kernelConnectionMetadata w) as [m|] eqn:Hm;
          rewrite ?(Hneq m eq_refl), ?andb_false_r; rewrite Hstart; exact Hgoal. }
    unfold bind at 1. rewrite Hcreate.
    unfold bind at 1. cbn [get]. rewrite Ho.
    unfold bind at 1. unfold bind at 1.
    rewrite shutdownSession_ignoreErrors_run.
    unfold begun. rewrite Hso, Hko.
    set (w2 := set_pending _ _).
    set (tail := match restartSessionPromise w1 with
                 | Some (resolved standby) => [ThenShutdownRestartSession standby]
                 | _ => []
                 end).
    assert (Hspawn :
      match restartSessionPromise w1 with
      | Some (resolved restartSession) => spawn (ThenShutdownRestartSession restartSession)
      | _ => ret tt
      end w2 = (Ok tt, set_pending (pending w2 ++ tail) w2)).
    { subst tail. destruct (restartSessionPromise w1) as [[q| |]|];
        cbn [spawn modify ret]; rewrite ?app_nil_r; try reflexivity;
        subst w2; reflexivity. }
    rewrite Hspawn.
    unfold bind at 1. cbn [modify]. unfold bind at 1.
    set (w3 := set_kernelConnectionMetadata _ _).
    rewrite (setSession_Some_run w3 n sn kn).
    2:{ subst w3 w2. wfields. rewrite Ho. congruence. }
    2:{ subst w3 w2. wfields. rewrite lookup_insert_ne by congruence. exact Hsn. }
    2:{ exact Hkn. }
    unfold bind at 1. cbn [get]. unfold swappedIn at 1. wfields.
    unfold update, modify. unfold swappedIn. subst w3 w2. wfields. rewrite Ho.
    eexists _, _, _. split; [reflexivity|]. wfields.
    split; [reflexivity|]. split; [reflexivity|]. split; [reflexivity|].
    split. { rewrite <- !(assoc_L (++)). reflexivity. }
    split. { rewrite <- !(assoc_L (++)). reflexivity. }
    split.
    { rewrite !lookup_alter_ne by exact Hne. rewrite lookup_alter_eq, lookup_insert_eq.
      reflexivity. }
    split. { cbn. apply not_elem_of_disconnect. }
    split. { cbn. apply not_elem_of_disconnect. }
    split.
    { rewrite !lookup_alter_eq. rewrite lookup_alter_ne by congruence.
      rewrite lookup_insert_ne by congruence. rewrite Hsn. reflexivity. }
    split. { cbn. apply elem_of_connect. }
    split. { cbn. apply elem_of_connect. }
    reflexivity.
Qed.


(** The world a completed [shutdown] leaves when there was an active
    session. *)
Lemma shutdown_active_run (w : World) (r : SessionRef) :
  _session w = Some r → restartSessionPromise w ≠ Some never →
  let w' := tornDown getResourceType (Some r) (Some statusHandler) (Some false) w in
  let w'' := tornDown getResourceType (awaitedStandby (restartSessionPromise w)) None
               (Some true) w' in
  shutdown getResourceType w
  = (Ok tt, match onStatusChangedEvent w with
            | Some _ =>
                set_effects
                  (effects (swappedOut w'') ++ [StatusChangedEmitterDispose])
                  (set_onStatusChangedEvent (Some {| emitterDisposed := true |})
                     (set_restartSessionPromise None (swappedOut w'')))
            | None => set_restartSessionPromise None (swappedOut w'')
            end).
Proof.
  intros Hr Hp w' w''.
  assert (He'' : onStatusChangedEvent w'' = onStatusChangedEvent w).
  { unfold w''. destruct (fields_tornDown getResourceType
                            (awaitedStandby (restartSessionPromise w))
                            None (Some true) w') as (_ & _ & -> & _).
    unfold w'. apply fields_tornDown. }
  unfold shutdown. run. rewrite Hr. unfold try_catch. run.
  rewrite shutdownSession_run. fold w'.
  destruct (fields_tornDown getResourceType (Some r) (Some statusHandler) (Some false) w)
    as (Hs' & Hp' & He' & _). fold w' in Hs', Hp', He'.
  rewrite Hp'. clear Hp'. revert Hp.
  generalize dependent (restartSessionPromise w). intros p w'' He'' Hp.
  destruct p as [[q|e|]|]; [| | congruence |]; run.
  - rewrite shutdownSession_run.
    change (tornDown getResourceType q None (Some true) w') with w''.
    rewrite setSession_None_run. run. wfields.
    rewrite onStatusChangedEvent_swappedOut, He''.
    destruct (onStatusChangedEvent w); reflexivity.
  - change (tornDown getResourceType None None (Some true) w') with w' in w''. subst w''.
    rewrite setSession_None_run. run. wfields.
    rewrite onStatusChangedEvent_swappedOut, He'.
    destruct (onStatusChangedEvent w); reflexivity.
  - change (tornDown getResourceType None None (Some true) w') with w' in w''. subst w''.
    rewrite setSession_None_run. run. wfields.
    rewrite onStatusChangedEvent_swappedOut, He'.
    destruct (onStatusChangedEvent w); reflexivity.
Qed.

(** X6.  A [shutdown] of a session object with an active
    session completes whenever the standby promise settles, also when it is
    rejected.  Afterwards the handle that was active is disposed and has
    lost the status and io-pub handlers of the session object, a standby
    handle that had been resolved is disposed as well, the status emitter is
    disposed, the object reports [NotStarted], and a request made on it is
    refused with the session-disposed error. *)
Theorem shutdown_leaves_nothing_running (w : World) (r : SessionRef) (s : ISession.t) :
  _session w = Some r → heap w !! r = Some s → defined (ISession.kernel s) = true →
  restartSessionPromise w ≠ Some never →
  ∃ w1 s1,
    shutdown getResourceType w = (Ok tt, w1)
    ∧ _session w1 = None
    ∧ getServerStatus w1 = Ok ServerStatus.NotStarted
    ∧ heap w1 !! r = Some s1
    ∧ ISession.isDisposed s1 = true
    ∧ (statusHandler ∉ ISession.statusChanged s1)
    ∧ (ioPubHandler ∉ ISession.iopubMessage s1)
    ∧ (∀ q sq, restartSessionPromise w = Some (resolved (Some q)) → q ≠ r →
         heap w !! q = Some sq → defined (ISession.kernel sq) = true →
         ∃ sq1, heap w1 !! q = Some sq1 ∧ ISession.isDisposed sq1 = true)
    ∧ (onStatusChangedEvent w ≠ None →
       onStatusChangedEvent w1 = Some {| emitterDisposed := true |})
    ∧ (∀ content, requestExecute sessionDisposed content w1
                  = (Throw (Error sessionDisposed), w1)).
Proof.
  intros Hr Hs Hk Hp.
  pose proof (shutdown_active_run w r Hr Hp) as Hrun. cbv zeta in Hrun.
  set (w' := tornDown getResourceType (Some r) (Some statusHandler) (Some false) w) in *.
  set (w'' := tornDown getResourceType (awaitedStandby (restartSessionPromise w)) None
                (Some true) w') in *.
  assert (Hw' : heap w' = <[r := ISession.set_isDisposed true
                                   (unhook (Some statusHandler) s)]> (heap w)).
  { subst w'. unfold tornDown. rewrite Hs, Hk. reflexivity. }
  assert (Hse' : _session w' = Some r).
  { subst w'. unfold tornDown. rewrite Hs, Hk. wfields. exact Hr. }
  (* the handle that was active, after the standby was torn down *)
  assert (Hr'' : ∃ s2, heap w'' !! r = Some s2 ∧ ISession.isDisposed s2 = true
                       ∧ statusHandler ∉ ISession.statusChanged s2).
  { subst w''. unfold tornDown.
    destruct (awaitedStandby (restartSessionPromise w)) as [q|].
    2:{ rewrite Hw', lookup_insert_eq. eexists. split; [reflexivity|].
        split; [reflexivity|]. cbn. apply not_elem_of_disconnect. }
    destruct (heap w' !! q) as [sq|] eqn:Hq.
    2:{ rewrite Hw', lookup_insert_eq. eexists. split; [reflexivity|].
        split; [reflexivity|]. cbn. apply not_elem_of_disconnect. }
    destruct (defined (ISession.kernel sq)).
    2:{ rewrite Hw', lookup_insert_eq. eexists. split; [reflexivity|].
        split; [reflexivity|]. cbn. apply not_elem_of_disconnect. }
    wfields. destruct (decide (q = r)) as [->|Hne].
    - rewrite lookup_insert_eq. rewrite Hw', lookup_insert_eq in Hq.
      injection Hq as <-. eexists. split; [reflexivity|]. split; [reflexivity|].
      cbn. apply not_elem_of_disconnect.
    - rewrite lookup_insert_ne by exact Hne. rewrite Hw', lookup_insert_eq.
      eexists. split; [reflexivity|]. split; [reflexivity|].
      cbn. apply not_elem_of_disconnect. }
  assert (Hse'' : _session w'' = Some r).
  { subst w''. destruct (fields_tornDown getResourceType
                           (awaitedStandby (restartSessionPromise w)) None (Some true) w')
      as (-> & _). exact Hse'. }
  destruct Hr'' as (s2 & Hs2 & Hd2 & Hn2).
  set (s1 := ISession.set_iopubMessage (disconnect ioPubHandler (ISession.iopubMessage s2)) s2).
  assert (Hh1 : heap (swappedOut w'') !! r = Some s1).
  { unfold swappedOut. wfields. rewrite Hse'', lookup_alter_eq, Hs2. reflexivity. }
  assert (Hq1 : ∀ q sq, restartSessionPromise w = Some (resolved (Some q)) → q ≠ r →
            heap w !! q = Some sq → defined (ISession.kernel sq) = true →
            ∃ sq1, heap (swappedOut w'') !! q = Some sq1 ∧ ISession.isDisposed sq1 = true).
  { intros q sq Hpq Hne Hq Hkq. unfold swappedOut. wfields.
    rewrite Hse'', lookup_alter_ne by congruence.
    subst w''. rewrite Hpq. cbn [awaitedStandby]. unfold tornDown.
    rewrite Hw', lookup_insert_ne, Hq, Hkq by congruence. wfields.
    rewrite lookup_insert_eq. eexists. split; reflexivity. }
  assert (Hfin : ∀ w1, _session w1 = None → heap w1 = heap (swappedOut w'') →
            getServerStatus w1 = Ok ServerStatus.NotStarted
            ∧ heap w1 !! r = Some s1
            ∧ (∀ q sq, restartSessionPromise w = Some (resolved (Some q)) → q ≠ r →
                 heap w !! q = Some sq → defined (ISession.kernel sq) = true →
                 ∃ sq1, heap w1 !! q = Some sq1 ∧ ISession.isDisposed sq1 = true)
            ∧ (∀ content, requestExecute sessionDisposed content w1
                          = (Throw (Error sessionDisposed), w1))).
  { intros w1 Hnone Hheap. split; [|split; [|split]].
    - unfold getServerStatus. rewrite Hnone. reflexivity.
    - rewrite Hheap. exact Hh1.
    - intros q sq H1 H2 H3 H4. rewrite Hheap. exact (Hq1 q sq H1 H2 H3 H4).
    - intros content. unfold requestExecute, activeKernel. cbn [bind get].
      rewrite Hnone. reflexivity. }
  rewrite Hrun. destruct (onStatusChangedEvent w) as [em|] eqn:Hem.
  - eexists _, s1. split; [reflexivity|].
    edestruct Hfin as (H1 & H2 & H3 & H4); [| |split; [|split; [exact H1|split; [exact H2|]]]];
      try reflexivity.
    split; [exact Hd2|]. split; [exact Hn2|]. split; [cbn; apply not_elem_of_disconnect|].
    split; [exact H3|]. split; [intros _; reflexivity|exact H4].
  - eexists _, s1. split; [reflexivity|].
    edestruct Hfin as (H1 & H2 & H3 & H4); [| |split; [|split; [exact H1|split; [exact H2|]]]];
      try reflexivity.
    split; [exact Hd2|]. split; [exact Hn2|]. split; [cbn; apply not_elem_of_disconnect|].
    split; [exact H3|]. split; [intros Hc; congruence|exact H4].
Qed.

(** X7.  [interrupt] on an active session with a kernel connects
    the status handler (once: a handler that is connected already is not
    connected again), sends one interrupt request and waits for it no longer
    than the timeout.  It throws only what the request is rejected with; a
    request that is not answered in time makes it return normally, and
    [JupyterKernelPromiseFailedError] is thrown only for a rejection with a
    falsy reason. *)
Theorem interrupt_is_silent_on_timeout (w : World) (r : SessionRef) (s : ISession.t)
    (timeout : Z) :
  _session w = Some r → heap w !! r = Some s → defined (ISession.kernel s) = true →
  ∃ w' s',
    interrupt interruptingKernelFailed timeout w
    = (match ISession.interruptReply s with
       | Resolves | NeverSettles => Ok tt
       | Rejects FalsyReason =>
           Throw (JupyterKernelPromiseFailedError interruptingKernelFailed)
       | Rejects e => Throw e
       end, w')
    ∧ effects w' = effects w ++ [KernelInterrupt r]
    ∧ pending w' = pending w
    ∧ heap w' !! r = Some s'
    ∧ statusHandler ∈ ISession.statusChanged s'
    ∧ (statusHandler ∈ ISession.statusChanged s →
       ISession.statusChanged s' = ISession.statusChanged s)
    ∧ ISession.isDisposed s' = ISession.isDisposed s.
Proof.
  intros Hr Hs Hk. unfold interrupt, activeKernel. cbn [bind get].
  rewrite Hr. cbn [deref mbind option_bind]. rewrite Hs. cbn [mbind option_bind].
  destruct (ISession.kernel s) as [k|] eqn:Hks; [|discriminate]. cbn [defined].
  unfold bind, update, modify, emit. wfields.
  unfold waitForKernelPromise, try_catch, waitForPromise.
  eexists _, _.
  split.
  { destruct (ISession.interruptReply s) as [|[]|]; cbn [ret throw]; reflexivity. }
  wfields. split; [reflexivity|]. split; [reflexivity|].
  split; [rewrite lookup_alter_eq, Hs; reflexivity|].
  split; [cbn; apply elem_of_connect|].
  split; [|reflexivity].
  intros Hin. cbn. unfold connect. rewrite decide_True by exact Hin. reflexivity.
Qed.

End MoreSessionProperties.

(** * Further properties of the connection retry loop *)

Section RetryLoopProperties.

Set Default Proof Using "Type".

Variable kernelConnectionMetadataHasKernelSpec : KernelConnectionMetadata.t → bool.
Variable jupyterNotebookRemoteConnectFailed : string.
Variable jupyterNotebookConnectFailed : string.
Variable format : string → list FormatArg → string.
Variable options : INotebookServerOptions.
Variable maxTries : Z.

Local Abbreviation onError_ :=
  (onError jupyterNotebookRemoteConnectFailed jupyterNotebookConnectFailed format
           options maxTries).
Local Abbreviation tryBlock_ := (tryBlock kernelConnectionMetadataHasKernelSpec options).
Local Abbreviation retryLoop_ :=
  (retryLoop kernelConnectionMetadataHasKernelSpec jupyterNotebookRemoteConnectFailed
             jupyterNotebookConnectFailed format options maxTries).
Local Abbreviation connectToNotebookServer_ :=
  (connectToNotebookServer kernelConnectionMetadataHasKernelSpec
     jupyterNotebookRemoteConnectFailed jupyterNotebookConnectFailed format options
     maxTries).
Local Abbreviation translate_ :=
  (translate jupyterNotebookRemoteConnectFailed jupyterNotebookConnectFailed format options).

(** A property of the loop states carried from pass to pass: [I] holds when
    the guard of the [while] is tested, [J] after the [try] block, [F] when
    the method is left. *)
Lemma retryLoop_invariant (I J F : LoopState → Prop) connector :
  (∀ a st, I st → (tryCount st ≤ maxTries)%Z → disposed st = false →
           J (snd (tryBlock_ a st)))
  → (∀ a st server, I st → (tryCount st ≤ maxTries)%Z → disposed st = false →
       fst (tryBlock_ a st) = inr server → F (snd (tryBlock_ a st)))
  → (∀ err st, J st → match onError_ err st with
                      | Continue st' => I st'
                      | Return _ st' | Raise _ st' => F st'
                      end)
  → (∀ st, I st → ((maxTries < tryCount st)%Z ∨ disposed st = true) →
       ∀ st', finalState (startTimedOut options st) = Some st' → F st')
  → ∀ fuel st, I st →
      ∀ st', finalState (retryLoop_ fuel connector st) = Some st' → F st'.
Proof.
  intros Htry Hok Hcatch Hout. induction fuel as [|fuel IH]; intros st HI st' Hfin.
  { discriminate. }
  cbn [retryLoop] in Hfin.
  destruct ((tryCount st <=? maxTries)%Z && negb (disposed st)) eqn:Hcond.
  - apply andb_true_iff in Hcond as [Hle Hd]. apply Z.leb_le in Hle.
    apply negb_true_iff in Hd.
    unfold attempt in Hfin.
    specialize (Htry (connector (tryCount st)) st HI Hle Hd).
    specialize (Hok (connector (tryCount st)) st).
    destruct (tryBlock_ (connector (tryCount st)) st) as [[err|server] st1].
    + cbn [snd] in Htry. specialize (Hcatch err st1 Htry).
      destruct (onError_ err st1) as [st2|o st2|e st2].
      * exact (IH st2 Hcatch st' Hfin).
      * cbn in Hfin. injection Hfin as <-. exact Hcatch.
      * cbn in Hfin. injection Hfin as <-. exact Hcatch.
    + cbn in Hfin. injection Hfin as <-. exact (Hok server HI Hle Hd eq_refl).
  - apply (Hout st HI); [|exact Hfin].
    apply andb_false_iff in Hcond as [Hle|Hd].
    + left. apply Z.leb_gt in Hle. exact Hle.
    + right. apply negb_false_iff in Hd. exact Hd.
Qed.


Ltac loopstate :=
  cbn [record tryCount result connection disposed servers events fst snd].

(** What one [try] block adds to the history: one call of the connector,
    at the current [tryCount], and nothing the options forbid. *)
Lemma tryBlock_added a st :
  tryCount (snd (tryBlock_ a st)) = tryCount st
  ∧ ∃ l, events (snd (tryBlock_ a st)) = events st ++ StartOrConnect (tryCount st) :: l
       ∧ starts l = []
       ∧ Forall (λ e, respectsOptions options e = true) l.
Proof.
  unfold tryBlock.
  destruct (startOrConnect a) as [err|[c m]]; loopstate.
  { split; [reflexivity|]. exists []. repeat split. constructor. }
  destruct (negb (localLaunch c) && bool_decide (toLowerCase (hostName c) ∈ LocalHosts));
    destruct (negb match m with
                   | Some m' => kernelConnectionMetadataHasKernelSpec m'
                   | None => false
                   end) eqn:Hspec;
    destruct (skipSearchingForKernel options) eqn:Hskip; cbn [negb andb]; loopstate;
    try destruct (findKernel a) as [err|m'']; loopstate;
    try (split; [reflexivity|]; eexists; rewrite <- ?(assoc_L (++)); cbn [app];
         split; [reflexivity|]; split; [reflexivity|];
         repeat constructor; cbn [respectsOptions]; rewrite ?Hskip; reflexivity);
    destruct (defined (kernelConnection options)) eqn:Hkc; loopstate;
    destruct (serverConnect a) as [ex|]; loopstate;
    try destruct (bool_decide (errorClass ex = IsJupyterSessionStartError)
                  && isLocalConnection options && allowUI options) eqn:Hask; loopstate;
    try (apply andb_true_iff in Hask as [Hask Hui]; apply andb_true_iff in Hask as [_ Hloc]);
    destruct (isLocalConnection options) eqn:Hlocal;
    (split; [reflexivity|]; eexists; rewrite <- ?(assoc_L (++)); cbn [app];
     split; [reflexivity|]; split; [reflexivity|];
     repeat constructor; cbn [respectsOptions];
     rewrite ?Hskip, ?Hkc, ?Hlocal, ?Hui; try reflexivity; try discriminate).
Qed.

(** What the [catch] block adds: no call of the connector, nothing the
    options forbid; a retry needs [tryCount < maxTries] and adds one. *)
Lemma onError_added err st :
  match onError_ err st with
  | Continue st' =>
      (tryCount st < maxTries)%Z ∧ tryCount st' = (tryCount st + 1)%Z
      ∧ ∃ l, events st' = events st ++ l ∧ starts l = []
           ∧ Forall (λ e, respectsOptions options e = true) l
  | Return _ st' | Raise _ st' =>
      tryCount st' = tryCount st
      ∧ ∃ l, events st' = events st ++ l ∧ starts l = []
           ∧ Forall (λ e, respectsOptions options e = true) l
  end.
Proof.
  unfold onError.
  destruct (result st) as [server|]; loopstate;
    destruct (bool_decide (errorClass err = IsJupyterWaitForIdleError)); cbn [andb];
    try destruct (tryCount st <? maxTries)%Z eqn:Hlt;
    try (apply Z.ltb_lt in Hlt);
    destruct (connection st) as [c|]; loopstate;
    try destruct (disposed st); try destruct (isLocalConnection options) eqn:Hlocal;
    cbn [negb];
    try destruct (includes "reason: self signed certificate" (errorMessage err));
    loopstate;
    repeat match goal with
           | |- _ ∧ _ => split
           | |- (_ < _)%Z => assumption
           | |- _ = _ => reflexivity
           end;
    eexists; rewrite <- ?(assoc_L (++)); cbn [app];
    (split; [try reflexivity; symmetry; apply app_nil_r|]); (split; [reflexivity|]);
    repeat constructor; cbn [respectsOptions]; rewrite ?Hlocal; reflexivity.
Qed.

Lemma startTimedOut_added st :
  ∃ st' l, startTimedOut options st = Returned None st'
         ∧ events st' = events st ++ l ∧ starts l = []
         ∧ Forall (λ e, respectsOptions options e = true) l
         ∧ l = match connection st with
               | Some c => [ConnectionDispose (connectionId c)]
               | None => []
               end
               ++ SendTelemetryEvent JupyterStartTimeout
               :: (if allowUI options then [ShowStartTimedOut] else []).
Proof.
  unfold startTimedOut.
  destruct (connection st) as [c|]; destruct (allowUI options) eqn:Hui; loopstate;
    do 2 eexists; (split; [reflexivity|]); loopstate;
    rewrite <- ?(assoc_L (++)); cbn [app];
    (split; [reflexivity|]); (split; [reflexivity|]);
    (split; [|reflexivity]);
    repeat constructor; cbn [respectsOptions]; rewrite ?Hui; reflexivity.
Qed.



(** X9.  In every run, whatever the collaborators do: with
    [allowUI() = false] nothing is shown to the user (no kernel picker, no
    time-out message); the kernel picker is never opened for a remote
    connection; under [skipSearchingForKernel] the remote kernel finder is
    never consulted; and when the caller gave a kernel connection, no kernel
    resource information is tracked. *)
Theorem loop_respects_options (connector : Z → Attempt) (isDisposed : bool)
    (st : LoopState) :
  finalState (connectToNotebookServer_ connector isDisposed) = Some st →
  (allowUI options = false → Forall (λ e, prompts e = false) (events st))
  ∧ (isLocalConnection options = false → AskForLocalKernel ∉ events st)
  ∧ (skipSearchingForKernel options = true → RemoteFindKernel ∉ events st)
  ∧ (defined (kernelConnection options) = true →
     ∀ m, TrackResourceInformation m ∉ events st).
Proof.
  intros Hfin.
  set (I := λ st : LoopState, Forall (λ e, respectsOptions options e = true) (events st)).
  assert (HF : I st).
  { refine (retryLoop_invariant I I I connector _ _ _ _ _ (initialState isDisposed) _ st Hfin).
    - intros a s Hs _ _. destruct (tryBlock_added a s) as (_ & l & He & _ & Hl).
      unfold I. rewrite He. apply Forall_app. split; [exact Hs|].
      constructor; [reflexivity|exact Hl].
    - intros a s server Hs _ _ _. destruct (tryBlock_added a s) as (_ & l & He & _ & Hl).
      unfold I. rewrite He. apply Forall_app. split; [exact Hs|].
      constructor; [reflexivity|exact Hl].
    - intros err s Hs. pose proof (onError_added err s) as H.
      destruct (onError_ err s) as [s'|o s'|e s'].
      + destruct H as (_ & _ & l & He & _ & Hl). unfold I. rewrite He.
        apply Forall_app. split; assumption.
      + destruct H as (_ & l & He & _ & Hl). unfold I. rewrite He.
        apply Forall_app. split; assumption.
      + destruct H as (_ & l & He & _ & Hl). unfold I. rewrite He.
        apply Forall_app. split; assumption.
    - intros s Hs _ s' Hs'.
      destruct (startTimedOut_added s) as (s'' & l & Heq & He & _ & Hl & _).
      rewrite Heq in Hs'. cbn in Hs'. injection Hs' as <-.
      unfold I. rewrite He. apply Forall_app. split; assumption.
    - constructor. }
  unfold I in HF. rewrite Forall_forall in HF.
  repeat split.
  - intros Hui. apply Forall_forall. intros e He. specialize (HF e He).
    destruct e; try reflexivity; cbn [respectsOptions] in HF; rewrite Hui in HF;
      discriminate.
  - intros Hloc Hin. specialize (HF _ Hin). cbn [respectsOptions] in HF.
    rewrite Hloc, andb_false_r in HF. discriminate.
  - intros Hskip Hin. specialize (HF _ Hin). cbn [respectsOptions] in HF.
    rewrite Hskip in HF. discriminate.
  - intros Hkc m Hin. specialize (HF _ Hin). cbn [respectsOptions] in HF.
    rewrite Hkc in HF. discriminate.
Qed.

(** X10.  On an orchestrator that is already disposed, or with a
    retry setting below one, [connectToNotebookServer] does not call the
    connector at all: it returns [undefined] after sending the start-time-out
    telemetry and, when the UI is allowed, showing the time-out message. *)
Theorem no_attempt_when_disposed_or_without_tries (connector : Z → Attempt)
    (isDisposed : bool) :
  isDisposed = true ∨ (maxTries < 1)%Z →
  ∃ st, connectToNotebookServer_ connector isDisposed = Returned None st
      ∧ events st = SendTelemetryEvent JupyterStartTimeout
                    :: (if allowUI options then [ShowStartTimedOut] else []).
Proof.
  intros H. unfold connectToNotebookServer. cbn [retryLoop].
  assert (Hc : ((tryCount (initialState isDisposed) <=? maxTries)%Z
                && negb (disposed (initialState isDisposed))) = false).
  { cbn [initialState tryCount disposed]. destruct H as [->|Hlt].
    - apply andb_false_r.
    - apply andb_false_iff. left. apply Z.leb_gt. lia. }
  rewrite Hc.
  destruct (startTimedOut_added (initialState isDisposed)) as (st & l & Heq & He & _ & _ & Hl).
  exists st. split; [exact Heq|]. rewrite He, Hl. reflexivity.
Qed.

Lemma flat_map_seqZ_cons {A} (f : Z → list A) (n len : Z) :
  (0 < len)%Z → flat_map f (seqZ n len) = f n ++ flat_map f (seqZ (n + 1) (len - 1)).
Proof.
  intros Hlen. rewrite (seqZ_cons n len) by lia. cbn [flat_map].
  replace (Z.succ n) with (n + 1)%Z by lia.
  replace (Z.pred len) with (len - 1)%Z by lia. reflexivity.
Qed.

(** The passes from [n] on all time out waiting for idle. *)
Lemma timed_out_passes connector (c : Z → IJupyterConnection) :
  (∀ n, (1 ≤ n ≤ maxTries)%Z → idleTimeout (connector n) (c n)) →
  ∀ (k : nat) (n : Z) (st : LoopState) (fuel : nat),
    Z.to_nat (maxTries - n) = k → (1 ≤ n ≤ maxTries)%Z →
    tryCount st = n → servers st = Z.to_nat (n - 1) → disposed st = false →
    (k < fuel)%nat →
    ∃ st' err,
      serverConnect (connector maxTries) = Some err
      ∧ retryLoop_ fuel connector st = Threw (translate_ (c maxTries) err) st'
      ∧ lifecycle (events st')
        = lifecycle (events st)
          ++ flat_map (timedOutPass maxTries c) (seqZ n (maxTries - n + 1)).
Proof.
  intros Hall. induction k as [|k IH]; intros n st fuel Hk Hn Htc Hsv Hd Hfuel.
  - (* the last pass *)
    assert (n = maxTries) as -> by lia.
    destruct fuel as [|fuel]; [lia|].
    rewrite retryLoop_step by (rewrite ?Htc; lia || assumption).
    destruct (Hall maxTries Hn) as (m & m' & err & Hs & Hf & Hc & He & Hdm).
    destruct (tryBlock_connect_fails kernelConnectionMetadataHasKernelSpec options
                (connector (tryCount st)) st (c maxTries) m m' err)
      as (st1 & Ht1 & Htc1 & Hr1 & Hcn1 & Hdp1 & Hsv1 & Hl1);
      try (rewrite Htc; assumption).
    rewrite Ht1. rewrite Htc in Hdp1.
    destruct (onError_not_retried jupyterNotebookRemoteConnectFailed
                jupyterNotebookConnectFailed format options maxTries err st1)
      as (st2 & Hl2 & Hon).
    { apply andb_false_iff. right. apply Z.ltb_ge. lia. }
    rewrite Hon, Hcn1, Hdp1, Hd, Hdm. cbn [orb].
    exists st2, err. split; [exact Hc|]. split; [reflexivity|].
    rewrite Hl2, Hl1, Hr1, <- (assoc_L (++)). f_equal.
    replace (maxTries - maxTries + 1)%Z with 1%Z by lia.
    rewrite seqZ_cons, seqZ_nil by lia. cbn [flat_map]. rewrite app_nil_r.
    unfold timedOutPass. rewrite Z.ltb_irrefl, app_nil_r, Htc, Hsv.
    replace (S (Z.to_nat (maxTries - 1))) with (Z.to_nat maxTries) by lia.
    reflexivity.
  - (* a pass that is retried *)
    assert (Hlt : (n < maxTries)%Z) by lia.
    destruct fuel as [|fuel]; [lia|].
    rewrite retryLoop_step by (rewrite ?Htc; lia || assumption).
    destruct (Hall n Hn) as (m & m' & err & Hs & Hf & Hc & He & Hdm).
    destruct (tryBlock_connect_fails kernelConnectionMetadataHasKernelSpec options
                (connector (tryCount st)) st (c n) m m' err)
      as (st1 & Ht1 & Htc1 & Hr1 & Hcn1 & Hdp1 & Hsv1 & Hl1);
      try (rewrite Htc; assumption).
    rewrite Ht1. rewrite Htc in Hdp1.
    rewrite onError_retried by (assumption || (rewrite Htc1, Htc; exact Hlt)).
    destruct (IH (n + 1)%Z (retried st1) fuel) as (st' & err' & Hc' & Hrun & Hl');
      try lia.
    { unfold retried. loopstate. lia. }
    { unfold retried. loopstate. rewrite Hsv1, Hsv. lia. }
    { unfold retried. loopstate. rewrite Hdp1, Hd, Hdm. reflexivity. }
    exists st', err'. split; [exact Hc'|]. split; [exact Hrun|].
    rewrite Hl'. unfold retried at 1. loopstate.
    rewrite lifecycle_app, Hl1, <- !(assoc_L (++)). f_equal.
    rewrite (flat_map_seqZ_cons _ n) by lia.
    replace (maxTries - n + 1 - 1)%Z with (maxTries - (n + 1) + 1)%Z by lia.
    rewrite (assoc_L (++)). f_equal.
    unfold timedOutPass, cleanup. rewrite Hr1, Hcn1.
    apply Z.ltb_lt in Hlt. rewrite Hlt, Htc, Hsv.
    replace (S (Z.to_nat (n - 1))) with (Z.to_nat n) by lia.
    reflexivity.
Qed.

(** X11.  When every pass obtains a connection and then times out
    waiting for idle, the pass number [maxTries] is not retried and does not
    end in the start-time-out report either: its failure is translated and
    thrown like any other connect failure.  The connector has been called
    exactly [maxTries] times; every pass created one server object and
    disposed it, and every pass but the last disposed its connection. *)
Theorem every_pass_times_out (connector : Z → Attempt) (c : Z → IJupyterConnection) :
  (1 ≤ maxTries)%Z →
  (∀ n, (1 ≤ n ≤ maxTries)%Z → idleTimeout (connector n) (c n)) →
  ∃ st err,
    serverConnect (connector maxTries) = Some err
    ∧ errorClass err = IsJupyterWaitForIdleError
    ∧ connectToNotebookServer_ connector false = Threw (translate_ (c maxTries) err) st
    ∧ lifecycle (events st) = flat_map (timedOutPass maxTries c) (seqZ 1 maxTries).
Proof.
  intros Hmax Hall.
  destruct (timed_out_passes connector c Hall (Z.to_nat (maxTries - 1)) 1
              (initialState false) (S (Z.to_nat maxTries)))
    as (st & err & Hc & Hrun & Hl); try reflexivity; try lia.
  exists st, err. split; [exact Hc|]. split.
  - destruct (Hall maxTries) as (m & m' & err' & _ & _ & Hc' & He & _); [lia|].
    rewrite Hc in Hc'. injection Hc' as ->. exact He.
  - split; [exact Hrun|]. rewrite Hl. cbn [initialState events lifecycle app].
    f_equal. f_equal. lia.
Qed.

(** X12.  [result] and [connection] are declared outside the loop and
    keep the values of an earlier pass.  When the first pass obtains a
    connection and times out waiting for idle and the second pass fails
    before it obtains one (and is not retried), the server object of the
    first pass is disposed a second time, and the failure is not rethrown as
    it is: it is translated with the connection of the first pass. *)
Theorem later_failure_reuses_earlier_handles (connector : Z → Attempt)
    (c1 : IJupyterConnection) (err : CaughtError) :
  (2 ≤ maxTries)%Z →
  idleTimeout (connector 1%Z) c1 →
  startOrConnect (connector 2%Z) = inl err →
  disposedMeanwhile (connector 2%Z) = false →
  (errorClass err = IsJupyterWaitForIdleError → maxTries = 2%Z) →
  ∃ st, connectToNotebookServer_ connector false = Threw (translate_ c1 err) st
      ∧ lifecycle (events st)
        = [StartOrConnect 1; ServerCreated 1; ServerDispose 1;
           ConnectionDispose (connectionId c1);
           StartOrConnect 2; ServerDispose 1].
Proof.
  intros Hmax (m1 & m1' & e1 & Hs1 & Hf1 & Hc1 & He1 & Hd1) Hs2 Hd2 Hcls.
  unfold connectToNotebookServer.
  destruct (Z.to_nat maxTries) as [|fuel] eqn:Hfuel; [lia|].
  rewrite retryLoop_step by (cbn; lia || reflexivity).
  destruct (tryBlock_connect_fails kernelConnectionMetadataHasKernelSpec options
              (connector 1%Z) (initialState false) c1 m1 m1' e1 Hs1 Hf1 Hc1)
    as (st1 & Ht1 & Htc1 & Hr1 & Hcn1 & Hdp1 & Hsv1 & Hl1).
  change (tryCount (initialState false)) with 1%Z. rewrite Ht1.
  rewrite onError_retried by (assumption || (rewrite Htc1; cbn; lia)).
  assert (Hd1' : disposed st1 = false) by (rewrite Hdp1, Hd1; reflexivity).
  destruct fuel as [|fuel]; [lia|].
  rewrite retryLoop_step by (unfold retried; loopstate; rewrite ?Htc1; cbn; lia || assumption).
  change (tryCount (retried st1)) with (tryCount st1 + 1)%Z. rewrite Htc1.
  change (tryCount (initialState false) + 1)%Z with 2%Z.
  unfold tryBlock at 1. rewrite Hs2, Hd2.
  set (st2 := mkLoop _ _ _ _ _ _).
  destruct (onError_not_retried jupyterNotebookRemoteConnectFailed
              jupyterNotebookConnectFailed format options maxTries err st2)
    as (st3 & Hl3 & Hon).
  { destruct (decide (errorClass err = IsJupyterWaitForIdleError)) as [Hw|Hw].
    - apply andb_false_iff. right. apply Z.ltb_ge. subst st2. unfold retried. loopstate.
      rewrite Htc1, (Hcls Hw). cbn. lia.
    - rewrite bool_decide_eq_false_2 by exact Hw. reflexivity. }
  rewrite Hon. subst st2. unfold retried in *. loopstate.
  cbn [record tryCount result connection disposed servers events] in Hl3.
  rewrite Hcn1, orb_false_r, Hd1'.
  exists st3. split; [reflexivity|].
  rewrite Hl3. rewrite Hr1. rewrite !lifecycle_app, Hl1. unfold cleanup.
  rewrite ?Hr1, ?Hcn1, ?Htc1, ?Hsv1. reflexivity.
Qed.

End RetryLoopProperties.

(** * Frames of method bodies *)

Section Frames.

Context {S B : Type} (f : S → B).

Lemma preserves_pret {A} (a : A) : preserves f (pret a).
Proof. intros s. reflexivity. Qed.

Lemma preserves_pthrow {A} e : preserves f (pthrow (A := A) e).
Proof. intros s. reflexivity. Qed.

Lemma preserves_pget : preserves f pget.
Proof. intros s. reflexivity. Qed.

Lemma preserves_pbind {A C} (m : Prog S A) (k : A → Prog S C) :
  preserves f m → (∀ a, preserves f (k a)) → preserves f (pbind m k).
Proof.
  intros Hm Hk s. unfold pbind. specialize (Hm s).
  destruct (m s) as [[a|e|] s1]; cbn [snd] in *; [|exact Hm|exact Hm].
  rewrite (Hk a s1). exact Hm.
Qed.

Lemma preserves_ptry {A} (m : Prog S A) (h : JsError → Prog S A) :
  preserves f m → (∀ e, preserves f (h e)) → preserves f (ptry m h).
Proof.
  intros Hm Hh s. unfold ptry. specialize (Hm s).
  destruct (m s) as [[a|e|] s1]; cbn [snd] in *; [exact Hm| |exact Hm].
  rewrite (Hh e s1). exact Hm.
Qed.

Lemma preserves_pignoreErrors {A} (m : Prog S A) :
  preserves f m → preserves f (pignoreErrors m).
Proof. intros Hm s. exact (Hm s). Qed.

Lemma preserves_pawait {A} (p : Promise A) : preserves f (pawait p).
Proof. intros s. destruct p; reflexivity. Qed.

Lemma preserves_pawaitReply reply : preserves f (pawaitReply reply).
Proof. intros s. destruct reply; reflexivity. Qed.

Lemma preserves_pawaitAll {A} (l : list (Promise A)) : preserves f (pawaitAll l).
Proof.
  intros s. unfold pawaitAll.
  destruct (firstRejection l); [reflexivity|]. destruct (allResolved l); reflexivity.
Qed.

Lemma preserves_pmodify (g : S → S) : (∀ s, f (g s) = f s) → preserves f (pmodify g).
Proof. intros Hg s. exact (Hg s). Qed.

(** A part of the state that the first step sets and the rest leaves
    alone. *)
Lemma establishes_pbind {A C} (m : Prog S A) (k : A → Prog S C) (v : B) (s : S) :
  f (snd (m s)) = v → (∀ a, preserves f (k a)) → f (snd (pbind m k s)) = v.
Proof.
  intros Hm Hk. unfold pbind.
  destruct (m s) as [[a|e|] s1]; cbn [snd] in *; [|exact Hm|exact Hm].
  rewrite (Hk a s1). exact Hm.
Qed.

Lemma establishes_ptry {A} (m : Prog S A) (h : JsError → Prog S A) (v : B) (s : S) :
  f (snd (m s)) = v → (∀ e, preserves f (h e)) → f (snd (ptry m h s)) = v.
Proof.
  intros Hm Hh. unfold ptry.
  destruct (m s) as [[a|e|] s1]; cbn [snd] in *; [exact Hm| |exact Hm].
  rewrite (Hh e s1). exact Hm.
Qed.

End Frames.

(** * Properties of the notebook server object *)

Section ServerProperties.

Import JupyterServerBase.

Ltac sfields :=
  cbn [launchInfo connectPromise connectionInfoDisconnectHandler serverExitCode
       notebooks sessionManager savedSession promises registrations disposeWrappers
       disposables log set_launchInfo set_connectPromise
       set_connectionInfoDisconnectHandler set_serverExitCode set_notebooks
       set_sessionManager set_savedSession set_promises set_registrations
       set_disposeWrappers set_disposables set_log fst snd].

Ltac prun :=
  repeat (cbn [pbind pret pget pmodify pthrow ptry pawait pawaitReply pignoreErrors
               JupyterServerBase.emit ofSum] in *; sfields;
          unfold pbind, pret, pget, pmodify, pthrow, JupyterServerBase.emit in *).

Lemma mapGet_mapSet_eq {V} key (v : V) m : mapGet key (mapSet key v m) = Some v.
Proof.
  induction m as [|[k v'] m IH]; cbn [mapSet mapGet].
  - rewrite String.eqb_refl. reflexivity.
  - destruct (String.eqb k key) eqn:Hk; cbn [mapGet]; rewrite Hk; [reflexivity|exact IH].
Qed.

Lemma mapGet_mapSet_ne {V} key key' (v : V) m :
  key ≠ key' → mapGet key' (mapSet key v m) = mapGet key' m.
Proof.
  intros Hne. induction m as [|[k v'] m IH]; cbn [mapSet mapGet].
  - replace (String.eqb key key') with false; [reflexivity|].
    symmetry. apply String.eqb_neq. exact Hne.
  - destruct (String.eqb k key) eqn:Hk; cbn [mapGet].
    + apply String.eqb_eq in Hk. subst k.
      replace (String.eqb key key') with false; [reflexivity|].
      symmetry. apply String.eqb_neq. exact Hne.
    + rewrite IH. reflexivity.
Qed.

Lemma mapDelete_cons {V} key k (v : V) m :
  mapDelete key ((k, v) :: m)
  = if String.eqb k key then mapDelete key m else (k, v) :: mapDelete key m.
Proof.
  unfold mapDelete. cbn [filter list_filter fst].
  destruct (String.eqb k key); reflexivity.
Qed.

Lemma mapGet_mapDelete_eq {V} key (m : list (string * V)) :
  mapGet key (mapDelete key m) = None.
Proof.
  induction m as [|[k v] m IH]; [reflexivity|].
  rewrite mapDelete_cons. destruct (String.eqb k key) eqn:Hk; [exact IH|].
  cbn [mapGet]. rewrite Hk. exact IH.
Qed.

Lemma mapGet_mapDelete_ne {V} key key' (m : list (string * V)) :
  key ≠ key' → mapGet key' (mapDelete key m) = mapGet key' m.
Proof.
  intros Hne. induction m as [|[k v] m IH]; [reflexivity|].
  rewrite mapDelete_cons. destruct (String.eqb k key) eqn:Hk.
  - apply String.eqb_eq in Hk. subst k.
    cbn [mapGet]. replace (String.eqb key key') with false; [exact IH|].
    symmetry. apply String.eqb_neq. exact Hne.
  - cbn [mapGet]. rewrite IH. reflexivity.
Qed.

Lemma disposeAll_run replies l :
  ∀ s, disposeAll replies l s
       = (Ok (map (λ n, replyPromise (notebookDispose replies n)) l),
          set_log (log s ++ map NotebookDispose l)
                  (set_notebooks (unregistered s l) s)).
Proof.
  induction l as [|n l IH]; intros s.
  - cbn [disposeAll map]. unfold pret, unregistered. cbn [foldl].
    rewrite app_nil_r. destruct s; reflexivity.
  - cbn [disposeAll]. unfold notebookDisposeCall. prun.
    rewrite IH. prun. cbn [map].
    f_equal. unfold unregistered. sfields. cbn [foldl].
    rewrite <- (assoc_L (++)). reflexivity.
Qed.

Lemma elem_of_mapDelete {V} key (kv : string * V) m :
  kv ∈ mapDelete key m ↔ kv ∈ m ∧ fst kv ≠ key.
Proof.
  induction m as [|[k v] m IH].
  - cbn. split; [intros H; inversion H|intros [H _]; inversion H].
  - rewrite mapDelete_cons. destruct (String.eqb k key) eqn:Hk.
    + apply String.eqb_eq in Hk. subst k. rewrite IH, elem_of_cons.
      split; [intros [H1 H2]; split; [right; exact H1|exact H2]|].
      intros [[->|H1] H2]; [contradiction H2; reflexivity|split; assumption].
    + apply String.eqb_neq in Hk. rewrite !elem_of_cons, IH.
      split; [intros [->|[H1 H2]]; [split; [left; reflexivity|exact Hk]|
                                    split; [right; exact H1|exact H2]]|].
      intros [[->|H1] H2]; [left; reflexivity|right; split; assumption].
Qed.

Lemma elem_of_foldr_mapDelete {V} (kv : string * V) m ids :
  kv ∈ foldr mapDelete m ids ↔ kv ∈ m ∧ fst kv ∉ ids.
Proof.
  induction ids as [|i ids IH]; cbn [foldr].
  - split; [intros H; split; [exact H|apply not_elem_of_nil]|intros [H _]; exact H].
  - rewrite elem_of_mapDelete, IH, not_elem_of_cons. tauto.
Qed.

Lemma elem_of_unregistered s l kv :
  kv ∈ unregistered s l
  ↔ kv ∈ notebooks s ∧ ∀ n, n ∈ l → fst kv ∉ default [] (disposeWrappers s !! n).
Proof.
  unfold unregistered. generalize (notebooks s) as m.
  induction l as [|n l IH]; intros m; cbn [foldl].
  - split; [intros H; split; [exact H|]|intros [H _]; exact H].
    intros n Hn. inversion Hn.
  - rewrite IH, elem_of_foldr_mapDelete. split.
    + intros [[H1 H2] H3]. split; [exact H1|]. intros n' Hn'.
      apply elem_of_cons in Hn' as [->|Hn']; [exact H2|exact (H3 n' Hn')].
    + intros [H1 H2]. split; [split; [exact H1|]|].
      * apply H2. left.
      * intros n' Hn'. apply H2. right. exact Hn'.
Qed.

Lemma settled_promises (s : JupyterServerBase.t) :
  settled s →
  firstRejection (map (λ kv, default never (promises s !! snd kv)) (notebooks s)) = None
  ∧ allResolved (map (λ kv, default never (promises s !! snd kv)) (notebooks s))
    = Some (resolvedNotebooks s).
Proof.
  unfold settled, resolvedNotebooks. generalize (notebooks s) as m.
  induction m as [|[k p] m IH]; intros Hall; [split; reflexivity|].
  destruct (Hall k p) as (nb & Hp); [left|].
  cbn [map omap list_omap snd]. rewrite Hp.
  cbn [default from_option id firstRejection allResolved].
  destruct IH as [IH1 IH2].
  { intros identity p0 Hin. apply (Hall identity p0). right. exact Hin. }
  rewrite IH1, IH2. split; reflexivity.
Qed.

Lemma awaitAll_settled S (s : JupyterServerBase.t) :
  settled s →
  pawaitAll (S := S) (map (λ kv, default never (promises s !! snd kv)) (notebooks s))
  = pret (resolvedNotebooks s).
Proof.
  intros Hs. destruct (settled_promises s Hs) as [H1 H2].
  unfold pawaitAll. rewrite H1, H2. reflexivity.
Qed.

Lemma awaitAll_cooperative S replies (l : list nat) :
  (∀ n, notebookDispose replies n = Resolves) →
  pawaitAll (S := S) (map (λ n, replyPromise (notebookDispose replies n)) l)
  = pret (map (λ _, tt) l).
Proof.
  intros Hall. unfold pawaitAll.
  assert (H : firstRejection (map (λ n, replyPromise (notebookDispose replies n)) l) = None
              ∧ allResolved (map (λ n, replyPromise (notebookDispose replies n)) l)
                = Some (map (λ _, tt) l)).
  { induction l as [|n l [IH1 IH2]]; [split; reflexivity|].
    cbn [map]. rewrite Hall. cbn [replyPromise firstRejection allResolved].
    rewrite IH1, IH2. split; reflexivity. }
  destruct H as [-> ->]. reflexivity.
Qed.

(** A [shutdown] that meets no failure and no pending promise. *)
Lemma shutdown_cooperative_run (s : JupyterServerBase.t) (replies : ShutdownReplies) :
  cooperative replies → settled s →
  ∃ s', shutdown replies s = (Ok tt, s')
      ∧ log s'
        = log s
          ++ match connectionInfoDisconnectHandler s with
             | Some handler => [DisconnectHandlerDispose handler]
             | None => []
             end
          ++ match savedSession s with
             | Some session => [SavedSessionDispose session]
             | None => []
             end
          ++ map NotebookDispose (resolvedNotebooks s)
          ++ match sessionManager s with
             | Some manager =>
                 SessionManagerDispose manager
                 :: match sessionManagerDispose replies with
                    | NeverSettles => [TraceError "Session shutdown timed out."]
                    | _ => []
                    end
             | None => []
             end
          ++ match launchInfo s with
             | Some info => [ConnectionInfoDispose (connectionId (connectionInfo info))]
             | None => []
             end
      ∧ connectionInfoDisconnectHandler s' = None
      ∧ savedSession s' = None
      ∧ sessionManager s' = None
      ∧ launchInfo s' = None
      ∧ notebooks s' = unregistered s (resolvedNotebooks s)
      ∧ serverExitCode s' = serverExitCode s
      ∧ promises s' = promises s
      ∧ registrations s' = registrations s
      ∧ disposeWrappers s' = disposeWrappers s.
Proof.
  intros (Hsaved & Hnb & Hmgr) Hsettled.
  unfold shutdown, ptry, destroyKernelSpec. prun.
  destruct (connectionInfoDisconnectHandler s) as [h|] eqn:Hh;
    destruct (launchInfo s) as [info|] eqn:Hinfo; prun; rewrite ?Hinfo; prun;
    destruct (savedSession s) as [session|] eqn:Hsession;
    rewrite ?Hsession, ?Hsaved; prun;
    rewrite (awaitAll_settled _ s Hsettled); prun;
    rewrite disposeAll_run; prun;
    rewrite (awaitAll_cooperative _ replies _ Hnb); prun;
    destruct (sessionManager s) as [manager|] eqn:Hmanager; rewrite ?Hmanager; prun;
    try (destruct (sessionManagerDispose replies) as [|e|] eqn:Hd;
         [|exfalso; exact (Hmgr e eq_refl)|]; prun);
    rewrite ?Hinfo; prun;
    (eexists; split; [reflexivity|]); sfields;
    rewrite <- ?(assoc_L (++)); cbn [app];
    repeat split; unfold unregistered; sfields;
    rewrite ?Hh, ?Hsession, ?Hmanager, ?Hinfo, ?app_nil_r; reflexivity.
Qed.

(** X13.  [shutdown] never throws.  With collaborators that
    answer and every registered notebook promise resolved, it completes, and
    it has disposed, in this order: the listener on the connection, the
    saved session if it was still there, every registered notebook, the
    session manager (with a trace if that took more than its ten seconds),
    and last the connection, which kills the server process.  Afterwards the
    object holds none of them any more and gives out no connection
    information. *)
Theorem server_shutdown_order (s : JupyterServerBase.t) (replies : ShutdownReplies) :
  (∀ replies0 s0 e, fst (shutdown replies0 s0) ≠ Throw e)
  ∧ (cooperative replies → settled s →
     ∃ s', shutdown replies s = (Ok tt, s')
         ∧ log s'
           = log s
             ++ match connectionInfoDisconnectHandler s with
                | Some handler => [DisconnectHandlerDispose handler]
                | None => []
                end
             ++ match savedSession s with
                | Some session => [SavedSessionDispose session]
                | None => []
                end
             ++ map NotebookDispose (resolvedNotebooks s)
             ++ match sessionManager s with
                | Some manager =>
                    SessionManagerDispose manager
                    :: match sessionManagerDispose replies with
                       | NeverSettles => [TraceError "Session shutdown timed out."]
                       | _ => []
                       end
                | None => []
                end
             ++ match launchInfo s with
                | Some info => [ConnectionInfoDispose (connectionId (connectionInfo info))]
                | None => []
                end
         ∧ connectionInfoDisconnectHandler s' = None
         ∧ savedSession s' = None
         ∧ sessionManager s' = None
         ∧ launchInfo s' = None
         ∧ getConnectionInfo s' = None).
Proof.
  split.
  { intros replies0 s0 e. unfold shutdown, ptry.
    match goal with |- context [match ?m s0 with _ => _ end] => destruct (m s0) as [[a|e'|] s1] end;
      cbn; discriminate. }
  intros Hc Hs.
  destruct (shutdown_cooperative_run s replies Hc Hs)
    as (s' & Hrun & Hlog & Hh & Hss & Hsm & Hli & _).
  exists s'. unfold getConnectionInfo. rewrite Hli.
  repeat split; assumption.
Qed.

Lemma unregistered_tracked (s : JupyterServerBase.t) :
  tracked s → settled s → unregistered s (resolvedNotebooks s) = [].
Proof.
  intros [_ Htracked] Hsettled.
  destruct (unregistered s (resolvedNotebooks s)) as [|[identity p] l] eqn:Hu; [reflexivity|].
  assert (Hin : (identity, p) ∈ unregistered s (resolvedNotebooks s)) by (rewrite Hu; left).
  apply elem_of_unregistered in Hin as [Hin Hnone].
  destruct (Hsettled identity p Hin) as (nb & Hp).
  destruct (Htracked identity p Hin) as (_ & _ & Hw).
  exfalso. apply (Hnone nb); [|exact (Hw nb Hp)].
  unfold resolvedNotebooks. apply list_elem_of_omap.
  exists (identity, p). split; [exact Hin|]. cbn [snd]. rewrite Hp. reflexivity.
Qed.

Lemma shutdown_nothing_left (s : JupyterServerBase.t) (replies : ShutdownReplies) :
  connectionInfoDisconnectHandler s = None → launchInfo s = None →
  savedSession s = None → sessionManager s = None → notebooks s = [] →
  shutdown replies s = (Ok tt, s).
Proof.
  intros Hh Hinfo Hsession Hmanager Hnb.
  unfold shutdown, ptry, destroyKernelSpec. prun.
  rewrite ?Hh, ?Hinfo. prun. rewrite ?Hinfo, ?Hsession. prun. rewrite ?Hnb.
  do 3 (cbn [map pawaitAll firstRejection allResolved disposeAll]; prun).
  rewrite ?Hmanager. prun. rewrite ?Hinfo. reflexivity.
Qed.

(** X14.  When every registered notebook got its entry through
    [setNotebook], a [shutdown] that completes leaves the registry empty, and
    a second [shutdown] finds nothing to do: it returns without a single
    call to a collaborator and leaves the object as it was, whatever the
    collaborators would answer this time. *)
Theorem server_shutdown_twice (s : JupyterServerBase.t)
    (replies replies' : ShutdownReplies) :
  cooperative replies → settled s → tracked s →
  ∃ s', shutdown replies s = (Ok tt, s')
      ∧ notebooks s' = []
      ∧ shutdown replies' s' = (Ok tt, s').
Proof.
  intros Hc Hs Ht.
  destruct (shutdown_cooperative_run s replies Hc Hs)
    as (s' & Hrun & _ & Hh & Hss & Hsm & Hli & Hnb & _).
  rewrite (unregistered_tracked s Ht Hs) in Hnb.
  exists s'. split; [exact Hrun|]. split; [exact Hnb|].
  apply shutdown_nothing_left; assumption.
Qed.

Ltac frame :=
  repeat match goal with
         | |- preserves _ (pret _) => apply preserves_pret
         | |- preserves _ (pthrow _) => apply preserves_pthrow
         | |- preserves _ pget => apply preserves_pget
         | |- preserves _ (pawait _) => apply preserves_pawait
         | |- preserves _ (pawaitReply _) => apply preserves_pawaitReply
         | |- preserves _ (pawaitAll _) => apply preserves_pawaitAll
         | |- preserves _ (pignoreErrors _) => apply preserves_pignoreErrors
         | |- preserves _ (pbind _ _) => apply preserves_pbind; [|intros ?]
         | |- preserves _ (ptry _ _) => apply preserves_ptry; [|intros ?]
         | |- preserves _ (match ?x with _ => _ end) => destruct x
         end.

(** What [shutdown] leaves alone, however it ends: every part of the
    object but the log, the listener, the launch information, the saved
    session, the registry and the session manager. *)
Lemma shutdown_frame {B} (f : JupyterServerBase.t → B) (replies : ShutdownReplies) :
  (∀ v s, f (set_log v s) = f s) →
  (∀ v s, f (set_connectionInfoDisconnectHandler v s) = f s) →
  (∀ v s, f (set_launchInfo v s) = f s) →
  (∀ v s, f (set_savedSession v s) = f s) →
  (∀ v s, f (set_notebooks v s) = f s) →
  (∀ v s, f (set_sessionManager v s) = f s) →
  preserves f (shutdown replies).
Proof.
  intros Hlog Hh Hli Hss Hnb Hsm.
  assert (Hemit : ∀ e, preserves f (JupyterServerBase.emit e)).
  { intros e s. unfold JupyterServerBase.emit, pmodify. cbn [snd]. apply Hlog. }
  assert (Hdispose : ∀ l, preserves f (disposeAll replies l)).
  { intros l s. rewrite disposeAll_run. cbn [snd]. rewrite Hlog, Hnb. reflexivity. }
  unfold shutdown, destroyKernelSpec. frame;
    try apply Hemit; try apply Hdispose;
    try (apply preserves_pmodify; intros s0;
         repeat match goal with
                | |- context [match ?x with _ => _ end] => destruct x
                end;
         rewrite ?Hh, ?Hli, ?Hss, ?Hsm; reflexivity).
Qed.

(** The listener on the connection is gone as soon as [shutdown] has
    started, however it ends. *)
Lemma shutdown_drops_listener (replies : ShutdownReplies) (s : JupyterServerBase.t) :
  connectionInfoDisconnectHandler (snd (shutdown replies s)) = None.
Proof.
  assert (Hemit : ∀ e, preserves connectionInfoDisconnectHandler (JupyterServerBase.emit e)).
  { intros e s0. reflexivity. }
  assert (Hdispose : ∀ l, preserves connectionInfoDisconnectHandler (disposeAll replies l)).
  { intros l s0. rewrite disposeAll_run. reflexivity. }
  unfold shutdown. apply establishes_ptry; [|intros e; apply Hemit].
  unfold pbind at 1. cbn [pget].
  apply establishes_pbind.
  - destruct (connectionInfoDisconnectHandler s) as [h|] eqn:Hh; [reflexivity|exact Hh].
  - intros _. unfold destroyKernelSpec. frame;
      try apply Hemit; try apply Hdispose;
      try (apply preserves_pmodify; intros s0;
           repeat match goal with
                  | |- context [match ?x with _ => _ end] => destruct x
                  end; reflexivity).
Qed.

(** X15.  A failure during [shutdown] is traced and ends the
    teardown where it occurs; nothing after it is disposed.  When the
    [dispose] of the saved session is rejected, the saved session stays in
    place, and neither the notebooks nor the session manager nor the
    connection are disposed.  When the session manager rejects its
    [dispose] in time, it stays in place and the connection is not disposed,
    so the server process is not killed.  A saved session whose [dispose]
    never answers keeps [shutdown] suspended for good, while a session
    manager that does not answer is given up after its ten seconds. *)
Theorem server_shutdown_stops_at_failure (s : JupyterServerBase.t)
    (replies : ShutdownReplies) :
  (∀ session e,
     savedSession s = Some session → savedSessionDispose replies = Rejects e →
     ∃ s', shutdown replies s = (Ok tt, s')
         ∧ log s'
           = log s
             ++ match connectionInfoDisconnectHandler s with
                | Some handler => [DisconnectHandlerDispose handler]
                | None => []
                end
             ++ [SavedSessionDispose session; TraceError "Error during shutdown: "]
         ∧ savedSession s' = Some session
         ∧ sessionManager s' = sessionManager s
         ∧ notebooks s' = notebooks s
         ∧ getConnectionInfo s' = getConnectionInfo s)
  ∧ (∀ manager e,
       savedSessionDispose replies = Resolves →
       (∀ n, notebookDispose replies n = Resolves) → settled s →
       sessionManager s = Some manager → sessionManagerDispose replies = Rejects e →
       ∃ s', shutdown replies s = (Ok tt, s')
           ∧ log s'
             = log s
               ++ match connectionInfoDisconnectHandler s with
                  | Some handler => [DisconnectHandlerDispose handler]
                  | None => []
                  end
               ++ match savedSession s with
                  | Some session => [SavedSessionDispose session]
                  | None => []
                  end
               ++ map NotebookDispose (resolvedNotebooks s)
               ++ [SessionManagerDispose manager; TraceError "Error during shutdown: "]
           ∧ sessionManager s' = Some manager
           ∧ getConnectionInfo s' = getConnectionInfo s)
  ∧ (∀ session,
       savedSession s = Some session → savedSessionDispose replies = NeverSettles →
       fst (shutdown replies s) = Pending).
Proof.
  split; [|split].
  - intros session e Hsession Hreject.
    unfold shutdown, ptry, destroyKernelSpec, getConnectionInfo. prun.
    destruct (connectionInfoDisconnectHandler s) as [h|] eqn:Hh;
      destruct (launchInfo s) as [info|] eqn:Hinfo; prun; rewrite ?Hinfo; prun;
      rewrite ?Hsession, ?Hreject; prun;
      (eexists; split; [reflexivity|]); sfields;
      rewrite <- ?(assoc_L (++)); cbn [app];
      rewrite ?Hsession, ?Hinfo; repeat split; reflexivity.
  - intros manager e Hsaved Hnb Hsettled Hmanager Hreject.
    unfold shutdown, ptry, destroyKernelSpec, getConnectionInfo. prun.
    destruct (connectionInfoDisconnectHandler s) as [h|] eqn:Hh;
      destruct (launchInfo s) as [info|] eqn:Hinfo; prun; rewrite ?Hinfo; prun;
      destruct (savedSession s) as [session|] eqn:Hsession;
      rewrite ?Hsession, ?Hsaved; prun;
      rewrite (awaitAll_settled _ s Hsettled); prun;
      rewrite disposeAll_run; prun;
      rewrite (awaitAll_cooperative _ replies _ Hnb); prun;
      rewrite ?Hmanager, ?Hreject; prun;
      (eexists; split; [reflexivity|]); sfields;
      rewrite ?Hmanager, ?Hinfo, <- ?(assoc_L (++)); cbn [app];
      repeat split; reflexivity.
  - intros session Hsession Hnever.
    unfold shutdown, ptry, destroyKernelSpec. prun.
    destruct (connectionInfoDisconnectHandler s) as [h|] eqn:Hh;
      destruct (launchInfo s) as [info|] eqn:Hinfo; prun; rewrite ?Hinfo; prun;
      rewrite ?Hsession, ?Hnever; prun; reflexivity.
Qed.

End ServerProperties.

Section ServerMethodProperties.

Set Default Proof Using "Type".

Import JupyterServerBase.

Variable sessionDisposed : string.
Variable jupyterServerCrashed : string.
Variable connectingToJupyterUri : string.
Variable createdNewNotebook : string.
Variable format : string → list string → string.
Variable toString : Z → string.
Variable jupyterLaunchTimeout : Z.
Variable isDisposed : JupyterServerBase.t → bool.

Ltac sfields :=
  cbn [launchInfo connectPromise connectionInfoDisconnectHandler serverExitCode
       notebooks sessionManager savedSession promises registrations disposeWrappers
       disposables log set_launchInfo set_connectPromise
       set_connectionInfoDisconnectHandler set_serverExitCode set_notebooks
       set_sessionManager set_savedSession set_promises set_registrations
       set_disposeWrappers set_disposables set_log fst snd].

Ltac prun :=
  repeat (cbn [pbind pret pget pmodify pthrow ptry pawait pawaitReply pignoreErrors
               JupyterServerBase.emit ofSum negb andb orb] in *; sfields;
          unfold pbind, pret, pget, pmodify, pthrow, JupyterServerBase.emit in *).

(** X16.  A [connect] whose session manager, probe session and wait
    for idle succeed keeps the probe session as the saved session when the
    server was launched locally, and shuts it down when the server is a
    remote one, in which case nothing is saved and the outcome of [connect]
    is the outcome of that shutdown.  Only a remote launch writes to the
    output channel. *)
Theorem connect_keeps_or_discards_probe_session (s : JupyterServerBase.t)
    (info : INotebookServerLaunchInfo) (replies : ConnectReplies)
    (manager session : nat) :
  create replies = inr manager → startNew replies = inr session →
  waitForIdle replies = Resolves →
  let calls :=
    [SessionManagerFactoryCreate (connectionInfo info);
     SessionManagerStartNew manager (kernelConnectionMetadata info) (disableUI info);
     SessionWaitForIdle session jupyterLaunchTimeout] in
  (localLaunch (connectionInfo info) = true →
   ∃ s', connect connectingToJupyterUri format jupyterLaunchTimeout info replies s
         = (Ok tt, s')
       ∧ savedSession s' = Some session
       ∧ sessionManager s' = Some manager
       ∧ launchInfo s' = Some info
       ∧ connectionInfoDisconnectHandler s' = Some (disposables s)
       ∧ log s' = log s ++ calls)
  ∧ (localLaunch (connectionInfo info) = false →
     ∃ s', connect connectingToJupyterUri format jupyterLaunchTimeout info replies s
           = (match sessionShutdown replies with
              | Resolves => Ok tt
              | Rejects e => Throw e
              | NeverSettles => Pending
              end, s')
         ∧ savedSession s' = savedSession s
         ∧ sessionManager s' = Some manager
         ∧ launchInfo s' = Some info
         ∧ log s'
           = log s
             ++ OutputAppendLine
                  (format connectingToJupyterUri [baseUrl (connectionInfo info)])
             :: calls ++ [SessionShutdown session]).
Proof.
  intros Hcreate Hstart Hidle calls. subst calls.
  split; intros Hlocal; unfold connect, logRemoteOutput; prun;
    destruct (defined (connectPromise s)); prun;
    rewrite Hlocal; prun; rewrite Hcreate; prun; rewrite Hstart; prun;
    rewrite Hidle; prun; rewrite ?Hlocal; prun.
  1,2: eexists; (split; [reflexivity|]); sfields;
       rewrite <- ?(assoc_L (++)); repeat split; reflexivity.
  all: eexists; (split; [destruct (sessionShutdown replies); prun; reflexivity|]);
       sfields; rewrite <- ?(assoc_L (++)); repeat split; reflexivity.
Qed.

(** X17.  What the retry loop of the orchestrator gets from a
    fresh server object whose probe session does not become idle: [connect]
    throws the error of the wait, having saved no session, and the
    [dispose] that follows disposes the listener on the connection, the
    session manager and the connection, in this order.  The probe session
    itself is neither shut down nor disposed by the server object. *)
Theorem failed_connect_then_dispose (info : INotebookServerLaunchInfo)
    (replies : ConnectReplies) (shutdownReplies : ShutdownReplies)
    (manager session : nat) (e : JsError) :
  create replies = inr manager → startNew replies = inr session →
  waitForIdle replies = Rejects e →
  cooperative shutdownReplies →
  ∃ s1 s2,
    connect connectingToJupyterUri format jupyterLaunchTimeout info replies
      JupyterServerBase.new = (Throw e, s1)
    ∧ savedSession s1 = None
    ∧ dispose shutdownReplies s1 = (Ok tt, s2)
    ∧ log s2
      = (if localLaunch (connectionInfo info) then []
         else [OutputAppendLine
                 (format connectingToJupyterUri [baseUrl (connectionInfo info)])])
        ++ [SessionManagerFactoryCreate (connectionInfo info);
            SessionManagerStartNew manager (kernelConnectionMetadata info) (disableUI info);
            SessionWaitForIdle session jupyterLaunchTimeout;
            DisconnectHandlerDispose 0;
            SessionManagerDispose manager]
        ++ match sessionManagerDispose shutdownReplies with
           | NeverSettles => [TraceError "Session shutdown timed out."]
           | _ => []
           end
        ++ [ConnectionInfoDispose (connectionId (connectionInfo info))]
    ∧ (SessionShutdown session ∉ log s2)
    ∧ (SavedSessionDispose session ∉ log s2).
Proof.
  intros Hcreate Hstart Hidle Hcoop.
  eexists. 
  assert (Hconnect :
    connect connectingToJupyterUri format jupyterLaunchTimeout info replies
      JupyterServerBase.new
    = (Throw e,
       mk (Some info) (Some info) (Some 0) None [] (Some manager) None ∅ [] ∅ 1
          ((if localLaunch (connectionInfo info) then []
            else [OutputAppendLine
                    (format connectingToJupyterUri [baseUrl (connectionInfo info)])])
           ++ [SessionManagerFactoryCreate (connectionInfo info);
               SessionManagerStartNew manager (kernelConnectionMetadata info)
                 (disableUI info);
               SessionWaitForIdle session jupyterLaunchTimeout]))).
  { unfold connect, logRemoteOutput, JupyterServerBase.new. prun. cbn [defined]. prun.
    destruct (localLaunch (connectionInfo info)); prun;
      rewrite Hcreate; prun; rewrite Hstart; prun; rewrite Hidle; prun; reflexivity. }
  rewrite Hconnect.
  set (s1 := mk _ _ _ _ _ _ _ _ _ _ _ _).
  destruct (shutdown_cooperative_run s1 shutdownReplies Hcoop)
    as (s2 & Hrun & Hlog & _).
  { intros identity p Hin. inversion Hin. }
  exists s2. split; [reflexivity|]. split; [reflexivity|]. split; [exact Hrun|].
  assert (Hlog' : log s2
      = (if localLaunch (connectionInfo info) then []
         else [OutputAppendLine
                 (format connectingToJupyterUri [baseUrl (connectionInfo info)])])
        ++ [SessionManagerFactoryCreate (connectionInfo info);
            SessionManagerStartNew manager (kernelConnectionMetadata info) (disableUI info);
            SessionWaitForIdle session jupyterLaunchTimeout;
            DisconnectHandlerDispose 0;
            SessionManagerDispose manager]
        ++ match sessionManagerDispose shutdownReplies with
           | NeverSettles => [TraceError "Session shutdown timed out."]
           | _ => []
           end
        ++ [ConnectionInfoDispose (connectionId (connectionInfo info))]).
  { rewrite Hlog. subst s1. sfields. unfold resolvedNotebooks. sfields.
    cbn [omap list_omap map app]. rewrite <- !(assoc_L (++)). reflexivity. }
  split; [exact Hlog'|]. rewrite Hlog'.
  split; intros Hin;
    destruct (localLaunch (connectionInfo info));
    destruct (sessionManagerDispose shutdownReplies);
    cbn [app] in Hin;
    repeat (apply elem_of_cons in Hin as [Hin|Hin]; [discriminate Hin|]);
    inversion Hin.
Qed.

(** X18.  [createNotebook] refuses with the session-disposed error
    before a session manager exists and once the server is disposed, and
    then changes nothing.  Otherwise it hands the saved session to
    [createNotebookInstance] and forgets it, whether the creation succeeds,
    fails or never finishes: the outcome is the outcome of the instance
    promise, and a later [createNotebook] hands over no session. *)
Theorem createNotebook_hands_saved_session_over_once (s : JupyterServerBase.t)
    (identity : string) (instance : Promise nat) :
  (sessionManager s = None ∨ isDisposed s = true →
   createNotebook sessionDisposed createdNewNotebook format isDisposed identity instance s
   = (Throw (Error sessionDisposed), s))
  ∧ (sessionManager s ≠ None → isDisposed s = false →
     ∃ s' l,
       createNotebook sessionDisposed createdNewNotebook format isDisposed identity
         instance s
       = (match instance with
          | resolved notebook => Ok notebook
          | rejected e => Throw e
          | never => Pending
          end, s')
       ∧ savedSession s' = None
       ∧ sessionManager s' = sessionManager s
       ∧ log s' = log s ++ CreateNotebookInstance identity (savedSession s) :: l
       ∧ (∀ identity' saved, CreateNotebookInstance identity' saved ∉ l)
       ∧ (isDisposed s' = false →
          ∀ identity' instance',
            ∃ l', log (snd (createNotebook sessionDisposed createdNewNotebook format
                              isDisposed identity' instance' s'))
                  = log s' ++ CreateNotebookInstance identity' None :: l')).
Proof.
  split.
  - intros H. unfold createNotebook. prun.
    destruct H as [->| ->]; cbn [defined negb orb]; [reflexivity|].
    rewrite orb_true_r. reflexivity.
  - intros Hmanager Hdisposed.
    assert (Hguard : ∀ s0 : JupyterServerBase.t,
              sessionManager s0 = sessionManager s → isDisposed s0 = false →
              negb (defined (sessionManager s0)) || isDisposed s0 = false).
    { intros s0 -> ->. destruct (sessionManager s); [reflexivity|congruence]. }
    assert (Hcall : ∀ (s0 : JupyterServerBase.t) identity0 (instance0 : Promise nat),
      sessionManager s0 = sessionManager s → isDisposed s0 = false →
      ∃ s' l,
        createNotebook sessionDisposed createdNewNotebook format isDisposed identity0
          instance0 s0
        = (match instance0 with
           | resolved notebook => Ok notebook
           | rejected e => Throw e
           | never => Pending
           end, s')
        ∧ savedSession s' = None
        ∧ sessionManager s' = sessionManager s0
        ∧ log s' = log s0 ++ CreateNotebookInstance identity0 (savedSession s0) :: l
        ∧ (∀ identity' saved, CreateNotebookInstance identity' saved ∉ l)).
    { intros s0 identity0 instance0 Hm Hd. unfold createNotebook, logRemoteOutput, ptry. prun.
      rewrite (Hguard s0 Hm Hd).
      destruct instance0 as [notebook|e|]; prun.
      - destruct (launchInfo s0) as [info0|]; prun;
          [destruct (localLaunch (connectionInfo info0)); prun|];
          eexists _, _; (split; [reflexivity|]); sfields;
          rewrite <- ?(assoc_L (++)); cbn [app];
          (split; [reflexivity|]); (split; [reflexivity|]); (split; [reflexivity|]);
          intros identity' saved Hin;
          repeat (apply elem_of_cons in Hin as [Hin|Hin]; [discriminate Hin|]);
          inversion Hin.
      - eexists _, _; (split; [reflexivity|]); sfields;
          rewrite <- ?(assoc_L (++)); cbn [app];
          (split; [reflexivity|]); (split; [reflexivity|]); (split; [reflexivity|]);
          intros identity' saved Hin;
          repeat (apply elem_of_cons in Hin as [Hin|Hin]; [discriminate Hin|]);
          inversion Hin.
      - eexists _, []; (split; [reflexivity|]); sfields;
          (split; [reflexivity|]); (split; [reflexivity|]); (split; [reflexivity|]);
          intros identity' saved Hin; inversion Hin. }
    destruct (Hcall s identity instance eq_refl Hdisposed)
      as (s' & l & Hrun & Hsaved & Hsm & Hlog & Hl).
    exists s', l. split; [exact Hrun|]. split; [exact Hsaved|]. split; [exact Hsm|].
    split; [exact Hlog|]. split; [exact Hl|].
    intros Hd' identity' instance'.
    destruct (Hcall s' identity' instance' Hsm Hd')
      as (s'' & l' & Hrun' & _ & _ & Hlog' & _).
    exists l'. rewrite Hrun'. cbn [snd]. rewrite Hlog', Hsaved. reflexivity.
Qed.

End ServerMethodProperties.

(** * Steps of method bodies along a preorder *)

Section Advances.

Context {S : Type} (R : S → S → Prop).
Hypothesis R_refl : ∀ s, R s s.
Hypothesis R_trans : ∀ s1 s2 s3, R s1 s2 → R s2 s3 → R s1 s3.

Lemma advances_pret {A} (a : A) : advances R (pret a).
Proof using R_refl. intros s. apply R_refl. Qed.

Lemma advances_pthrow {A} e : advances R (pthrow (A := A) e).
Proof using R_refl. intros s. apply R_refl. Qed.

Lemma advances_pget : advances R pget.
Proof using R_refl. intros s. apply R_refl. Qed.

Lemma advances_pawaitReply reply : advances R (pawaitReply reply).
Proof using R_refl. intros s. destruct reply; apply R_refl. Qed.

Lemma advances_pawaitAll {A} (l : list (Promise A)) : advances R (pawaitAll l).
Proof using R_refl.
  intros s. unfold pawaitAll.
  destruct (firstRejection l); [|destruct (allResolved l)]; apply R_refl.
Qed.

Lemma advances_pbind {A C} (m : Prog S A) (k : A → Prog S C) :
  advances R m → (∀ a, advances R (k a)) → advances R (pbind m k).
Proof using R_trans.
  intros Hm Hk s. unfold pbind. specialize (Hm s).
  destruct (m s) as [[a|e|] s1]; cbn [snd] in *; [|exact Hm|exact Hm].
  exact (R_trans _ _ _ Hm (Hk a s1)).
Qed.

Lemma advances_ptry {A} (m : Prog S A) (h : JsError → Prog S A) :
  advances R m → (∀ e, advances R (h e)) → advances R (ptry m h).
Proof using R_trans.
  intros Hm Hh s. unfold ptry. specialize (Hm s).
  destruct (m s) as [[a|e|] s1]; cbn [snd] in *; [exact Hm| |exact Hm].
  exact (R_trans _ _ _ Hm (Hh e s1)).
Qed.

Lemma advances_pmodify (g : S → S) : (∀ s, R s (g s)) → advances R (pmodify g).
Proof using Type. intros H s. apply H. Qed.

End Advances.

Section ServerLogProperties.

Import JupyterServerBase.

Ltac sfields :=
  cbn [launchInfo connectPromise connectionInfoDisconnectHandler serverExitCode
       notebooks sessionManager savedSession promises registrations disposeWrappers
       disposables log set_launchInfo set_connectPromise
       set_connectionInfoDisconnectHandler set_serverExitCode set_notebooks
       set_sessionManager set_savedSession set_promises set_registrations
       set_disposeWrappers set_disposables set_log fst snd].

Lemma logExtends_refl s : logExtends s s.
Proof. exists []. rewrite app_nil_r. reflexivity. Qed.

Lemma logExtends_trans s1 s2 s3 : logExtends s1 s2 → logExtends s2 s3 → logExtends s1 s3.
Proof.
  intros [l1 H1] [l2 H2]. exists (l1 ++ l2). rewrite H2, H1, (assoc_L (++)). reflexivity.
Qed.

(** [shutdown] moves the object along every preorder that its steps
    respect. *)
Lemma shutdown_advances (R : JupyterServerBase.t → JupyterServerBase.t → Prop)
    (replies : ShutdownReplies) :
  (∀ s, R s s) → (∀ s1 s2 s3, R s1 s2 → R s2 s3 → R s1 s3) →
  (∀ l s, R s (set_log (log s ++ l) s)) →
  (∀ v s, R s (set_connectionInfoDisconnectHandler v s)) →
  (∀ v s, R s (set_launchInfo v s)) →
  (∀ v s, R s (set_savedSession v s)) →
  (∀ v s, R s (set_sessionManager v s)) →
  (∀ l s, R s (set_notebooks (unregistered s l) s)) →
  advances R (shutdown replies).
Proof.
  intros Hrefl Htrans Hlog' Hh Hli Hss Hsm Hnb.
  assert (Hemit : ∀ e, advances R (JupyterServerBase.emit e)).
  { intros e s. apply (Hlog' [e]). }
  assert (Hdispose : ∀ l, advances R (disposeAll replies l)).
  { intros l s. rewrite disposeAll_run. cbn [snd].
    apply (Htrans _ _ _ (Hnb l s)).
    apply (Hlog' (map NotebookDispose l) (set_notebooks (unregistered s l) s)). }
  unfold shutdown, destroyKernelSpec.
  repeat match goal with
         | |- advances _ (pret _) => apply advances_pret, Hrefl
         | |- advances _ (pthrow _) => apply advances_pthrow, Hrefl
         | |- advances _ pget => apply advances_pget, Hrefl
         | |- advances _ (pawaitReply _) => apply advances_pawaitReply, Hrefl
         | |- advances _ (pawaitAll _) => apply advances_pawaitAll, Hrefl
         | |- advances _ (pbind _ _) => apply advances_pbind; [apply Htrans| |intros ?]
         | |- advances _ (ptry _ _) => apply advances_ptry; [apply Htrans| |intros ?]
         | |- advances _ (JupyterServerBase.emit _) => apply Hemit
         | |- advances _ (disposeAll _ _) => apply Hdispose
         | |- advances _ (pmodify _) =>
             apply advances_pmodify; intros s0;
             repeat match goal with
                    | |- context [match ?x with _ => _ end] => destruct x
                    end; auto
         | |- advances _ (match ?x with _ => _ end) => destruct x
         end.
Qed.

(** [shutdown] only adds to the history. *)
Lemma shutdown_logExtends (replies : ShutdownReplies) :
  advances logExtends (shutdown replies).
Proof.
  apply shutdown_advances;
    [apply logExtends_refl|apply logExtends_trans|..];
    try (intros v s; exists []; rewrite app_nil_r; reflexivity).
  intros l s. exists l. reflexivity.
Qed.

End ServerLogProperties.

Section ServerCrashProperties.

Set Default Proof Using "Type".

Import JupyterServerBase.

Variable sessionDisposed : string.
Variable jupyterServerCrashed : string.
Variable format : string → list string → string.
Variable toString : Z → string.

(** X19.  When the connection reports that the server process went
    down with exit code [c], the listener records the code, traces the crash
    and starts a [shutdown] whose outcome it ignores; the listener itself is
    disposed by that [shutdown].  From then on [getDisposedError] gives the
    crash message with the exit code, unless the code is zero: then it gives
    the plain session-disposed error, as if there had been no crash. *)
Theorem crash_is_reported_unless_exit_code_is_zero (s : JupyterServerBase.t)
    (replies : ShutdownReplies) (c : Z) :
  ∃ s' l,
    onDisconnected jupyterServerCrashed format toString replies c s = (Ok tt, s')
    ∧ serverExitCode s' = Some c
    ∧ connectionInfoDisconnectHandler s' = None
    ∧ log s' = log s ++ TraceError (format jupyterServerCrashed [toString c]) :: l
    ∧ getDisposedError sessionDisposed jupyterServerCrashed format toString s'
      = if (c =? 0)%Z then Error sessionDisposed
        else Error (format jupyterServerCrashed [toString c]).
Proof.
  set (s1 := set_log (log s ++ [TraceError (format jupyterServerCrashed [toString c])])
               (set_serverExitCode (Some c) s)).
  assert (Hrun : onDisconnected jupyterServerCrashed format toString replies c s
                 = (Ok tt, snd (shutdown replies s1))) by reflexivity.
  destruct (shutdown_logExtends replies s1) as [l Hl].
  assert (Hcode : serverExitCode (snd (shutdown replies s1)) = Some c).
  { rewrite (shutdown_frame serverExitCode replies); [reflexivity|..];
      intros v s0; reflexivity. }
  exists (snd (shutdown replies s1)), l.
  split; [exact Hrun|]. split; [exact Hcode|].
  split; [apply shutdown_drops_listener|].
  split; [rewrite Hl; subst s1; cbn [log set_log]; rewrite <- (assoc_L (++)); reflexivity|].
  unfold getDisposedError. rewrite Hcode. reflexivity.
Qed.

End ServerCrashProperties.

(** * The registry of notebooks *)

Section RegistryProperties.

Import JupyterServerBase.

Ltac sfields :=
  cbn [launchInfo connectPromise connectionInfoDisconnectHandler serverExitCode
       notebooks sessionManager savedSession promises registrations disposeWrappers
       disposables log set_launchInfo set_connectPromise
       set_connectionInfoDisconnectHandler set_serverExitCode set_notebooks
       set_sessionManager set_savedSession set_promises set_registrations
       set_disposeWrappers set_disposables set_log fst snd].

Ltac prun :=
  repeat (cbn [pbind pret pget pmodify pthrow ptry pawait pawaitReply pignoreErrors
               JupyterServerBase.emit ofSum] in *; sfields;
          unfold pbind, pret, pget, pmodify, pthrow, JupyterServerBase.emit in *).

Lemma elem_of_mapGet {V} key (v : V) m : mapGet key m = Some v → (key, v) ∈ m.
Proof.
  induction m as [|[k v'] m IH]; cbn [mapGet]; [discriminate|].
  destruct (String.eqb k key) eqn:Hk.
  - apply String.eqb_eq in Hk. intros [= ->]. subst k. left.
  - intros H. right. exact (IH H).
Qed.

Lemma mapGet_NoDup {V} key (v : V) m :
  NoDup (fst <$> m) → (key, v) ∈ m → mapGet key m = Some v.
Proof.
  induction m as [|[k v'] m IH]; intros Hnd Hin; [inversion Hin|].
  cbn [fmap list_fmap fst] in Hnd. apply NoDup_cons in Hnd as [Hk Hnd].
  cbn [mapGet]. apply elem_of_cons in Hin as [[= -> ->]|Hin].
  - rewrite String.eqb_refl. reflexivity.
  - destruct (String.eqb k key) eqn:Hkk; [|exact (IH Hnd Hin)].
    apply String.eqb_eq in Hkk. subst k. exfalso. apply Hk.
    apply list_elem_of_fmap. exists (key, v). split; [reflexivity|exact Hin].
Qed.

Lemma elem_of_mapSet {V} key (v : V) m kv :
  kv ∈ mapSet key v m → kv = (key, v) ∨ kv ∈ m.
Proof.
  induction m as [|[k v'] m IH]; cbn [mapSet].
  - intros H. apply list_elem_of_singleton in H. left. exact H.
  - destruct (String.eqb k key) eqn:Hk.
    + apply String.eqb_eq in Hk. subst k. intros H.
      apply elem_of_cons in H as [->|H]; [left; reflexivity|right; right; exact H].
    + intros H. apply elem_of_cons in H as [->|H]; [right; left|].
      destruct (IH H) as [->|H']; [left; reflexivity|right; right; exact H'].
Qed.

Lemma keys_mapSet {V} key (v : V) m :
  fst <$> mapSet key v m
  = if decide (key ∈ fst <$> m) then fst <$> m else (fst <$> m) ++ [key].
Proof.
  induction m as [|[k v'] m IH]; cbn [mapSet fmap list_fmap fst].
  - rewrite decide_False by apply not_elem_of_nil. reflexivity.
  - destruct (String.eqb k key) eqn:Hk.
    + apply String.eqb_eq in Hk. subst k. cbn [fmap list_fmap fst].
      rewrite decide_True by left. reflexivity.
    + apply String.eqb_neq in Hk. cbn [fmap list_fmap fst].
      change (list_fmap _ _ fst ?l) with (fst <$> l). rewrite IH.
      destruct (decide (key ∈ fst <$> m)) as [Hin|Hin].
      * rewrite decide_True by (right; exact Hin). reflexivity.
      * rewrite decide_False; [reflexivity|].
        intros H. apply elem_of_cons in H as [->|H]; [apply Hk; reflexivity|exact (Hin H)].
Qed.

Lemma NoDup_mapSet {V} key (v : V) m :
  NoDup (fst <$> m) → NoDup (fst <$> mapSet key v m).
Proof.
  intros Hnd. rewrite keys_mapSet. destruct (decide (key ∈ fst <$> m)) as [Hin|Hin].
  - exact Hnd.
  - apply NoDup_app. split; [exact Hnd|]. split; [|apply NoDup_singleton].
    intros x Hx Hx'. apply list_elem_of_singleton in Hx'. subst x. exact (Hin Hx).
Qed.

Lemma mapDelete_sublist {V} key (m : list (string * V)) : mapDelete key m `sublist_of` m.
Proof. unfold mapDelete. apply sublist_filter. Qed.

Lemma foldr_mapDelete_sublist {V} ids (m : list (string * V)) :
  foldr mapDelete m ids `sublist_of` m.
Proof.
  induction ids as [|i ids IH]; cbn [foldr]; [reflexivity|].
  etransitivity; [apply mapDelete_sublist|exact IH].
Qed.

Lemma unregistered_sublist s l : unregistered s l `sublist_of` notebooks s.
Proof.
  unfold unregistered. generalize (notebooks s) as m.
  induction l as [|n l IH]; intros m; cbn [foldl]; [reflexivity|].
  etransitivity; [apply IH|apply foldr_mapDelete_sublist].
Qed.

Lemma NoDup_keys_sublist {V} (m m' : list (string * V)) :
  m' `sublist_of` m → NoDup (fst <$> m) → NoDup (fst <$> m').
Proof.
  intros Hsub Hnd. apply (sublist_NoDup _ (fst <$> m)); [exact Hnd|].
  apply fmap_sublist. exact Hsub.
Qed.

Lemma mapGet_foldr_mapDelete {V} key ids (m : list (string * V)) :
  key ∈ ids → mapGet key (foldr mapDelete m ids) = None.
Proof.
  induction ids as [|i ids IH]; intros Hin; [inversion Hin|].
  cbn [foldr]. destruct (decide (i = key)) as [->|Hne].
  - apply mapGet_mapDelete_eq.
  - rewrite mapGet_mapDelete_ne by exact Hne.
    apply elem_of_cons in Hin as [->|Hin]; [contradiction Hne; reflexivity|exact (IH Hin)].
Qed.

(** The callbacks of one registration, spelled out. *)
Lemma onSettled_run identity p s :
  onSettled identity p s
  = (Ok tt,
     match promises s !! p with
     | Some (resolved nb) =>
         set_disposeWrappers
           (<[nb := identity :: default [] (disposeWrappers s !! nb)]> (disposeWrappers s)) s
     | Some (rejected _) =>
         if decide (mapGet identity (notebooks s) = Some p)
         then set_notebooks (mapDelete identity (notebooks s)) s
         else s
     | _ => s
     end).
Proof.
  unfold onSettled. prun.
  destruct (promises s !! p) as [[nb|e|]|]; prun; try reflexivity.
  destruct (decide (mapGet identity (notebooks s) = Some p)); reflexivity.
Qed.

Lemma wrappers_grow (dw : gmap nat (list string)) nb identity nb0 identity0 :
  identity0 ∈ default [] (dw !! nb0) →
  identity0 ∈ default [] (<[nb := identity :: default [] (dw !! nb)]> dw !! nb0).
Proof.
  intros H. destruct (decide (nb = nb0)) as [->|Hne].
  - rewrite lookup_insert_eq. right. exact H.
  - rewrite lookup_insert_ne by exact Hne. exact H.
Qed.

(** What [setNotebook] leaves behind. *)
Lemma setNotebook_state identity p s :
  ∃ s', setNotebook identity p s = (Ok tt, s')
      ∧ registrations s' = registrations s ++ [(identity, p)]
      ∧ promises s' = promises s
      ∧ notebooks s'
        = match promises s !! p with
          | Some (rejected _) => mapDelete identity (mapSet identity p (notebooks s))
          | _ => mapSet identity p (notebooks s)
          end
      ∧ disposeWrappers s'
        = match promises s !! p with
          | Some (resolved nb) =>
              <[nb := identity :: default [] (disposeWrappers s !! nb)]> (disposeWrappers s)
          | _ => disposeWrappers s
          end.
Proof.
  unfold setNotebook. prun. rewrite onSettled_run. sfields.
  eexists. split; [reflexivity|].
  destruct (promises s !! p) as [[nb|e|]|]; sfields; try (repeat split; reflexivity).
  rewrite decide_True by apply mapGet_mapSet_eq. sfields. repeat split; reflexivity.
Qed.

(** While the callbacks of a promise [p] that has just settled run, every
    entry of the registry is in order, or it holds [p] and its callback is
    still to come. *)
Lemma runCallbacks_tracked p l :
  ∀ s,
    NoDup (fst <$> notebooks s) →
    (∀ identity q,
       (identity, q) ∈ notebooks s →
       (identity, q) ∈ registrations s
       ∧ ((q = p ∧ (identity, p) ∈ l)
          ∨ ((∀ e, promises s !! q ≠ Some (rejected e))
             ∧ (∀ nb, promises s !! q = Some (resolved nb) →
                  identity ∈ default [] (disposeWrappers s !! nb))))) →
    tracked (snd (runCallbacks l p s)).
Proof.
  induction l as [|[id0 p0] l IH]; intros s Hnd H.
  - cbn [runCallbacks pret snd]. split; [exact Hnd|].
    intros identity q Hin. destruct (H identity q Hin) as [Hr [[_ Hl]|[H1 H2]]].
    + inversion Hl.
    + split; [exact Hr|]. split; [exact H1|exact H2].
  - cbn [runCallbacks]. destruct (decide (p0 = p)) as [->|Hne].
    + unfold pbind. rewrite onSettled_run.
      destruct (promises s !! p) as [[nb|e|]|] eqn:Hp.
      * apply IH; sfields; [exact Hnd|].
        intros identity q Hin. destruct (H identity q Hin) as [Hr [[-> Hl]|[H1 H2]]].
        -- split; [exact Hr|]. apply elem_of_cons in Hl as [Heq|Hl].
           ++ injection Heq as ->. right. split; [intros e; rewrite Hp; discriminate|].
              intros nb' Hnb'. rewrite Hp in Hnb'. injection Hnb' as <-.
              rewrite lookup_insert_eq. left.
           ++ left. split; [reflexivity|exact Hl].
        -- split; [exact Hr|]. right. split; [exact H1|].
           intros nb' Hnb'. apply wrappers_grow. exact (H2 nb' Hnb').
      * destruct (decide (mapGet id0 (notebooks s) = Some p)) as [Hget|Hget].
        -- apply IH; sfields.
           { exact (NoDup_keys_sublist _ _ (mapDelete_sublist id0 (notebooks s)) Hnd). }
           intros identity q Hin. apply elem_of_mapDelete in Hin as [Hin Hkey].
           cbn [fst] in Hkey.
           destruct (H identity q Hin) as [Hr [[-> Hl]|Hfine]]; (split; [exact Hr|]);
             [|right; exact Hfine].
           apply elem_of_cons in Hl as [Heq|Hl].
           ++ injection Heq as ->. contradiction Hkey; reflexivity.
           ++ left. split; [reflexivity|exact Hl].
        -- apply IH; [exact Hnd|].
           intros identity q Hin.
           destruct (H identity q Hin) as [Hr [[-> Hl]|Hfine]]; (split; [exact Hr|]);
             [|right; exact Hfine].
           apply elem_of_cons in Hl as [Heq|Hl].
           ++ injection Heq as ->. contradiction Hget. exact (mapGet_NoDup _ _ _ Hnd Hin).
           ++ left. split; [reflexivity|exact Hl].
      * apply IH; [exact Hnd|].
        intros identity q Hin.
        destruct (H identity q Hin) as [Hr [[-> Hl]|Hfine]]; (split; [exact Hr|]);
          [|right; exact Hfine].
        right. split; [intros e; rewrite Hp; discriminate|].
        intros nb'. rewrite Hp. discriminate.
      * apply IH; [exact Hnd|].
        intros identity q Hin.
        destruct (H identity q Hin) as [Hr [[-> Hl]|Hfine]]; (split; [exact Hr|]);
          [|right; exact Hfine].
        right. split; [intros e; rewrite Hp; discriminate|].
        intros nb'. rewrite Hp. discriminate.
    + prun. apply IH; [exact Hnd|].
      intros identity q Hin.
      destruct (H identity q Hin) as [Hr [[-> Hl]|Hfine]]; (split; [exact Hr|]);
        [|right; exact Hfine].
      apply elem_of_cons in Hl as [Heq|Hl].
      * injection Heq as _ ->. contradiction Hne; reflexivity.
      * left. split; [reflexivity|exact Hl].
Qed.

Lemma tracked_shrinks s s' : tracked s → registryShrinks s s' → tracked s'.
Proof.
  intros [Hnd H] (Hsub & Hp & Hr & Hw). split.
  - exact (NoDup_keys_sublist _ _ Hsub Hnd).
  - intros identity p Hin. rewrite Hp, Hr, Hw. apply H.
    exact (sublist_subseteq _ _ Hsub _ Hin).
Qed.

Lemma registryShrinks_refl s : registryShrinks s s.
Proof. repeat split; reflexivity. Qed.

Lemma registryShrinks_trans s1 s2 s3 :
  registryShrinks s1 s2 → registryShrinks s2 s3 → registryShrinks s1 s3.
Proof.
  intros (H1 & H2 & H3 & H4) (H1' & H2' & H3' & H4').
  split; [etransitivity; eassumption|]. repeat split; congruence.
Qed.

Lemma shutdown_registryShrinks replies : advances registryShrinks (shutdown replies).
Proof.
  apply shutdown_advances;
    [apply registryShrinks_refl|apply registryShrinks_trans|..];
    try (intros v s; repeat split; reflexivity).
  intros l s. split; [apply unregistered_sublist|repeat split; reflexivity].
Qed.

Lemma notebookDisposeCall_registryShrinks replies nb :
  advances registryShrinks (notebookDisposeCall replies nb).
Proof.
  intros s. unfold notebookDisposeCall. prun.
  split; [apply foldr_mapDelete_sublist|repeat split; reflexivity].
Qed.

Lemma setNotebook_tracked identity p s : tracked s → tracked (snd (setNotebook identity p s)).
Proof.
  intros [Hnd H].
  destruct (setNotebook_state identity p s) as (s' & Hrun & Hr & Hp & Hn & Hw).
  rewrite Hrun. cbn [snd].
  assert (Hold : ∀ identity0 q,
            (identity0, q) ∈ notebooks s →
            (identity0, q) ∈ registrations s'
            ∧ (∀ e, promises s' !! q ≠ Some (rejected e))
            ∧ (∀ nb, promises s' !! q = Some (resolved nb) →
                 identity0 ∈ default [] (disposeWrappers s' !! nb))).
  { intros identity0 q Hin. destruct (H identity0 q Hin) as (H1 & H2 & H3).
    rewrite Hr, Hp, Hw. split; [apply elem_of_app; left; exact H1|].
    split; [exact H2|]. intros nb Hnb.
    destruct (promises s !! p) as [[nb'|e|]|]; try exact (H3 nb Hnb).
    apply wrappers_grow. exact (H3 nb Hnb). }
  split.
  - rewrite Hn. destruct (promises s !! p) as [[nb|e|]|];
      try exact (NoDup_mapSet _ _ _ Hnd).
    exact (NoDup_keys_sublist _ _ (mapDelete_sublist _ _) (NoDup_mapSet _ _ _ Hnd)).
  - intros identity0 q Hin. rewrite Hn in Hin.
    destruct (promises s !! p) as [[nb|e|]|] eqn:Hpp.
    + apply elem_of_mapSet in Hin as [Heq|Hin]; [|exact (Hold _ _ Hin)].
      injection Heq as -> ->. rewrite Hr, Hp, Hw, Hpp.
      split; [apply elem_of_app; right; left|]. split; [discriminate|].
      intros nb' [= <-]. rewrite lookup_insert_eq. left.
    + apply elem_of_mapDelete in Hin as [Hin Hkey]. cbn [fst] in Hkey.
      apply elem_of_mapSet in Hin as [Heq|Hin]; [|exact (Hold _ _ Hin)].
      injection Heq as -> ->. contradiction Hkey; reflexivity.
    + apply elem_of_mapSet in Hin as [Heq|Hin]; [|exact (Hold _ _ Hin)].
      injection Heq as -> ->. rewrite Hr, Hp, Hw, Hpp.
      split; [apply elem_of_app; right; left|]. split; discriminate.
    + apply elem_of_mapSet in Hin as [Heq|Hin]; [|exact (Hold _ _ Hin)].
      injection Heq as -> ->. rewrite Hr, Hp, Hw, Hpp.
      split; [apply elem_of_app; right; left|]. split; discriminate.
Qed.

Lemma settle_tracked p outcome s : tracked s → tracked (snd (settle p outcome s)).
Proof.
  intros [Hnd H]. unfold settle. prun.
  destruct (promises s !! p) as [[nb|e|]|] eqn:Hp; prun;
    try (split; [exact Hnd|exact H]).
  all: apply runCallbacks_tracked; sfields; [exact Hnd|];
    intros identity q Hin; destruct (H identity q Hin) as (H1 & H2 & H3);
    (split; [exact H1|]);
    (destruct (decide (q = p)) as [->|Hne];
     [left; split; [reflexivity|exact H1]|
      right; rewrite lookup_insert_ne by (intros Heq; apply Hne; symmetry; exact Heq);
      split; [exact H2|exact H3]]).
Qed.

Lemma runCallbacks_ok l p : ∀ s, fst (runCallbacks l p s) = Ok tt.
Proof.
  induction l as [|[id0 p0] l IH]; intros s; [reflexivity|].
  cbn [runCallbacks]. unfold pbind.
  destruct (decide (p0 = p)); [rewrite onSettled_run|cbn [pret]]; apply IH.
Qed.

Lemma settle_unsettled_run p outcome s :
  unsettled s p →
  settle p outcome s
  = runCallbacks (registrations s) p
      (set_promises (<[p := match outcome with
                            | inl e => rejected e
                            | inr nb => resolved nb
                            end]> (promises s)) s).
Proof. intros [Hp|Hp]; unfold settle; prun; rewrite Hp; reflexivity. Qed.

(** The callbacks of a promise that was resolved with [nb] leave the
    registry alone and make the [dispose] of [nb] remove their
    identities. *)
Lemma runCallbacks_resolved p nb l :
  ∀ s, promises s !! p = Some (resolved nb) →
       notebooks (snd (runCallbacks l p s)) = notebooks s
       ∧ (∀ identity, (identity, p) ∈ l →
            identity ∈ default [] (disposeWrappers (snd (runCallbacks l p s)) !! nb))
       ∧ (∀ identity nb0,
            identity ∈ default [] (disposeWrappers s !! nb0) →
            identity ∈ default [] (disposeWrappers (snd (runCallbacks l p s)) !! nb0)).
Proof.
  induction l as [|[id0 p0] l IH]; intros s Hp.
  - cbn [runCallbacks pret snd]. split; [reflexivity|].
    split; [intros identity Hin; inversion Hin|]. intros identity nb0 H. exact H.
  - cbn [runCallbacks]. destruct (decide (p0 = p)) as [->|Hne].
    + unfold pbind. rewrite onSettled_run, Hp.
      set (s1 := set_disposeWrappers _ s).
      destruct (IH s1 Hp) as (H1 & H2 & H3).
      split; [rewrite H1; reflexivity|]. split.
      * intros identity Hin. apply elem_of_cons in Hin as [Heq|Hin]; [|exact (H2 _ Hin)].
        injection Heq as ->. apply H3. subst s1. sfields. rewrite lookup_insert_eq. left.
      * intros identity nb0 H. apply H3. subst s1. sfields. apply wrappers_grow. exact H.
    + prun. destruct (IH s Hp) as (H1 & H2 & H3).
      split; [exact H1|]. split; [|exact H3].
      intros identity Hin. apply elem_of_cons in Hin as [Heq|Hin]; [|exact (H2 _ Hin)].
      injection Heq as _ ->. contradiction Hne; reflexivity.
Qed.

(** The callbacks of a rejected promise [p] remove the identities that
    were registered with [p] and still hold it, and nothing else. *)
Lemma runCallbacks_rejected p e l :
  ∀ s, promises s !! p = Some (rejected e) →
       ∀ identity,
         (mapGet identity (notebooks s) = Some p → (identity, p) ∈ l →
          mapGet identity (notebooks (snd (runCallbacks l p s))) = None)
         ∧ (mapGet identity (notebooks s) ≠ Some p →
            mapGet identity (notebooks (snd (runCallbacks l p s)))
            = mapGet identity (notebooks s)).
Proof.
  induction l as [|[id0 p0] l IH]; intros s Hp identity.
  - cbn [runCallbacks pret snd]. split; [intros _ Hin; inversion Hin|reflexivity].
  - cbn [runCallbacks]. destruct (decide (p0 = p)) as [->|Hne].
    + unfold pbind. rewrite onSettled_run, Hp.
      destruct (decide (mapGet id0 (notebooks s) = Some p)) as [Hget|Hget].
      * set (s1 := set_notebooks _ s).
        assert (Hp1 : promises s1 !! p = Some (rejected e)) by exact Hp.
        destruct (IH s1 Hp1 identity) as [H1 H2].
        destruct (decide (id0 = identity)) as [->|Hid].
        -- assert (Hnone : mapGet identity (notebooks s1) = None)
             by apply mapGet_mapDelete_eq.
           split; [|intros H; contradiction (H Hget)].
           intros _ _. rewrite H2; [exact Hnone|]. rewrite Hnone. discriminate.
        -- assert (Hsame : mapGet identity (notebooks s1) = mapGet identity (notebooks s))
             by (apply mapGet_mapDelete_ne; exact Hid).
           split.
           ++ intros Hg Hin. apply H1; [rewrite Hsame; exact Hg|].
              apply elem_of_cons in Hin as [Heq|Hin]; [|exact Hin].
              injection Heq as ->. contradiction Hid; reflexivity.
           ++ intros Hg. rewrite H2; [exact Hsame|]. rewrite Hsame. exact Hg.
      * destruct (IH s Hp identity) as [H1 H2]. split; [|exact H2].
        intros Hg Hin. apply elem_of_cons in Hin as [Heq|Hin]; [|exact (H1 Hg Hin)].
        injection Heq as ->. contradiction (Hget Hg).
    + prun. destruct (IH s Hp identity) as [H1 H2]. split; [|exact H2].
      intros Hg Hin. apply elem_of_cons in Hin as [Heq|Hin]; [|exact (H1 Hg Hin)].
      injection Heq as _ ->. contradiction Hne; reflexivity.
Qed.

(** X20.  After [setNotebook], once the callbacks it attached to a
    promise that is settled already have run, the registry gives the promise
    back under its identity, unless the promise is rejected: then the
    identity is not registered at all, whatever it held before.  The other
    identities keep what they had. *)
Theorem setNotebook_then_getNotebook (s : JupyterServerBase.t) (identity : string)
    (p : nat) :
  fst (setNotebook identity p s) = Ok tt
  ∧ getNotebook identity (snd (setNotebook identity p s))
    = match promises s !! p with
      | Some (rejected _) => None
      | _ => Some p
      end
  ∧ (∀ identity', identity' ≠ identity →
       getNotebook identity' (snd (setNotebook identity p s)) = getNotebook identity' s).
Proof.
  destruct (setNotebook_state identity p s) as (s' & Hrun & _ & _ & Hn & _).
  rewrite Hrun. cbn [fst snd]. unfold getNotebook. rewrite Hn.
  split; [reflexivity|]. split.
  - destruct (promises s !! p) as [[nb|e|]|];
      [apply mapGet_mapSet_eq|apply mapGet_mapDelete_eq|apply mapGet_mapSet_eq..].
  - intros identity' Hne.
    assert (Hne' : identity ≠ identity') by (intros Heq; apply Hne; symmetry; exact Heq).
    destruct (promises s !! p) as [[nb|e|]|];
      rewrite ?(mapGet_mapDelete_ne _ _ _ Hne'); apply mapGet_mapSet_ne; exact Hne'.
Qed.

(** X21.  When a pending promise of the registry is rejected, every
    identity that holds it is unregistered, and every identity that holds
    another promise keeps it, also the identities that were registered with
    this promise earlier and have been given another one since. *)
Theorem rejected_promise_leaves_registry (s : JupyterServerBase.t) (p : nat)
    (e : JsError) :
  tracked s → unsettled s p →
  fst (settle p (inl e) s) = Ok tt
  ∧ ∀ identity,
      (getNotebook identity s = Some p →
       getNotebook identity (snd (settle p (inl e) s)) = None)
      ∧ (getNotebook identity s ≠ Some p →
         getNotebook identity (snd (settle p (inl e) s)) = getNotebook identity s).
Proof.
  intros [_ Ht] Hp. rewrite (settle_unsettled_run _ _ _ Hp).
  split; [apply runCallbacks_ok|]. intros identity.
  set (s0 := set_promises _ s).
  assert (Hp0 : promises s0 !! p = Some (rejected e)).
  { subst s0. sfields. apply lookup_insert_eq. }
  destruct (runCallbacks_rejected p e (registrations s) s0 Hp0 identity) as [H1 H2].
  unfold getNotebook. split; [|exact H2].
  intros Hget. apply H1; [exact Hget|].
  apply elem_of_mapGet in Hget. exact (proj1 (Ht identity p Hget)).
Qed.

(** X22.  An identity is registered with a promise [p] and then
    with another promise [q]; the registry gives [q].  When [p] is rejected
    afterwards, [q] stays registered.  But when [p] is resolved, before or
    afterwards, the [dispose] of its notebook unregisters the identity,
    although it is [q] that is registered there. *)
Theorem dispose_of_replaced_notebook_unregisters_replacement
    (s : JupyterServerBase.t) (replies : ShutdownReplies) (identity : string)
    (p q nb : nat) (e : JsError) :
  p ≠ q → (∀ e', promises s !! q ≠ Some (rejected e')) →
  let s2 := snd (setNotebook identity q (snd (setNotebook identity p s))) in
  getNotebook identity s2 = Some q
  ∧ (promises s !! p = Some (resolved nb) →
     getNotebook identity (snd (notebookDisposeCall replies nb s2)) = None)
  ∧ (unsettled s p →
     getNotebook identity (snd (settle p (inl e) s2)) = Some q
     ∧ getNotebook identity (snd (settle p (inr nb) s2)) = Some q
     ∧ getNotebook identity
         (snd (notebookDisposeCall replies nb (snd (settle p (inr nb) s2)))) = None).
Proof.
  intros Hpq Hq s2. subst s2.
  destruct (setNotebook_state identity p s) as (s1 & Hrun1 & Hr1 & Hp1 & Hn1 & Hw1).
  rewrite Hrun1. cbn [snd].
  destruct (setNotebook_state identity q s1) as (s2 & Hrun2 & Hr2 & Hp2 & Hn2 & Hw2).
  rewrite Hrun2. cbn [snd]. rewrite Hp1 in Hn2, Hw2.
  assert (Hn2' : notebooks s2 = mapSet identity q (notebooks s1)).
  { rewrite Hn2. destruct (promises s !! q) as [[nb'|e'|]|] eqn:Hqq; try reflexivity.
    exfalso. exact (Hq e' eq_refl). }
  assert (Hget2 : getNotebook identity s2 = Some q).
  { unfold getNotebook. rewrite Hn2'. apply mapGet_mapSet_eq. }
  assert (Hgrow2 : ∀ identity0 nb0,
            identity0 ∈ default [] (disposeWrappers s1 !! nb0) →
            identity0 ∈ default [] (disposeWrappers s2 !! nb0)).
  { intros identity0 nb0 H. rewrite Hw2.
    destruct (promises s !! q) as [[nb'|e'|]|]; try exact H. apply wrappers_grow. exact H. }
  assert (Hdispose : ∀ s3 : JupyterServerBase.t,
            identity ∈ default [] (disposeWrappers s3 !! nb) →
            getNotebook identity (snd (notebookDisposeCall replies nb s3)) = None).
  { intros s3 Hin. unfold notebookDisposeCall, getNotebook. prun.
    apply mapGet_foldr_mapDelete. exact Hin. }
  split; [exact Hget2|]. split.
  - intros Hp. apply Hdispose, Hgrow2. rewrite Hw1, Hp, lookup_insert_eq. left.
  - intros Hu.
    assert (Hu2 : unsettled s2 p).
    { unfold unsettled. rewrite Hp2, Hp1. exact Hu. }
    rewrite !(settle_unsettled_run _ _ _ Hu2).
    split; [|split].
    + set (s0 := set_promises _ s2).
      assert (Hp0 : promises s0 !! p = Some (rejected e)).
      { subst s0. sfields. apply lookup_insert_eq. }
      destruct (runCallbacks_rejected p e (registrations s2) s0 Hp0 identity) as [_ H2].
      unfold getNotebook in *. rewrite H2; [exact Hget2|].
      subst s0. sfields. rewrite Hget2. intros [= Heq]. apply Hpq. symmetry. exact Heq.
    + set (s0 := set_promises _ s2).
      assert (Hp0 : promises s0 !! p = Some (resolved nb)).
      { subst s0. sfields. apply lookup_insert_eq. }
      destruct (runCallbacks_resolved p nb (registrations s2) s0 Hp0) as (H1 & _).
      unfold getNotebook in *. rewrite H1. exact Hget2.
    + set (s0 := set_promises _ s2).
      assert (Hp0 : promises s0 !! p = Some (resolved nb)).
      { subst s0. sfields. apply lookup_insert_eq. }
      destruct (runCallbacks_resolved p nb (registrations s2) s0 Hp0) as (_ & H2 & _).
      apply Hdispose, H2. subst s0. sfields. rewrite Hr2, Hr1.
      apply elem_of_app. left. apply elem_of_app. right. left.
Qed.

End RegistryProperties.

Section RegistryInvariant.

Set Default Proof Using "Type".

Import JupyterServerBase.

Variable sessionDisposed : string.
Variable jupyterServerCrashed : string.
Variable connectingToJupyterUri : string.
Variable createdNewNotebook : string.
Variable format : string → list string → string.
Variable toString : Z → string.
Variable jupyterLaunchTimeout : Z.
Variable isDisposed : JupyterServerBase.t → bool.

Ltac advance :=
  repeat match goal with
         | |- advances _ (pret _) => apply advances_pret, registryShrinks_refl
         | |- advances _ (pthrow _) => apply advances_pthrow, registryShrinks_refl
         | |- advances _ pget => apply advances_pget, registryShrinks_refl
         | |- advances _ (pawaitReply _) => apply advances_pawaitReply, registryShrinks_refl
         | |- advances _ (pawait ?p) =>
             destruct p; unfold pawait;
             [apply advances_pret, registryShrinks_refl
             |apply advances_pthrow, registryShrinks_refl
             |intros ?; apply registryShrinks_refl]
         | |- advances _ (ofSum ?r) =>
             destruct r; unfold ofSum;
             [apply advances_pthrow, registryShrinks_refl
             |apply advances_pret, registryShrinks_refl]
         | |- advances _ (pbind _ _) =>
             apply advances_pbind; [apply registryShrinks_trans| |intros ?]
         | |- advances _ (ptry _ _) =>
             apply advances_ptry; [apply registryShrinks_trans| |intros ?]
         | |- advances _ (JupyterServerBase.emit _) =>
             intros ?; repeat split; reflexivity
         | |- advances _ (pmodify _) =>
             apply advances_pmodify; intros ?;
             repeat match goal with
                    | |- context [if ?x then _ else _] => destruct x
                    end; repeat split; reflexivity
         | |- advances _ (if ?x then _ else _) => destruct x
         | |- advances _ (match ?x with _ => _ end) => destruct x
         end.

(** X23.  The registry of a new server object has one entry per
    identity, each with a promise that was registered through [setNotebook],
    is not rejected and, once resolved, has a notebook whose [dispose]
    unregisters the identity.  Every operation of the class keeps it that
    way: [connect], [createNotebook], [setNotebook], the settling of a
    promise, the [dispose] of a notebook, [shutdown] and [dispose], and the
    listener for a crash of the server process, however they end. *)
Theorem registry_stays_tracked (s : JupyterServerBase.t) :
  tracked JupyterServerBase.new
  ∧ (tracked s →
     (∀ info replies,
        tracked (snd (connect connectingToJupyterUri format jupyterLaunchTimeout
                        info replies s)))
     ∧ (∀ identity instance,
          tracked (snd (createNotebook sessionDisposed createdNewNotebook format
                          isDisposed identity instance s)))
     ∧ (∀ identity p, tracked (snd (setNotebook identity p s)))
     ∧ (∀ p outcome, tracked (snd (settle p outcome s)))
     ∧ (∀ replies nb, tracked (snd (notebookDisposeCall replies nb s)))
     ∧ (∀ replies, tracked (snd (shutdown replies s)))
     ∧ (∀ replies, tracked (snd (dispose replies s)))
     ∧ (∀ replies c,
          tracked (snd (onDisconnected jupyterServerCrashed format toString
                          replies c s)))).
Proof.
  split.
  { split; [apply NoDup_nil_2|]. intros identity p Hin. inversion Hin. }
  intros Ht.
  assert (Hconnect : ∀ info replies,
            advances registryShrinks
              (connect connectingToJupyterUri format jupyterLaunchTimeout info replies)).
  { intros info replies. unfold connect, logRemoteOutput. advance. }
  assert (Hcreate : ∀ identity instance,
            advances registryShrinks
              (createNotebook sessionDisposed createdNewNotebook format isDisposed
                 identity instance)).
  { intros identity instance. unfold createNotebook, logRemoteOutput. advance. }
  split; [|split; [|split; [|split; [|split; [|split; [|split]]]]]].
  - intros info replies. exact (tracked_shrinks s _ Ht (Hconnect info replies s)).
  - intros identity instance.
    exact (tracked_shrinks s _ Ht (Hcreate identity instance s)).
  - intros identity p. apply setNotebook_tracked. exact Ht.
  - intros p outcome. apply settle_tracked. exact Ht.
  - intros replies nb. apply (tracked_shrinks s); [exact Ht|].
    apply notebookDisposeCall_registryShrinks.
  - intros replies. apply (tracked_shrinks s); [exact Ht|].
    apply shutdown_registryShrinks.
  - intros replies. apply (tracked_shrinks s); [exact Ht|].
    apply shutdown_registryShrinks.
  - intros replies c. apply (tracked_shrinks s); [exact Ht|].
    unfold onDisconnected, ptry, pignoreErrors. cbn [pbind pmodify emit fst snd].
    set (s1 := set_log _ _).
    apply (registryShrinks_trans s s1); [repeat split; reflexivity|].
    apply shutdown_registryShrinks.
Qed.

End RegistryInvariant.

(** * The interpreter cache and the refresh timers of the orchestrator *)

Section ExecutionFieldProperties.

Set Default Proof Using "Type".

Import JupyterExecution.

Variable REMOTE_URI_ID_PARAM : string.
Variable REMOTE_URI_HANDLE_PARAM : string.
Variable searchParams : string → option (string → option string).

Local Abbreviation extract_ :=
  (extractJupyterServerHandleAndId REMOTE_URI_ID_PARAM REMOTE_URI_HANDLE_PARAM searchParams).
Local Abbreviation getServerUri_ :=
  (getServerUri REMOTE_URI_ID_PARAM REMOTE_URI_HANDLE_PARAM searchParams).
Local Abbreviation updateServerUri_ :=
  (updateServerUri REMOTE_URI_ID_PARAM REMOTE_URI_HANDLE_PARAM searchParams).
Local Abbreviation onTimeout_ :=
  (onTimeout REMOTE_URI_ID_PARAM REMOTE_URI_HANDLE_PARAM searchParams).

Ltac efields :=
  cbn [usablePythonInterpreter disposed uriToJupyterServerUri pendingTimeouts timers
       nextTimer log set_usablePythonInterpreter set_disposed set_uriToJupyterServerUri
       set_pendingTimeouts set_timers set_nextTimer set_log fst snd].


Ltac erun :=
  repeat (cbn [pbind pret pget pmodify pthrow ptry pawait pignoreErrors
               JupyterExecution.emit negb andb orb defined] in *; efields;
          unfold pbind, pret, pget, pmodify, pthrow, JupyterExecution.emit in *).

(** [extractJupyterServerHandleAndId] reads the URI only. *)
Lemma extract_cases uri :
  (∀ s, extract_ uri s = (Throw TypeError, s))
  ∨ (∃ r, ∀ s, extract_ uri s = (Ok r, s)).
Proof.
  unfold extractJupyterServerHandleAndId.
  destruct (searchParams uri) as [get|]; [|left; intros s; reflexivity].
  right. destruct (get REMOTE_URI_ID_PARAM) as [i|];
    [destruct (get REMOTE_URI_HANDLE_PARAM) as [h|]|];
    [destruct (nonEmpty (Some i) && nonEmpty (Some h))|..];
    eexists; intros s; reflexivity.
Qed.

Lemma extract_anywhere uri r s :
  fst (extract_ uri s) = Ok r → ∀ s0, extract_ uri s0 = (Ok r, s0).
Proof.
  intros H. destruct (extract_cases uri) as [Ht|[r' Hr]].
  - rewrite Ht in H. discriminate H.
  - rewrite Hr in H. injection H as ->. exact Hr.
Qed.

Lemma window_withinAWeek now e :
  (0 <? e - now)%Z && (e - now <? 604800000)%Z
  = (now <? e)%Z && (e <? now + 604800000)%Z.
Proof.
  destruct (Z.ltb_spec 0 (e - now)), (Z.ltb_spec (e - now) 604800000),
    (Z.ltb_spec now e), (Z.ltb_spec e (now + 604800000)); cbn; try reflexivity; lia.
Qed.

Lemma updateServerUri_resolved uri ih serverUri now s :
  fst (extract_ uri s) = Ok (Some ih) →
  updateServerUri_ uri (resolved serverUri) now s = (Ok tt, refreshed uri ih serverUri now s).
Proof.
  intros H. pose proof (extract_anywhere _ _ _ H) as Hx.
  unfold updateServerUri, refreshed, withinAWeek. unfold pbind at 1. rewrite Hx. erun.
  destruct (IJupyterServerUri.expiration serverUri) as [e|]; [|reflexivity].
  rewrite window_withinAWeek.
  destruct ((now <? e)%Z && (e <? now + 604800000)%Z); reflexivity.
Qed.

Lemma updateServerUri_unsettled uri ih (reply : Promise IJupyterServerUri.t) now s :
  fst (extract_ uri s) = Ok (Some ih) →
  (∀ serverUri, reply ≠ resolved serverUri) →
  updateServerUri_ uri reply now s
  = (match reply with
     | rejected e => Throw e
     | _ => Pending
     end, set_log (log s ++ [GetJupyterServerUri (id ih) (handle ih)]) s).
Proof.
  intros H Hreply. pose proof (extract_anywhere _ _ _ H) as Hx.
  unfold updateServerUri. unfold pbind at 1. rewrite Hx. erun.
  destruct reply as [serverUri|e|]; [contradiction (Hreply serverUri); reflexivity|..];
    reflexivity.
Qed.

Lemma getServerUri_run uri r s :
  fst (extract_ uri s) = Ok r →
  getServerUri_ uri s
  = (Ok (match r with
         | Some _ => mapGet uri (uriToJupyterServerUri s)
         | None => None
         end), s).
Proof.
  intros H. pose proof (extract_anywhere _ _ _ H) as Hx.
  unfold getServerUri. unfold pbind at 1. rewrite Hx. destruct r; reflexivity.
Qed.




Lemma getUsableJupyterPython_asks selected s :
  usablePythonInterpreter s = None → disposed s = false →
  getUsableJupyterPython selected s
  = (match selected with
     | resolved interpreter => Ok interpreter
     | rejected e => Throw e
     | never => Pending
     end,
     match selected with
     | resolved interpreter =>
         set_usablePythonInterpreter interpreter
           (set_log (log s ++ [GetSelectedInterpreter]) s)
     | _ => set_log (log s ++ [GetSelectedInterpreter]) s
     end).
Proof.
  intros Hnone Hdisposed. unfold getUsableJupyterPython. erun.
  rewrite Hnone, Hdisposed. erun. destruct selected; reflexivity.
Qed.

Lemma getUsableJupyterPython_rests again s :
  (is_Some (usablePythonInterpreter s) ∨ disposed s = true) →
  getUsableJupyterPython again s = (Ok (usablePythonInterpreter s), s).
Proof.
  intros H. unfold getUsableJupyterPython. erun.
  destruct H as [[i Hi]|Hd]; [rewrite Hi|rewrite Hd, andb_false_r]; cbn;
    rewrite ?Hi; reflexivity.
Qed.

(** X24.  [getUsableJupyterPython] asks for the selected
    interpreter when it remembers none and the object is not disposed.  An
    interpreter that was found is remembered: later calls give it back
    without asking, whatever the answer would be now, until the settings
    change, and then the next call asks again.  An answer without an
    interpreter is not remembered, so the next call asks again.  After
    [dispose] a call that remembers nothing gives nothing and does not
    ask. *)
Theorem usable_interpreter_is_asked_for_once (s : JupyterExecution.t)
    (selected : Promise (option nat)) :
  usablePythonInterpreter s = None → disposed s = false →
  ∃ s1,
    getUsableJupyterPython selected s
    = (match selected with
       | resolved interpreter => Ok interpreter
       | rejected e => Throw e
       | never => Pending
       end, s1)
    ∧ log s1 = log s ++ [GetSelectedInterpreter]
    ∧ (∀ interpreter again,
         selected = resolved (Some interpreter) →
         getUsableJupyterPython again s1 = (Ok (Some interpreter), s1)
         ∧ log (snd (getUsableJupyterPython again (snd (onSettingsChanged s1))))
           = log s1 ++ [GetSelectedInterpreter])
    ∧ (∀ again,
         selected = resolved None →
         log (snd (getUsableJupyterPython again s1)) = log s1 ++ [GetSelectedInterpreter])
    ∧ (∀ again,
         getUsableJupyterPython again (snd (dispose s))
         = (Ok None, snd (dispose s))).
Proof.
  intros Hnone Hdisposed.
  rewrite (getUsableJupyterPython_asks selected s Hnone Hdisposed).
  eexists. split; [reflexivity|].
  split; [destruct selected; reflexivity|]. split; [|split].
  - intros interpreter again ->. split.
    + rewrite getUsableJupyterPython_rests by (left; eexists; reflexivity). reflexivity.
    + rewrite getUsableJupyterPython_asks by first [reflexivity|exact Hdisposed].
      destruct again; reflexivity.
  - intros again ->.
    rewrite getUsableJupyterPython_asks by first [reflexivity|exact Hnone|exact Hdisposed].
    destruct again; reflexivity.
  - intros again.
    rewrite getUsableJupyterPython_rests by (right; reflexivity).
    unfold dispose, clearTimeouts. erun. rewrite Hnone. reflexivity.
Qed.

(** X25.  For a URI that carries an id and a handle,
    [updateServerUri] asks the provider registration and stores the answer,
    and [getServerUri] gives that answer back; what is stored for the other
    URIs stays.  When the provider fails, [updateServerUri] fails with its
    error and what was stored before stays.  For a URI without id or handle
    [updateServerUri] asks nobody and changes nothing, and [getServerUri]
    gives nothing. *)
Theorem updateServerUri_then_getServerUri (s : JupyterExecution.t) (uri : string)
    (now : Z) :
  (∀ ih serverUri,
     fst (extract_ uri s) = Ok (Some ih) →
     ∃ s', updateServerUri_ uri (resolved serverUri) now s = (Ok tt, s')
         ∧ getServerUri_ uri s' = (Ok (Some serverUri), s')
         ∧ ∀ uri', uri' ≠ uri → fst (getServerUri_ uri' s') = fst (getServerUri_ uri' s))
  ∧ (∀ ih e,
       fst (extract_ uri s) = Ok (Some ih) →
       ∃ s', updateServerUri_ uri (rejected e) now s = (Throw e, s')
           ∧ log s' = log s ++ [GetJupyterServerUri (id ih) (handle ih)]
           ∧ ∀ uri', getServerUri_ uri' s' = (fst (getServerUri_ uri' s), s'))
  ∧ (fst (extract_ uri s) = Ok None →
     ∀ reply, updateServerUri_ uri reply now s = (Ok tt, s)
              ∧ getServerUri_ uri s = (Ok None, s)).
Proof.
  split; [|split].
  - intros ih serverUri H. pose proof (extract_anywhere _ _ _ H) as Hx.
    rewrite (updateServerUri_resolved _ _ _ _ _ H). eexists. split; [reflexivity|].
    assert (Hmap : uriToJupyterServerUri (refreshed uri ih serverUri now s)
                   = mapSet uri serverUri (uriToJupyterServerUri s)).
    { unfold refreshed. destruct (IJupyterServerUri.expiration serverUri);
        [destruct (withinAWeek now serverUri)|]; reflexivity. }
    split.
    + rewrite (getServerUri_run uri (Some ih)) by (rewrite Hx; reflexivity).
      rewrite Hmap, mapGet_mapSet_eq. reflexivity.
    + intros uri' Hne. destruct (extract_cases uri') as [Ht|[r Hr]].
      * unfold getServerUri. unfold pbind. rewrite !Ht. reflexivity.
      * rewrite !(getServerUri_run uri' r) by (rewrite Hr; reflexivity).
        cbn [fst]. rewrite Hmap.
        rewrite mapGet_mapSet_ne by (intros Heq; apply Hne; symmetry; exact Heq).
        reflexivity.
  - intros ih e H.
    rewrite (updateServerUri_unsettled _ ih) by first [exact H|discriminate].
    eexists. split; [reflexivity|]. split; [reflexivity|].
    intros uri'. destruct (extract_cases uri') as [Ht|[r Hr]].
    + unfold getServerUri. unfold pbind. rewrite !Ht. reflexivity.
    + rewrite !(getServerUri_run uri' r) by (rewrite Hr; reflexivity). reflexivity.
  - intros H reply. pose proof (extract_anywhere _ _ _ H) as Hx.
    split.
    + unfold updateServerUri. unfold pbind at 1. rewrite Hx. reflexivity.
    + rewrite (getServerUri_run uri None) by exact H. reflexivity.
Qed.

(** X26.  A refresh of the stored answer is armed exactly when the
    answer expires later than now and less than a week from now: then one
    timer is armed with the time that is left, and when it fires the
    provider is asked again for the same URI.  An answer that has expired
    already, expires a week or more from now or does not expire arms
    nothing. *)
Theorem refresh_is_armed_within_a_week (s : JupyterExecution.t) (uri : string)
    (ih : HandleAndId) (serverUri : IJupyterServerUri.t) (now : Z) :
  fst (extract_ uri s) = Ok (Some ih) →
  let s' := snd (updateServerUri_ uri (resolved serverUri) now s) in
  (∀ e, IJupyterServerUri.expiration serverUri = Some e →
        (now < e < now + 604800000)%Z →
        timers s' = <[nextTimer s := (uri, (e - now)%Z)]> (timers s)
        ∧ pendingTimeouts s' = pendingTimeouts s ++ [nextTimer s]
        ∧ ∀ reply now',
            ∃ l, log (snd (onTimeout_ (nextTimer s) reply now' s'))
                 = log s' ++ GetJupyterServerUri (id ih) (handle ih) :: l)
  ∧ ((∀ e, IJupyterServerUri.expiration serverUri = Some e →
           (e ≤ now ∨ now + 604800000 ≤ e)%Z) →
     timers s' = timers s ∧ pendingTimeouts s' = pendingTimeouts s).
Proof.
  intros H s'. subst s'. pose proof (extract_anywhere _ _ _ H) as Hx.
  rewrite (updateServerUri_resolved _ _ _ _ _ H). cbn [snd].
  unfold refreshed, withinAWeek. split.
  - intros e He Hwindow. rewrite He.
    replace ((now <? e)%Z && (e <? now + 604800000)%Z) with true
      by (symmetry; apply andb_true_iff; split; apply Z.ltb_lt; lia).
    efields. split; [reflexivity|]. split; [reflexivity|].
    intros reply now'. unfold onTimeout. erun. rewrite lookup_insert_eq. erun.
    unfold pignoreErrors. cbn [snd].
    match goal with
    | |- context [updateServerUri _ _ _ uri reply now' ?s0] => set (s1 := s0)
    end.
    destruct reply as [serverUri'|e'|].
    + rewrite (updateServerUri_resolved uri ih) by (rewrite Hx; reflexivity).
      cbn [snd]. unfold refreshed.
      destruct (IJupyterServerUri.expiration serverUri') as [e'|];
        [destruct (withinAWeek now' serverUri')|]; subst s1; efields.
      * exists [SetTimeout (S (nextTimer s)) uri (e' - now')%Z].
        rewrite <- !(assoc_L (++)). reflexivity.
      * exists []. reflexivity.
      * exists []. reflexivity.
    + rewrite (updateServerUri_unsettled uri ih) by first [rewrite Hx; reflexivity|discriminate].
      subst s1. efields. exists []. reflexivity.
    + rewrite (updateServerUri_unsettled uri ih) by first [rewrite Hx; reflexivity|discriminate].
      subst s1. efields. exists []. reflexivity.
  - intros Hout. destruct (IJupyterServerUri.expiration serverUri) as [e|];
      [|split; reflexivity].
    replace ((now <? e)%Z && (e <? now + 604800000)%Z) with false; [split; reflexivity|].
    symmetry. apply andb_false_iff.
    destruct (Hout e eq_refl); [left|right]; apply Z.ltb_ge; lia.
Qed.


End ExecutionFieldProperties.

(** * The further theorems at concrete inputs *)

Lemma shutdownSession_disposes_handle_witness :
  ∃ w' s' log,
    shutdownSession resourceTypeBySuffix (Some 1) (Some statusHandler) None startingWorld
    = (Ok tt, w')
    ∧ heap w' !! 1 = Some s'
    ∧ ISession.isDisposed s' = true
    ∧ effects w' = effects startingWorld ++ log
    ∧ SessionShutdown 1 ∈ log.
Proof.
  destruct (shutdownSession_disposes_handle resourceTypeBySuffix startingWorld 1
              (localNotebook Kernel.starting) (Some statusHandler) None)
    as (w' & s' & log & Hrun & Hheap & Hd & _ & _ & He & Hs & _).
  - reflexivity.
  - reflexivity.
  - exists w', s', log. split; [exact Hrun|]. split; [exact Hheap|]. split; [exact Hd|].
    split; [exact He|]. apply Hs. split; reflexivity.
Defined.

Lemma missing_session_is_ignored_witness :
  waitForIdleOnSession resourceTypeBySuffix "Timed out waiting for idle" "jupyter.widget"
    None 1000 None [SleepOver 2000] emptyWorld
  = (Ok tt, emptyWorld).
Proof.
  apply (missing_session_is_ignored resourceTypeBySuffix "Timed out waiting for idle"
           "jupyter.widget" emptyWorld None (Some statusHandler) None 1000 [SleepOver 2000]).
  reflexivity.
Defined.

Lemma waitForIdle_idle_signal_witness :
  ∃ w', waitForIdleOnSession resourceTypeBySuffix "Timed out waiting for idle"
          "jupyter.widget" (Some 1) 1000 None
          ([StatusChanged Kernel.busy] ++ StatusChanged Kernel.idle :: [])
          startingWorld
        = (Ok tt, w')
      ∧ effects w' = effects startingWorld ++ [KernelRegisterCommTarget 1 "jupyter.widget"].
Proof.
  destruct (waitForIdle_idle_signal resourceTypeBySuffix "Timed out waiting for idle"
              "jupyter.widget" startingWorld 1 (localNotebook Kernel.starting)
              (aKernel "k1" Kernel.starting) 1000 None
              [StatusChanged Kernel.busy] (StatusChanged Kernel.idle) [])
    as (w' & s' & ki & Hrun & He & _).
  - reflexivity.
  - reflexivity.
  - discriminate.
  - lia.
  - reflexivity.
  - reflexivity.
  - exists w'. split; [exact Hrun|exact He].
Defined.

Lemma standbyWorld_ioPubExclusive : ioPubExclusive standbyWorld.
Proof.
  intros r s Hr Hin. cbn in Hr.
  apply lookup_insert_Some in Hr as [[_ <-]|[_ Hr]]; [inversion Hin|].
  apply lookup_singleton_Some in Hr as [_ <-]. inversion Hin.
Qed.

Lemma setSession_moves_ioPubHandler_witness :
  ioPubExclusive (snd (setSession (Some 2) standbyWorld))
  ∧ _session (snd (setSession (Some 2) standbyWorld)) = Some 2
  ∧ ∃ s', heap (snd (setSession (Some 2) standbyWorld)) !! 2 = Some s'
          ∧ ioPubHandler ∈ ISession.iopubMessage s'.
Proof.
  destruct (setSession_moves_ioPubHandler standbyWorld (Some 2) standbyWorld_ioPubExclusive)
    as (Hex & Hs & Hnew & _).
  split; [exact Hex|]. split; [exact Hs|].
  apply (Hnew 2 standbySession); reflexivity.
Defined.

Lemma changeKernel_switches_or_fails_witness :
  ∃ w', changeKernel resourceTypeBySuffix hasKernelSpecUnlessLive createsSession2
          (Some scriptUri) (specMetadata "B") 1000 defaultKernelWorld
        = (Ok tt, w')
      ∧ _session w' = Some 2
      ∧ kernelConnectionMetadata w' = Some (specMetadata "B").
Proof.
  destruct (changeKernel_switches_or_fails resourceTypeBySuffix hasKernelSpecUnlessLive
              createsSession2 defaultKernelWorld (Some scriptUri) (specMetadata "B") 1000)
    as [_ Hswitch].
  - intros m [= <-]. discriminate.
  - destruct (Hswitch 2
                (set_effects
                   (effects defaultKernelWorld
                    ++ [TrackKernelResourceInformation (Some scriptUri) (specMetadata "B");
                        CreateNewKernelSession (Some scriptUri) (specMetadata "B") 1000])
                   (set_resource (Some scriptUri) defaultKernelWorld))
                1
                 (aSession (aKernel "k1" Kernel.idle) (Some notebookUri) None
                    (defaultMetadata "A"))
                 standbySession (aKernel "k2" Kernel.idle))
      as (w' & so' & sn' & Hrun & Hs & Hm & _).
    + reflexivity.
    + reflexivity.
    + reflexivity.
    + reflexivity.
    + discriminate.
    + reflexivity.
    + reflexivity.
    + exists w'. split; [exact Hrun|]. split; [exact Hs|exact Hm].
Defined.

Lemma shutdown_leaves_nothing_running_witness :
  ∃ w1, shutdown resourceTypeBySuffix rejectedStandbyWorld = (Ok tt, w1)
      ∧ _session w1 = None
      ∧ getServerStatus w1 = Ok ServerStatus.NotStarted
      ∧ requestExecute "Session disposed" "1 + 1" w1
        = (Throw (Error "Session disposed"), w1).
Proof.
  destruct (shutdown_leaves_nothing_running resourceTypeBySuffix "Session disposed"
              rejectedStandbyWorld 1 (localNotebook Kernel.idle))
    as (w1 & s1 & Hrun & Hs & Hst & _ & _ & _ & _ & _ & _ & Hreq).
  - reflexivity.
  - reflexivity.
  - reflexivity.
  - discriminate.
  - exists w1. split; [exact Hrun|]. split; [exact Hs|]. split; [exact Hst|apply Hreq].
Defined.

Lemma interrupt_is_silent_on_timeout_witness :
  ∃ w', interrupt "Interrupting kernel failed" 1000 unresponsiveWorld = (Ok tt, w')
      ∧ effects w' = effects unresponsiveWorld ++ [KernelInterrupt 1].
Proof.
  destruct (interrupt_is_silent_on_timeout "Interrupting kernel failed" unresponsiveWorld 1
              unresponsiveNotebook 1000)
    as (w' & s' & Hrun & He & _).
  - reflexivity.
  - reflexivity.
  - reflexivity.
  - exists w'. split; [exact Hrun|exact He].
Defined.

Lemma loop_respects_options_witness :
  ∃ st, finalState (connectToNotebookServer hasKernelSpecUnlessLive "remote" "local"
                      formatArgs quietOptions 3 rejectsCertificate false)
        = Some st
      ∧ Forall (λ e, prompts e = false) (events st)
      ∧ RemoteFindKernel ∉ events st.
Proof.
  eexists. split; [reflexivity|].
  destruct (loop_respects_options hasKernelSpecUnlessLive "remote" "local" formatArgs
              quietOptions 3 rejectsCertificate false _ eq_refl)
    as (Hui & _ & Hskip & _).
  split; [apply Hui; reflexivity|apply Hskip; reflexivity].
Defined.

Lemma no_attempt_when_disposed_or_without_tries_witness :
  ∃ st, connectToNotebookServer hasKernelSpecUnlessLive "remote" "local" formatArgs
          localOptions 3 timesOutTwice true
        = Returned None st
      ∧ events st = [SendTelemetryEvent JupyterStartTimeout; ShowStartTimedOut].
Proof.
  apply (no_attempt_when_disposed_or_without_tries hasKernelSpecUnlessLive "remote" "local"
           formatArgs localOptions 3 timesOutTwice true).
  left. reflexivity.
Defined.

Lemma every_pass_times_out_witness :
  ∃ st err,
    serverConnect (alwaysTimesOut 3) = Some err
    ∧ errorClass err = IsJupyterWaitForIdleError
    ∧ connectToNotebookServer hasKernelSpecUnlessLive "remote" "local" formatArgs
        localOptions 3 alwaysTimesOut false
      = Threw (translate "remote" "local" formatArgs localOptions
                 (localConnection 3) err) st
    ∧ lifecycle (events st)
      = flat_map (timedOutPass 3 (λ n, localConnection (Z.to_nat n))) (seqZ 1 3).
Proof.
  apply (every_pass_times_out hasKernelSpecUnlessLive "remote" "local" formatArgs
           localOptions 3 alwaysTimesOut (λ n, localConnection (Z.to_nat n))).
  - lia.
  - intros n _. exists (Some (specMetadata "A")), None, idleTimedOut.
    repeat split; reflexivity.
Defined.

Lemma later_failure_reuses_earlier_handles_witness :
  ∃ st, connectToNotebookServer hasKernelSpecUnlessLive "remote" "local" formatArgs
          localOptions 3 timesOutThenNeverStarts false
        = Threw (translate "remote" "local" formatArgs localOptions
                   (localConnection 1) refused) st
      ∧ lifecycle (events st)
        = [StartOrConnect 1; ServerCreated 1; ServerDispose 1; ConnectionDispose 1;
           StartOrConnect 2; ServerDispose 1].
Proof.
  apply (later_failure_reuses_earlier_handles hasKernelSpecUnlessLive "remote" "local"
           formatArgs localOptions 3 timesOutThenNeverStarts (localConnection 1) refused).
  - lia.
  - exists (Some (specMetadata "A")), None, idleTimedOut. repeat split; reflexivity.
  - reflexivity.
  - reflexivity.
  - discriminate.
Defined.

Lemma disposesFine_cooperative : cooperative disposesFine.
Proof. split; [reflexivity|]. split; [intros n; reflexivity|intros e; discriminate]. Qed.

Lemma serverWithNotebook_settled : settled serverWithNotebook.
Proof.
  intros identity p Hin.
  assert (Hn : JupyterServerBase.notebooks serverWithNotebook
               = [("file:///work/analysis.ipynb", 5)]) by reflexivity.
  rewrite Hn in Hin. apply list_elem_of_singleton in Hin. injection Hin as _ ->.
  exists 50. reflexivity.
Qed.

Lemma serverWithNotebook_tracked : tracked serverWithNotebook.
Proof.
  split.
  - assert (Hn : JupyterServerBase.notebooks serverWithNotebook
                 = [("file:///work/analysis.ipynb", 5)]) by reflexivity.
    rewrite Hn. apply NoDup_singleton.
  - intros identity p Hin.
    assert (Hn : JupyterServerBase.notebooks serverWithNotebook
                 = [("file:///work/analysis.ipynb", 5)]) by reflexivity.
    rewrite Hn in Hin. apply list_elem_of_singleton in Hin. injection Hin as -> ->.
    split; [left|]. split; [intros e; discriminate|].
    intros nb [= <-]. left.
Qed.

Lemma serverWithPendingNotebook_tracked : tracked serverWithPendingNotebook.
Proof.
  split.
  - assert (Hn : JupyterServerBase.notebooks serverWithPendingNotebook
                 = [("file:///work/analysis.ipynb", 5)]) by reflexivity.
    rewrite Hn. apply NoDup_singleton.
  - intros identity p Hin.
    assert (Hn : JupyterServerBase.notebooks serverWithPendingNotebook
                 = [("file:///work/analysis.ipynb", 5)]) by reflexivity.
    rewrite Hn in Hin. apply list_elem_of_singleton in Hin. injection Hin as -> ->.
    split; [left|]. split; [intros e; discriminate|]. intros nb; discriminate.
Qed.

Lemma server_shutdown_order_witness :
  ∃ s', JupyterServerBase.shutdown disposesFine serverWithNotebook = (Ok tt, s')
      ∧ JupyterServerBase.log s'
        = JupyterServerBase.log serverWithNotebook
          ++ [JupyterServerBase.DisconnectHandlerDispose 0;
              JupyterServerBase.SavedSessionDispose 20;
              JupyterServerBase.NotebookDispose 50;
              JupyterServerBase.SessionManagerDispose 10;
              JupyterServerBase.ConnectionInfoDispose 1]
      ∧ JupyterServerBase.getConnectionInfo s' = None.
Proof.
  destruct (server_shutdown_order serverWithNotebook disposesFine) as [_ H].
  destruct (H disposesFine_cooperative serverWithNotebook_settled)
    as (s' & Hrun & Hlog & _ & _ & _ & _ & Hinfo).
  exists s'. split; [exact Hrun|]. split; [rewrite Hlog; reflexivity|exact Hinfo].
Defined.

Lemma server_shutdown_twice_witness :
  ∃ s', JupyterServerBase.shutdown disposesFine serverWithNotebook = (Ok tt, s')
      ∧ JupyterServerBase.notebooks s' = []
      ∧ JupyterServerBase.shutdown savedSessionFails s' = (Ok tt, s').
Proof.
  exact (server_shutdown_twice serverWithNotebook disposesFine savedSessionFails
           disposesFine_cooperative serverWithNotebook_settled serverWithNotebook_tracked).
Defined.

Lemma server_shutdown_stops_at_failure_witness :
  ∃ s', JupyterServerBase.shutdown savedSessionFails connectedServer = (Ok tt, s')
      ∧ JupyterServerBase.log s'
        = JupyterServerBase.log connectedServer
          ++ [JupyterServerBase.DisconnectHandlerDispose 0;
              JupyterServerBase.SavedSessionDispose 20;
              JupyterServerBase.TraceError "Error during shutdown: "]
      ∧ JupyterServerBase.savedSession s' = Some 20
      ∧ JupyterServerBase.sessionManager s' = Some 10.
Proof.
  destruct (server_shutdown_stops_at_failure connectedServer savedSessionFails) as [H _].
  destruct (H 20 (Error "kernel is gone") eq_refl eq_refl)
    as (s' & Hrun & Hlog & Hsaved & Hmanager & _).
  exists s'. split; [exact Hrun|]. split; [rewrite Hlog; reflexivity|].
  split; [exact Hsaved|rewrite Hmanager; reflexivity].
Defined.

Lemma connect_keeps_or_discards_probe_session_witness :
  ∃ s', JupyterServerBase.connect "Connecting to" formatStrings 60000 remoteLaunchInfo
          connectsFine JupyterServerBase.new
        = (Ok tt, s')
      ∧ JupyterServerBase.savedSession s' = None
      ∧ JupyterServerBase.sessionManager s' = Some 10
      ∧ JupyterServerBase.log s'
        = [JupyterServerBase.OutputAppendLine "Connecting to https://hub.example.org/";
           JupyterServerBase.SessionManagerFactoryCreate remoteConnection;
           JupyterServerBase.SessionManagerStartNew 10 (Some (specMetadata "A")) (Some true);
           JupyterServerBase.SessionWaitForIdle 20 60000;
           JupyterServerBase.SessionShutdown 20].
Proof.
  pose proof (connect_keeps_or_discards_probe_session "Connecting to" formatStrings 60000
                JupyterServerBase.new remoteLaunchInfo connectsFine 10 20
                eq_refl eq_refl eq_refl) as H.
  cbv zeta in H. destruct H as [_ H].
  destruct (H eq_refl) as (s' & Hrun & Hsaved & Hmanager & _ & Hlog).
  exists s'. split; [exact Hrun|]. split; [exact Hsaved|]. split; [exact Hmanager|].
  rewrite Hlog. reflexivity.
Defined.

Lemma failed_connect_then_dispose_witness :
  ∃ s1 s2,
    JupyterServerBase.connect "Connecting to" formatStrings 60000 localLaunchInfo neverIdle
      JupyterServerBase.new
    = (Throw (JupyterWaitForIdleError "Timed out waiting for idle"), s1)
    ∧ JupyterServerBase.savedSession s1 = None
    ∧ JupyterServerBase.dispose disposesFine s1 = (Ok tt, s2)
    ∧ JupyterServerBase.SessionShutdown 20 ∉ JupyterServerBase.log s2.
Proof.
  destruct (failed_connect_then_dispose "Connecting to" formatStrings 60000 localLaunchInfo
              neverIdle disposesFine 10 20
              (JupyterWaitForIdleError "Timed out waiting for idle")
              eq_refl eq_refl eq_refl disposesFine_cooperative)
    as (s1 & s2 & Hconnect & Hsaved & Hdispose & _ & Hnot & _).
  exists s1, s2. split; [exact Hconnect|]. split; [exact Hsaved|].
  split; [exact Hdispose|exact Hnot].
Defined.

Lemma createNotebook_hands_saved_session_over_once_witness :
  ∃ s' l,
    JupyterServerBase.createNotebook "Session disposed" "Created notebook at" formatStrings
      (λ _, false) "file:///work/analysis.ipynb" (resolved 50) connectedServer
    = (Ok 50, s')
    ∧ JupyterServerBase.savedSession s' = None
    ∧ JupyterServerBase.log s'
      = JupyterServerBase.log connectedServer
        ++ JupyterServerBase.CreateNotebookInstance "file:///work/analysis.ipynb" (Some 20)
           :: l.
Proof.
  destruct (createNotebook_hands_saved_session_over_once "Session disposed"
              "Created notebook at" formatStrings (λ _, false) connectedServer
              "file:///work/analysis.ipynb" (resolved 50)) as [_ H].
  destruct H as (s' & l & Hrun & Hsaved & _ & Hlog & _).
  - discriminate.
  - reflexivity.
  - exists s', l. split; [exact Hrun|]. split; [exact Hsaved|exact Hlog].
Defined.

Lemma rejected_promise_leaves_registry_witness :
  JupyterServerBase.getNotebook "file:///work/analysis.ipynb" serverWithPendingNotebook
  = Some 5
  ∧ JupyterServerBase.getNotebook "file:///work/analysis.ipynb"
      (snd (JupyterServerBase.settle 5 (inl (Error "no kernel")) serverWithPendingNotebook))
    = None.
Proof.
  destruct (rejected_promise_leaves_registry serverWithPendingNotebook 5 (Error "no kernel")
              serverWithPendingNotebook_tracked) as [_ H].
  - left. reflexivity.
  - split; [reflexivity|]. apply (H "file:///work/analysis.ipynb"). reflexivity.
Defined.

Lemma dispose_of_replaced_notebook_unregisters_replacement_witness :
  let s2 := snd (JupyterServerBase.setNotebook "file:///work/analysis.ipynb" 6
                   (snd (JupyterServerBase.setNotebook "file:///work/analysis.ipynb" 5
                           connectedServer))) in
  JupyterServerBase.getNotebook "file:///work/analysis.ipynb" s2 = Some 6
  ∧ JupyterServerBase.getNotebook "file:///work/analysis.ipynb"
      (snd (JupyterServerBase.settle 5 (inl (Error "no kernel")) s2)) = Some 6
  ∧ JupyterServerBase.getNotebook "file:///work/analysis.ipynb"
      (snd (JupyterServerBase.notebookDisposeCall disposesFine 50
              (snd (JupyterServerBase.settle 5 (inr 50) s2)))) = None.
Proof.
  pose proof (dispose_of_replaced_notebook_unregisters_replacement connectedServer
                disposesFine "file:///work/analysis.ipynb" 5 6 50 (Error "no kernel")) as H.
  cbv zeta in *. destruct H as (Hq & _ & Hlate).
  - lia.
  - intros e'. discriminate.
  - split; [exact Hq|]. destruct Hlate as (Hrejected & _ & Hdisposed).
    + left. reflexivity.
    + split; [exact Hrejected|exact Hdisposed].
Defined.

Lemma registry_stays_tracked_witness :
  tracked (snd (JupyterServerBase.setNotebook "file:///work/analysis.ipynb" 5
                  JupyterServerBase.new))
  ∧ tracked (snd (JupyterServerBase.shutdown disposesFine JupyterServerBase.new)).
Proof.
  destruct (registry_stays_tracked "Session disposed" "Jupyter server crashed"
              "Connecting to" "Created notebook at" formatStrings (λ _, "1") 60000
              (λ _, false) JupyterServerBase.new) as [Hnew H].
  destruct (H Hnew) as (_ & _ & Hset & _ & _ & Hshutdown & _).
  split; [apply Hset|apply Hshutdown].
Defined.

Lemma usable_interpreter_is_asked_for_once_witness :
  ∃ s1, JupyterExecution.getUsableJupyterPython (resolved (Some 3)) JupyterExecution.new
        = (Ok (Some 3), s1)
      ∧ JupyterExecution.getUsableJupyterPython never s1 = (Ok (Some 3), s1).
Proof.
  destruct (usable_interpreter_is_asked_for_once JupyterExecution.new (resolved (Some 3))
              eq_refl eq_refl) as (s1 & Hrun & _ & Hagain & _).
  exists s1. split; [exact Hrun|]. apply (Hagain 3 never). reflexivity.
Defined.

Lemma updateServerUri_then_getServerUri_witness :
  ∃ s', JupyterExecution.updateServerUri "id" "uriHandle" exampleSearchParams providerUri
          (resolved (expiringAt None)) 1000 JupyterExecution.new
        = (Ok tt, s')
      ∧ JupyterExecution.getServerUri "id" "uriHandle" exampleSearchParams providerUri s'
        = (Ok (Some (expiringAt None)), s').
Proof.
  destruct (updateServerUri_then_getServerUri "id" "uriHandle" exampleSearchParams
              JupyterExecution.new providerUri 1000) as [H _].
  destruct (H {| JupyterExecution.handle := "h-7"; JupyterExecution.id := "provider-1" |}
              (expiringAt None) eq_refl) as (s' & Hrun & Hget & _).
  exists s'. split; [exact Hrun|exact Hget].
Defined.

Lemma refresh_is_armed_within_a_week_witness :
  JupyterExecution.timers
    (snd (JupyterExecution.updateServerUri "id" "uriHandle" exampleSearchParams providerUri
            (resolved (expiringAt (Some 61000%Z))) 1000 JupyterExecution.new))
  = <[0%nat := (providerUri, 60000%Z)]> ∅
  ∧ JupyterExecution.pendingTimeouts
      (snd (JupyterExecution.updateServerUri "id" "uriHandle" exampleSearchParams
              providerUri (resolved (expiringAt (Some 61000%Z))) 1000 JupyterExecution.new))
    = [0%nat].
Proof.
  pose proof (refresh_is_armed_within_a_week "id" "uriHandle" exampleSearchParams
                JupyterExecution.new providerUri
                {| JupyterExecution.handle := "h-7"; JupyterExecution.id := "provider-1" |}
                (expiringAt (Some 61000%Z)) 1000 eq_refl) as H.
  cbv zeta in H. destruct H as [H _].
  destruct (H 61000%Z eq_refl) as (Htimers & Hpending & _).
  - lia.
  - split; [exact Htimers|exact Hpending].
Defined.

